(** * Employee portal: credential checks and the transaction-authorization
      state machine

    A shallow embedding of [server/models/Employee.js] and
    [server/routes/employees.js].  Route handlers are written in a small
    monad that threads the two MongoDB collections and the audit log and
    has the three ways a JavaScript handler step can end: fall through to
    the next statement, send a response ([return res.status(..).json(..)]),
    or throw.  Values of the JavaScript type Number that carry money are
    IEEE-754 binary64 values ([spec_float] at precision 53). *)

From Stdlib Require Import ZArith Bool List String Ascii Lia.
From Stdlib Require Import Floats.SpecFloat.
From Stdlib Require Import Permutation.
Import ListNotations.

Open Scope Z_scope.
Open Scope string_scope.

(* ================================================================= *)
(** ** JavaScript values used by the handlers *)

Module JS.

(** A JavaScript Number: binary64. *)
Definition Number : Type := spec_float.

Definition prec : Z := 53.
Definition emax : Z := 1024.

(** The Number denoted by an integer numeral (round to nearest, ties to
    even), as produced by a numeric literal or by [JSON.parse]. *)
Definition Number_of_Z (z : Z) : Number := binary_normalize prec emax z 0 false.

(** [a / b] on Numbers. *)
Definition div (a b : Number) : Number := SFdiv prec emax a b.

(** [a > b] on Numbers: false as soon as one side is NaN. *)
Definition gt (a b : Number) : bool := SFltb b a.

(** Strings.  A character stands for one UTF-16 code unit in the range
    0..255; [String.length] is then the [.length] of the JavaScript
    string. *)
Definition in_range (lo hi c : ascii) : bool :=
  (N_of_ascii lo <=? N_of_ascii c)%N && (N_of_ascii c <=? N_of_ascii hi)%N.

Definition is_upper (c : ascii) : bool := in_range "A" "Z" c.
Definition is_lower (c : ascii) : bool := in_range "a" "z" c.
Definition is_digit (c : ascii) : bool := in_range "0" "9" c.

(** [/^[cls]{lo,hi}$/.test(s)]: no flags, so [^] and [$] are the two ends
    of the input and the quantifier counts code units. *)
Definition test_class (cls : ascii -> bool) (lo hi : nat) (s : string) : bool :=
  (lo <=? String.length s)%nat && (String.length s <=? hi)%nat
  && forallb cls (list_ascii_of_string s).

(** Truthiness of a property that is either absent or a string. *)
Definition truthy (v : option string) : bool :=
  match v with
  | None => false
  | Some s => negb (s =? EmptyString)
  end.

(** [String(v)], the coercion [RegExp.prototype.test] applies. *)
Definition toString (v : option string) : string :=
  match v with
  | None => "undefined"
  | Some s => s
  end.

(** [v || d] for such a property. *)
Definition or_else (v : option string) (d : string) : string :=
  match v with
  | Some s => if s =? EmptyString then d else s
  | None => d
  end.

Definition toLowerCase_char (c : ascii) : ascii :=
  if is_upper c then ascii_of_N (N_of_ascii c + 32) else c.

Fixpoint toLowerCase (s : string) : string :=
  match s with
  | EmptyString => EmptyString
  | String c r => String (toLowerCase_char c) (toLowerCase r)
  end.

End JS.

Definition Number : Type := JS.Number.

(* ================================================================= *)
(** ** JSON values *)

(** What [express.json()] leaves in [req.body]: the values of JSON, and
    [undefined] for a property the body does not have. *)
#[warnings="-register-all"]
Inductive JsValue : Type :=
| JUndefined
| JNull
| JBool (b : bool)
| JNumber (n : Number)
| JString (s : string)
| JArray (items : list JsValue)
| JObject (fields : list (string * JsValue)).

(** [!v] is [negb (truthy_value v)]: [undefined], [null], [false], NaN,
    the zeros and the empty string are falsy, every array and object is
    truthy. *)
Definition truthy_value (v : JsValue) : bool :=
  match v with
  | JUndefined | JNull => false
  | JBool b => b
  | JNumber S754_nan | JNumber (S754_zero _) => false
  | JNumber _ => true
  | JString s => negb (s =? EmptyString)
  | JArray _ | JObject _ => true
  end.

(** [typeof v] *)
Definition typeof (v : JsValue) : string :=
  match v with
  | JUndefined => "undefined"
  | JBool _ => "boolean"
  | JNumber _ => "number"
  | JString _ => "string"
  | JNull | JArray _ | JObject _ => "object"
  end.

Definition has_own (key : string) (fields : list (string * JsValue)) : bool :=
  existsb (fun kv => fst kv =? key) fields.

Section Coercion.

(** [Number.prototype.toString], the shortest decimal text that reads
    back as the Number; the coercions below only pass it on. *)
Variable Number_toString : Number -> string.

(** [ToString(v)], the coercion [RegExp.prototype.test] applies to its
    argument; [None] is a thrown TypeError.  An array is joined with
    commas, [null] and [undefined] elements giving the empty text.  An
    object parsed from JSON prints as '[object Object]', unless it has a
    property [toString] of its own: that property is no function, and
    neither it nor [valueOf] yields a primitive. *)
Fixpoint ToString (v : JsValue) : option string :=
  match v with
  | JUndefined => Some "undefined"
  | JNull => Some "null"
  | JBool b => Some (if b then "true" else "false")
  | JNumber n => Some (Number_toString n)
  | JString s => Some s
  | JArray items =>
      (fix join (l : list JsValue) : option string :=
         match l with
         | [] => Some EmptyString
         | x :: rest =>
             let element :=
               match x with
               | JUndefined | JNull => Some EmptyString
               | _ => ToString x
               end in
             match rest with
             | [] => element
             | _ :: _ =>
                 match element, join rest with
                 | Some a, Some b => Some (a ++ "," ++ b)
                 | _, _ => None
                 end
             end
         end) items
  | JObject fields =>
      if has_own "toString" fields then None else Some "[object Object]"
  end.

End Coercion.

(* ================================================================= *)
(** ** Documents *)

(** A MongoDB ObjectId, kept as the lower-case hexadecimal text that
    [_id.toString()] prints. *)
Definition ObjectId : Type := string.

Definition is_hex (c : ascii) : bool :=
  JS.is_digit c || JS.in_range "a" "f" c || JS.in_range "A" "F" c.

(** [/^[0-9a-fA-F]{24}$/.test(id)] *)
Definition objectIdFormat (id : string) : bool := JS.test_class is_hex 24 24 id.

(** Casting the text of an id to an ObjectId, as Mongoose does for [_id]
    in [findById] and in query filters: the hexadecimal digits are read
    without regard to case; text that is not an id makes the query throw
    a CastError ([None]).  Only the 24-digit form is modelled (some
    driver versions also take any 12-character string). *)
Definition castObjectId (id : string) : option ObjectId :=
  if objectIdFormat id then Some (JS.toLowerCase id) else None.

(** [role] of the Employee schema: [enum: ['EMPLOYEE','ADMIN','SUPERVISOR']]. *)
Inductive Role : Type := EMPLOYEE | ADMIN | SUPERVISOR.

Definition Role_eqb (a b : Role) : bool :=
  match a, b with
  | EMPLOYEE, EMPLOYEE | ADMIN, ADMIN | SUPERVISOR, SUPERVISOR => true
  | _, _ => false
  end.

(** A date is its time value: milliseconds since the epoch. *)
Definition Date : Type := Z.

(** [employeeSchema].  [failedLoginAttempts] is a counter that only ever
    holds small whole numbers, on which Number arithmetic is exact; it is
    kept as an integer. *)
Record Employee : Type := mkEmployee {
  _id : ObjectId;
  employeeId : string;
  fullName : string;
  username : string;
  passwordHash : string;
  salt : string;
  role : Role;
  department : string;
  isActive : bool;
  lastLoginAt : option Date;
  passwordChangedAt : Date;
  failedLoginAttempts : Z;
  lockedUntil : option Date;
  twoFactorEnabled : bool;
  email : string;
  phoneNumber : option string;
  verificationLimit : Number;
  createdAt : Date;
  updatedAt : Date
}.

Definition set_failedLoginAttempts (n : Z) (e : Employee) : Employee :=
  mkEmployee (_id e) (employeeId e) (fullName e) (username e) (passwordHash e)
    (salt e) (role e) (department e) (isActive e) (lastLoginAt e)
    (passwordChangedAt e) n (lockedUntil e) (twoFactorEnabled e) (email e)
    (phoneNumber e) (verificationLimit e) (createdAt e) (updatedAt e).

Definition set_lockedUntil (d : option Date) (e : Employee) : Employee :=
  mkEmployee (_id e) (employeeId e) (fullName e) (username e) (passwordHash e)
    (salt e) (role e) (department e) (isActive e) (lastLoginAt e)
    (passwordChangedAt e) (failedLoginAttempts e) d (twoFactorEnabled e)
    (email e) (phoneNumber e) (verificationLimit e) (createdAt e) (updatedAt e).

Definition set_lastLoginAt (d : option Date) (e : Employee) : Employee :=
  mkEmployee (_id e) (employeeId e) (fullName e) (username e) (passwordHash e)
    (salt e) (role e) (department e) (isActive e) d
    (passwordChangedAt e) (failedLoginAttempts e) (lockedUntil e)
    (twoFactorEnabled e) (email e) (phoneNumber e) (verificationLimit e)
    (createdAt e) (updatedAt e).

Definition set_updatedAt (d : Date) (e : Employee) : Employee :=
  mkEmployee (_id e) (employeeId e) (fullName e) (username e) (passwordHash e)
    (salt e) (role e) (department e) (isActive e) (lastLoginAt e)
    (passwordChangedAt e) (failedLoginAttempts e) (lockedUntil e)
    (twoFactorEnabled e) (email e) (phoneNumber e) (verificationLimit e)
    (createdAt e) d.

(** The status values the routes know ([validStatuses]). *)
Inductive Status : Type :=
  PENDING | VERIFIED | PROCESSING | COMPLETED | REJECTED | CANCELLED.

Definition Status_eqb (a b : Status) : bool :=
  match a, b with
  | PENDING, PENDING | VERIFIED, VERIFIED | PROCESSING, PROCESSING
  | COMPLETED, COMPLETED | REJECTED, REJECTED | CANCELLED, CANCELLED => true
  | _, _ => false
  end.

(** Modelled from the spec: the Transaction schema ([models/Transaction]
    is not among the sources).  The fields are the ones the employee
    routes read and the spec's data model names: an opaque id, [amount],
    [currency], [status], [verifiedAt], [rejectionReason]; [swiftCode] is
    read by the submission route. *)
Record Transaction : Type := mkTransaction {
  tx_id : ObjectId;
  amount : Number;
  currency : string;
  swiftCode : string;
  status : Status;
  verifiedAt : option Date;
  rejectionReason : option string
}.

(* ================================================================= *)
(** ** Responses, audit events, the store *)

(** The text of an [error] property.  Two of the texts are template
    literals; their interpolated value is kept as data. *)
Inductive ErrorText : Type :=
| Text (s : string)
| LimitText (limit : Number)
    (* `Transaction amount exceeds your verification limit of ${limit}.
        Please contact a supervisor.` *)
| BadIdText (id : string)
    (* `Invalid transaction ID format: ${id}` *).

Record EmployeeProfile : Type := mkProfile {
  p_id : string;
  p_employeeId : string;
  p_fullName : string;
  p_username : string;
  p_email : string;
  p_role : Role;
  p_department : string;
  p_lastLoginAt : option Date
}.

Record TransactionView : Type := mkView {
  v_id : string;
  v_status : Status;
  v_verifiedAt : option Date;
  v_rejectionReason : option string
}.

Record Submitted : Type := mkSubmitted {
  s_id : string;
  s_amount : Number;
  s_currency : string;
  s_swiftCode : string
}.

Inductive AuditField : Type :=
| FStr (s : string)
| FNum (n : Number)
| FRole (r : Role)
| FNull
| FJson (v : JsValue).

(** A request value handed to the audit logger as it was sent. *)
Definition audit_value (v : JsValue) : AuditField :=
  match v with
  | JString s => FStr s
  | _ => FJson v
  end.

(** What the handlers hand to [auditLogger]; the request object that goes
    with every event is left out. *)
Inductive AuditEvent : Type :=
| AuthenticationEvent (name : string) (success : bool)
    (details : list (string * AuditField))
| PaymentEvent (name : string) (details : list (string * AuditField)).

Record World : Type := mkWorld {
  employees : list Employee;
  transactions : list Transaction;
  audit : list AuditEvent
}.

Definition set_employees (es : list Employee) (w : World) : World :=
  mkWorld es (transactions w) (audit w).

Definition set_transactions (ts : list Transaction) (w : World) : World :=
  mkWorld (employees w) ts (audit w).

Definition add_audit (ev : AuditEvent) (w : World) : World :=
  mkWorld (employees w) (transactions w) (audit w ++ [ev]).

(* ================================================================= *)
(** ** The libraries behind [require] *)

(** Claims handed to [jwt.sign] by the two token generators. *)
Record JwtPayload : Type := mkPayload {
  pl_employeeId : string;
  pl_iat : Z;
  pl_type : string
}.

Record SignOptions : Type := mkSignOptions {
  expiresIn : string;
  issuer : string;
  audience : string
}.

(** What [jwt.verify] hands back.  A claim a token does not carry reads
    as [undefined]. *)
Record Decoded : Type := mkDecoded {
  d_employeeId : option string;
  d_type : option string;
  d_iat : option Z;
  d_iss : option string;
  d_aud : option string
}.

(** [jsonwebtoken] and [argon2] are used through their interface only.
    [jwt_verify token secret now] is [inl message] when the call throws
    (bad signature, expired, not a token); [argon2_verify hash plain] is
    [None] when the promise rejects. *)
Class Libraries : Type := {
  Token : Type;
  jwt_sign : JwtPayload -> string -> SignOptions -> Token;
  jwt_verify : Token -> string -> Date -> string + Decoded;
  argon2_verify : string -> string -> option bool
}.

(** A token that verifies carries the claims it was signed with. *)
Definition jwt_faithful (L : Libraries) : Prop :=
  forall p k o k' now d,
    jwt_verify (jwt_sign p k o) k' now = inr d ->
    d_employeeId d = Some (pl_employeeId p) /\ d_type d = Some (pl_type p).

(** [process.env] *)
Record Env : Type := mkEnv {
  JWT_SECRET : string;
  JWT_EXPIRES_IN : option string;
  JWT_REFRESH_EXPIRES_IN : option string
}.

(** The JSON bodies the routes send. *)
Inductive Body {L : Libraries} : Type :=
| ErrorBody (error : ErrorText)
    (* { success: false, error } *)
| LoginBody (employee : EmployeeProfile) (token refreshToken : Token)
    (* { success: true, message: 'Login successful', data } *)
| RefreshBody (token refreshToken : Token)
| VerifyBody (message : string) (transaction : TransactionView)
| SubmitBody (submitted : list Submitted) (count : nat)
    (* message: `${count} transaction(s) submitted to SWIFT successfully` *).

Record Response {L : Libraries} : Type := json {
  code : Z;
  body : Body
}.

Arguments ErrorBody {L} error.
Arguments LoginBody {L} employee token refreshToken.
Arguments RefreshBody {L} token refreshToken.
Arguments VerifyBody {L} message transaction.
Arguments SubmitBody {L} submitted count.
Arguments json {L} code body.

(* ================================================================= *)
(** ** The handler monad *)

Inductive Outcome (R A : Type) : Type :=
| Next (a : A)            (* control reaches the next statement *)
| Sent (r : R)            (* [return res.status(c).json(b)] *)
| Thrown (message : string)  (* [throw new Error(message)] *).

Arguments Next {R A} a.
Arguments Sent {R A} r.
Arguments Thrown {R A} message.

Definition Async (R A : Type) : Type := World -> Outcome R A * World.

Definition ret {R A} (a : A) : Async R A := fun w => (Next a, w).

Definition bind {R A B} (c : Async R A) (k : A -> Async R B) : Async R B :=
  fun w =>
    match c w with
    | (Next a, w') => k a w'
    | (Sent r, w') => (Sent r, w')
    | (Thrown m, w') => (Thrown m, w')
    end.

Definition send {R A} (r : R) : Async R A := fun w => (Sent r, w).

Definition throw {R A} (message : string) : Async R A :=
  fun w => (Thrown message, w).

(** [try { c } catch (error) { h(error.message) }] *)
Definition tryCatch {R A} (c : Async R A) (h : string -> Async R A) : Async R A :=
  fun w =>
    match c w with
    | (Thrown m, w') => h m w'
    | r => r
    end.

Definition gets {R A} (f : World -> A) : Async R A := fun w => (Next (f w), w).

Definition modify {R} (f : World -> World) : Async R unit :=
  fun w => (Next tt, f w).

Declare Scope async_scope.
Delimit Scope async_scope with async.

Notation "x <- c ;; k" := (bind c (fun x => k))
  (at level 61, c at next level, right associativity) : async_scope.
Notation "c ;; k" := (bind c (fun _ => k))
  (at level 61, right associativity) : async_scope.

Open Scope async_scope.

(** [for (const x of xs) { body(x) }], with the array the loop pushes to. *)
Fixpoint for_of {R A B} (xs : list A) (step : A -> Async R B) : Async R (list B) :=
  match xs with
  | [] => ret []
  | x :: rest =>
      b <- step x ;;
      bs <- for_of rest step ;;
      ret (b :: bs)
  end.

(* ================================================================= *)
(** ** models/Employee.js *)

Section Model.

Context {L : Libraries}.

Definition M : Type -> Type := Async Response.

(** [auditLogger.logAuthenticationEvent(name, req, success, details)] *)
Definition logAuthenticationEvent (name : string) (success : bool)
    (details : list (string * AuditField)) : M unit :=
  modify (add_audit (AuthenticationEvent name success details)).

(** [auditLogger.logPaymentEvent(name, req, details)] *)
Definition logPaymentEvent (name : string)
    (details : list (string * AuditField)) : M unit :=
  modify (add_audit (PaymentEvent name details)).

(** The virtual [isAccountLocked]; [now] is what [Date.now()] returns
    when the getter runs. *)
Definition isAccountLocked (now : Date) (e : Employee) : bool :=
  match lockedUntil e with
  | Some t => (now <? t)%Z
  | None => false
  end.

(** Writing a document back: the one with the same [_id] is replaced. *)
Definition replace_employee (e : Employee) (docs : list Employee) : list Employee :=
  map (fun d => if _id d =? _id e then e else d) docs.

(** [this.save()] on a document whose [passwordHash] was not touched: the
    pre-save hook stamps [updatedAt] and returns before hashing. *)
Definition save (now : Date) (e : Employee) : M Employee :=
  let e' := set_updatedAt now e in
  modify (fun w => set_employees (replace_employee e' (employees w)) w) ;;
  ret e'.

(** [employeeSchema.methods.validatePassword] *)
Definition validatePassword (e : Employee) (password : string) : M bool :=
  match argon2_verify (passwordHash e) (password ++ salt e) with
  | Some b => ret b
  | None => throw "Password validation failed"
  end.

Definition maxAttempts : Z := 5.
Definition lockTime : Z := 15 * 60 * 1000.

(** [employeeSchema.methods.incrementFailedAttempts]; one clock reading
    for each [Date.now()] in program order: the lock test, the new
    expiry, the save. *)
Definition incrementFailedAttempts (t_locked t_lock t_save : Date)
    (e : Employee) : M Employee :=
  let e1 :=
    if (maxAttempts <=? failedLoginAttempts e + 1)%Z
       && negb (isAccountLocked t_locked e)
    then set_lockedUntil (Some (t_lock + lockTime)) e
    else e in
  let e2 := set_failedLoginAttempts (failedLoginAttempts e1 + 1) e1 in
  save t_save e2.

(** [employeeSchema.methods.resetFailedAttempts] *)
Definition resetFailedAttempts (t_save : Date) (e : Employee) : M Employee :=
  save t_save (set_lockedUntil None (set_failedLoginAttempts 0 e)).

(** [employeeSchema.methods.updateLastLogin] *)
Definition updateLastLogin (t_now t_save : Date) (e : Employee) : M Employee :=
  save t_save (set_lastLoginAt (Some t_now) e).

(** [findOne({ username, employeeId, isActive: true })] *)
Definition findOne_credentials (u i : string) (docs : list Employee) : option Employee :=
  find (fun d => (username d =? u) && (employeeId d =? i) && Bool.eqb (isActive d) true) docs.

(** [employeeSchema.statics.findByCredentials] *)
Definition findByCredentials (t_now : Date) (u i : string) : M Employee :=
  found <- gets (fun w => findOne_credentials u i (employees w)) ;;
  match found with
  | None => throw "Invalid credentials"
  | Some employee =>
      if isAccountLocked t_now employee
      then throw "Account is temporarily locked due to too many failed attempts"
      else ret employee
  end.

Section RawFilter.

Variable Number_toString : Number -> string.

(** Mongoose's [castString], the cast of a filter value on a String
    path: [null] and [undefined] stay, a number or a boolean becomes its
    text, an array or a plain object fails to cast. *)
Inductive Cast : Type :=
| CastNull
| CastTo (s : string)
| CastError.

Definition castString (v : JsValue) : Cast :=
  match v with
  | JUndefined | JNull => CastNull
  | JBool b => CastTo (if b then "true" else "false")
  | JNumber n => CastTo (Number_toString n)
  | JString s => CastTo s
  | JArray _ | JObject _ => CastError
  end.

Fixpoint cast_each (items : list JsValue) : option (list string) :=
  match items with
  | [] => Some []
  | x :: rest =>
      match castString x, cast_each rest with
      | CastError, _ | _, None => None
      | CastNull, Some texts => Some texts
      | CastTo s, Some texts => Some (s :: texts)
      end
  end.

(** The texts a String path may hold to satisfy [{ path: v }]; [None] is
    a CastError.  Mongoose reads an array as [$in] over its elements,
    each cast as above; [null] matches no employee, the paths being
    required.  An object would be read as query operators: that case is
    left a CastError here, and [login_route] never gets to it
    (an object prints as '[object Object]' or throws, so no pattern
    accepts it). *)
Definition filter_texts (v : JsValue) : option (list string) :=
  match v with
  | JArray items => cast_each items
  | JObject _ => None
  | _ => cast_each [v]
  end.

Definition one_of (texts : list string) (s : string) : bool :=
  existsb (fun t => s =? t) texts.

(** [Employee.findByCredentials(username, employeeId)] on the values of
    the request body.  The message of a CastError is cut to its head;
    Mongoose goes on to name the value and the path. *)
Definition findByCredentials_json (t_now : Date) (u i : JsValue) : M Employee :=
  match filter_texts u, filter_texts i with
  | Some us, Some ids =>
      found <- gets (fun w =>
                 find (fun d => one_of us (username d) && one_of ids (employeeId d)
                                && Bool.eqb (isActive d) true)
                      (employees w)) ;;
      match found with
      | None => throw "Invalid credentials"
      | Some employee =>
          if isAccountLocked t_now employee
          then throw "Account is temporarily locked due to too many failed attempts"
          else ret employee
      end
  | _, _ => throw "Cast to string failed"
  end.

End RawFilter.

(** [Employee.findById(id)]: [undefined] finds nothing, text that is no
    ObjectId throws. *)
Definition Employee_findById (id : option string) : M (option Employee) :=
  match id with
  | None => ret None
  | Some s =>
      match castObjectId s with
      | None => throw "Cast to ObjectId failed"
      | Some oid => gets (fun w => find (fun d => _id d =? oid) (employees w))
      end
  end.

End Model.

(* ================================================================= *)
(** ** models/Transaction (document methods) *)

Section TransactionModel.

Context {L : Libraries}.

Definition replace_transaction (t : Transaction) (docs : list Transaction) : list Transaction :=
  map (fun d => if tx_id d =? tx_id t then t else d) docs.

Definition Transaction_save (t : Transaction) : M Transaction :=
  modify (fun w => set_transactions (replace_transaction t (transactions w)) w) ;;
  ret t.

(** Modelled from the spec: [transaction.markAsVerified()]
    ([models/Transaction] is not among the sources).  Spec, section 4.5:
    on approve, transition to VERIFIED, stamp [verifiedAt]. *)
Definition markAsVerified (now : Date) (t : Transaction) : M Transaction :=
  Transaction_save
    (mkTransaction (tx_id t) (amount t) (currency t) (swiftCode t)
       VERIFIED (Some now) (rejectionReason t)).

(** Modelled from the spec: [transaction.markAsRejected(reason)]
    ([models/Transaction] is not among the sources).  Spec, section 4.5:
    on reject, transition to REJECTED, stamp [rejectionReason]. *)
Definition markAsRejected (reason : string) (t : Transaction) : M Transaction :=
  Transaction_save
    (mkTransaction (tx_id t) (amount t) (currency t) (swiftCode t)
       REJECTED (verifiedAt t) (Some reason)).

(** Modelled from the spec: [transaction.markAsProcessing()]
    ([models/Transaction] is not among the sources).  Spec, section 4.5:
    on success every transaction transitions VERIFIED to PROCESSING. *)
Definition markAsProcessing (t : Transaction) : M Transaction :=
  Transaction_save
    (mkTransaction (tx_id t) (amount t) (currency t) (swiftCode t)
       PROCESSING (verifiedAt t) (rejectionReason t)).

(** [Transaction.findById(id)] *)
Definition Transaction_findById (id : string) : M (option Transaction) :=
  match castObjectId id with
  | None => throw "Cast to ObjectId failed"
  | Some oid => gets (fun w => find (fun t => tx_id t =? oid) (transactions w))
  end.

Fixpoint cast_all (ids : list string) : option (list ObjectId) :=
  match ids with
  | [] => Some []
  | id :: rest =>
      match castObjectId id, cast_all rest with
      | Some o, Some os => Some (o :: os)
      | _, _ => None
      end
  end.

(** The documents a filter [{ _id: { $in: oids }, status: st }] selects. *)
Definition select_in_status (oids : list ObjectId) (st : Status)
    (docs : list Transaction) : list Transaction :=
  filter (fun t => existsb (String.eqb (tx_id t)) oids && Status_eqb (status t) st) docs.

(** [Transaction.find({ _id: { $in: ids }, status: st })] *)
Definition Transaction_find_in_status (ids : list string) (st : Status)
    : M (list Transaction) :=
  match cast_all ids with
  | None => throw "Cast to ObjectId failed"
  | Some oids => gets (fun w => select_in_status oids st (transactions w))
  end.

End TransactionModel.

(* ================================================================= *)
(** ** routes/employees.js *)

Record LoginRequest : Type := mkLoginRequest {
  req_username : option string;
  req_employeeId : option string;
  req_password : option string
}.

(** [const { username, employeeId, password } = req.body] on a body of
    any shape: each property is whatever JSON value was sent. *)
Record RawLoginBody : Type := mkRawLogin {
  raw_username : JsValue;
  raw_employeeId : JsValue;
  raw_password : JsValue
}.

Definition as_value (v : option string) : JsValue :=
  match v with
  | Some s => JString s
  | None => JUndefined
  end.

(** The body of a request whose properties are strings or absent. *)
Definition as_body (req : LoginRequest) : RawLoginBody :=
  mkRawLogin (as_value (req_username req)) (as_value (req_employeeId req))
    (as_value (req_password req)).

(** One clock reading for each [Date.now()] / [new Date()] the login
    route can reach, in program order. *)
Record LoginClock : Type := mkLoginClock {
  lc_lookup : Date;        (* isAccountLocked in findByCredentials *)
  lc_incr_locked : Date;   (* isAccountLocked in incrementFailedAttempts *)
  lc_incr_lock : Date;     (* Date.now() + lockTime *)
  lc_incr_save : Date;
  lc_reset_save : Date;
  lc_lastLogin : Date;     (* new Date() in updateLastLogin *)
  lc_lastLogin_save : Date;
  lc_access : Date;        (* iat of the access token *)
  lc_refresh : Date        (* iat of the refresh token *)
}.

Record RefreshClock : Type := mkRefreshClock {
  rc_verify : Date;        (* the clock jwt.verify compares exp with *)
  rc_access : Date;
  rc_refresh : Date
}.

Record VerifyRequest : Type := mkVerifyRequest {
  params_id : string;
  body_verified : option bool;   (* None: absent or not a boolean *)
  body_notes : option string
}.

Definition is_username_char (c : ascii) : bool :=
  JS.is_lower c || JS.is_upper c || JS.is_digit c
  || Ascii.eqb c "_" || Ascii.eqb c "-".

(** Modelled from the spec: [inputValidation.patterns.username]
    ([middleware/inputValidation] is not among the sources).  Spec,
    section 6: username: [A-Za-z0-9_-]{3,30}; the schema and the login
    form write the same pattern, [/^[a-zA-Z0-9_-]{3,30}$/]. *)
Definition patterns_username (s : string) : bool :=
  JS.test_class is_username_char 3 30 s.

(** [/^[A-Z0-9]{6,10}$/] *)
Definition employeeId_pattern (s : string) : bool :=
  JS.test_class (fun c => JS.is_upper c || JS.is_digit c) 6 10 s.

Section Routes.

Context {L : Libraries}.

Definition error (c : Z) (text : string) : Response :=
  json c (ErrorBody (Text text)).

(** [generateEmployeeToken] *)
Definition generateEmployeeToken (env : Env) (now : Date) (employeeId : string) : Token :=
  jwt_sign (mkPayload employeeId (now / 1000) "employee_access")
    (JWT_SECRET env)
    (mkSignOptions (JS.or_else (JWT_EXPIRES_IN env) "24h")
       "secure-payments-portal" "banking-employees").

(** [generateEmployeeRefreshToken] *)
Definition generateEmployeeRefreshToken (env : Env) (now : Date) (employeeId : string) : Token :=
  jwt_sign (mkPayload employeeId (now / 1000) "employee_refresh")
    (JWT_SECRET env)
    (mkSignOptions (JS.or_else (JWT_REFRESH_EXPIRES_IN env) "7d")
       "secure-payments-portal" "banking-employees").

Definition profile (e : Employee) : EmployeeProfile :=
  mkProfile (_id e) (employeeId e) (fullName e) (username e) (email e)
    (role e) (department e) (lastLoginAt e).

(** [router.post('/login', ...)] on a request whose properties are
    strings or absent, the requests the login form sends
    ([EmployeeLoginCredentials]); there [typeof password !== 'string']
    adds nothing to [!password].  [login_route] below is the route on
    every JSON body, and agrees with this one on these requests. *)
Definition login (env : Env) (clk : LoginClock) (req : LoginRequest) : M unit :=
  let u := req_username req in
  let i := req_employeeId req in
  let pw := req_password req in
  if negb (JS.truthy u) || negb (patterns_username (JS.toString u)) then
    send (error 400 "Invalid username format")
  else if negb (JS.truthy i) || negb (employeeId_pattern (JS.toString i)) then
    send (error 400 "Invalid employee ID format")
  else if negb (JS.truthy pw) then
    send (error 400 "Password is required")
  else
    tryCatch
      (employee <- findByCredentials (lc_lookup clk) (JS.toString u) (JS.toString i) ;;
       isPasswordValid <- validatePassword employee (JS.toString pw) ;;
       if negb isPasswordValid then
         incrementFailedAttempts (lc_incr_locked clk) (lc_incr_lock clk)
           (lc_incr_save clk) employee ;;
         logAuthenticationEvent "EMPLOYEE_LOGIN_FAILED" false
           [("username", FStr (JS.toString u));
            ("employeeId", FStr (JS.toString i));
            ("reason", FStr "Invalid password")] ;;
         send (error 401 "Invalid credentials")
       else
         employee <- resetFailedAttempts (lc_reset_save clk) employee ;;
         employee <- updateLastLogin (lc_lastLogin clk) (lc_lastLogin_save clk) employee ;;
         let token := generateEmployeeToken env (lc_access clk) (_id employee) in
         let refreshToken :=
           generateEmployeeRefreshToken env (lc_refresh clk) (_id employee) in
         logAuthenticationEvent "EMPLOYEE_LOGIN_SUCCESS" true
           [("employeeId", FStr (employeeId employee));
            ("username", FStr (username employee));
            ("role", FRole (role employee))] ;;
         send (json 200 (LoginBody (profile employee) token refreshToken)))
      (fun message =>
         logAuthenticationEvent "EMPLOYEE_LOGIN_FAILED" false
           [("username", FStr (JS.toString u));
            ("employeeId", FStr (JS.toString i));
            ("reason", FStr message)] ;;
         send (error 401 "Invalid credentials")).

Section RawRequest.

Variable Number_toString : Number -> string.

(** [pattern.test(v)]: the pattern is tried on [ToString(v)]. *)
Definition test (pattern : string -> bool) (v : JsValue) : M bool :=
  match ToString Number_toString v with
  | Some s => ret (pattern s)
  | None => throw "Cannot convert object to primitive value"
  end.

(** [!v || !pattern.test(v)] *)
Definition refuses (pattern : string -> bool) (v : JsValue) : M bool :=
  if negb (truthy_value v) then ret true
  else matched <- test pattern v ;; ret (negb matched).

(** The text of a value known to be a string. *)
Definition string_of (v : JsValue) : string :=
  match v with
  | JString s => s
  | _ => EmptyString
  end.

(** [router.post('/login', ...)] on any JSON body.  An error thrown
    before the [try] goes to [asyncHandler]. *)
Definition login_route (env : Env) (clk : LoginClock) (body : RawLoginBody) : M unit :=
  let u := raw_username body in
  let i := raw_employeeId body in
  let pw := raw_password body in
  bad_username <- refuses patterns_username u ;;
  if bad_username then
    send (error 400 "Invalid username format")
  else
    bad_employeeId <- refuses employeeId_pattern i ;;
    if bad_employeeId then
      send (error 400 "Invalid employee ID format")
    else if negb (truthy_value pw) || negb (typeof pw =? "string") then
      send (error 400 "Password is required")
    else
      tryCatch
        (employee <- findByCredentials_json Number_toString (lc_lookup clk) u i ;;
         isPasswordValid <- validatePassword employee (string_of pw) ;;
         if negb isPasswordValid then
           incrementFailedAttempts (lc_incr_locked clk) (lc_incr_lock clk)
             (lc_incr_save clk) employee ;;
           logAuthenticationEvent "EMPLOYEE_LOGIN_FAILED" false
             [("username", audit_value u);
              ("employeeId", audit_value i);
              ("reason", FStr "Invalid password")] ;;
           send (error 401 "Invalid credentials")
         else
           employee <- resetFailedAttempts (lc_reset_save clk) employee ;;
           employee <- updateLastLogin (lc_lastLogin clk) (lc_lastLogin_save clk) employee ;;
           let token := generateEmployeeToken env (lc_access clk) (_id employee) in
           let refreshToken :=
             generateEmployeeRefreshToken env (lc_refresh clk) (_id employee) in
           logAuthenticationEvent "EMPLOYEE_LOGIN_SUCCESS" true
             [("employeeId", FStr (employeeId employee));
              ("username", FStr (username employee));
              ("role", FRole (role employee))] ;;
           send (json 200 (LoginBody (profile employee) token refreshToken)))
        (fun message =>
           logAuthenticationEvent "EMPLOYEE_LOGIN_FAILED" false
             [("username", audit_value u);
              ("employeeId", audit_value i);
              ("reason", FStr message)] ;;
           send (error 401 "Invalid credentials")).

End RawRequest.

(** [jwt.verify(refreshToken, process.env.JWT_SECRET)] on a body property
    that may be absent. *)
Definition verify_token (env : Env) (now : Date) (token : option Token) : M Decoded :=
  match token with
  | None => throw "jwt must be provided"
  | Some t =>
      match jwt_verify t (JWT_SECRET env) now with
      | inl message => throw message
      | inr decoded => ret decoded
      end
  end.

Definition type_is (d : Decoded) (name : string) : bool :=
  match d_type d with
  | Some s => s =? name
  | None => false
  end.

(** [router.post('/refresh', ...)] *)
Definition refresh (env : Env) (clk : RefreshClock) (refreshToken : option Token) : M unit :=
  tryCatch
    (decoded <- verify_token env (rc_verify clk) refreshToken ;;
     if negb (type_is decoded "employee_refresh") then
       send (error 401 "Invalid token type")
     else
       found <- Employee_findById (d_employeeId decoded) ;;
       match found with
       | None => send (error 401 "Employee not found or inactive")
       | Some employee =>
           if negb (isActive employee) then
             send (error 401 "Employee not found or inactive")
           else
             let newToken := generateEmployeeToken env (rc_access clk) (_id employee) in
             let newRefreshToken :=
               generateEmployeeRefreshToken env (rc_refresh clk) (_id employee) in
             logAuthenticationEvent "EMPLOYEE_TOKEN_REFRESH" true
               [("employeeId", FStr (_id employee))] ;;
             send (json 200 (RefreshBody newToken newRefreshToken))
       end)
    (fun message =>
       logAuthenticationEvent "EMPLOYEE_TOKEN_REFRESH_FAILED" false
         [("reason", FStr message)] ;;
       send (error 401 "Invalid refresh token")).

Definition view (t : Transaction) : TransactionView :=
  mkView (tx_id t) (status t) (verifiedAt t) (rejectionReason t).

Definition notes_field (notes : option string) : AuditField :=
  if JS.truthy notes then FStr (JS.toString notes) else FNull.

(** The permission test of the verify route:
    [verified && transaction.amount > req.employee.verificationLimit
     && req.employee.role !== 'ADMIN' && req.employee.role !== 'SUPERVISOR'] *)
Definition exceedsLimit (verified : bool) (t : Transaction) (actor : Employee) : bool :=
  verified && JS.gt (amount t) (verificationLimit actor)
  && negb (Role_eqb (role actor) ADMIN)
  && negb (Role_eqb (role actor) SUPERVISOR).

(** [router.post('/transactions/:id/verify', employeeAuth, ...)];
    [actor] is [req.employee], [now] the time [markAsVerified] stamps. *)
Definition verifyTransaction (now : Date) (actor : Employee) (req : VerifyRequest) : M unit :=
  let id := params_id req in
  let notes := body_notes req in
  if negb (objectIdFormat id) then
    send (error 400 "Invalid transaction ID format")
  else
    match body_verified req with
    | None => send (error 400 "Verified flag must be a boolean")
    | Some verified =>
        if JS.truthy notes && (500 <? String.length (JS.toString notes))%nat then
          send (error 400 "Notes must be a string with max 500 characters")
        else
          found <- Transaction_findById id ;;
          match found with
          | None => send (error 404 "Transaction not found")
          | Some transaction =>
              if negb (Status_eqb (status transaction) PENDING) then
                send (error 400 "Transaction is not in PENDING status")
              else if exceedsLimit verified transaction actor then
                send (json 403 (ErrorBody (LimitText (verificationLimit actor))))
              else
                transaction <-
                  (if verified then
                     t <- markAsVerified now transaction ;;
                     logPaymentEvent "TRANSACTION_VERIFIED"
                       [("transactionId", FStr (tx_id t));
                        ("employeeId", FStr (_id actor));
                        ("employeeName", FStr (fullName actor));
                        ("amount", FNum (amount t));
                        ("currency", FStr (currency t));
                        ("notes", notes_field notes)] ;;
                     ret t
                   else
                     t <- markAsRejected (JS.or_else notes "Rejected by employee")
                            transaction ;;
                     logPaymentEvent "TRANSACTION_REJECTED"
                       [("transactionId", FStr (tx_id t));
                        ("employeeId", FStr (_id actor));
                        ("employeeName", FStr (fullName actor));
                        ("amount", FNum (amount t));
                        ("currency", FStr (currency t));
                        ("reason", FStr (JS.or_else notes "Rejected by employee"))] ;;
                     ret t) ;;
                send (json 200
                        (VerifyBody
                           (if verified then "Transaction verified successfully"
                            else "Transaction rejected")
                           (view transaction)))
          end
    end.

(** The body of the submission loop. *)
Definition submit_one (actor : Employee) (transaction : Transaction) : M Submitted :=
  t <- markAsProcessing transaction ;;
  logPaymentEvent "TRANSACTION_SUBMITTED_TO_SWIFT"
    [("transactionId", FStr (tx_id t));
     ("employeeId", FStr (_id actor));
     ("employeeName", FStr (fullName actor));
     ("amount", FNum (amount t));
     ("currency", FStr (currency t));
     ("swiftCode", FStr (swiftCode t))] ;;
  ret (mkSubmitted (tx_id t) (amount t) (currency t) (swiftCode t)).

(** [router.post('/transactions/submit-to-swift', employeeAuth, ...)];
    [transactionIds] is [None] when the body property is not an array. *)
Definition submitToSwift (actor : Employee) (transactionIds : option (list string)) : M unit :=
  match transactionIds with
  | None => send (error 400 "Transaction IDs array is required")
  | Some ids =>
      if (List.length ids =? 0)%nat then
        send (error 400 "Transaction IDs array is required")
      else if (50 <? List.length ids)%nat then
        send (error 400 "Maximum 50 transactions can be submitted at once")
      else
        match find (fun id => negb (objectIdFormat id)) ids with
        | Some id => send (json 400 (ErrorBody (BadIdText id)))
        | None =>
            found <- Transaction_find_in_status ids VERIFIED ;;
            if (List.length found =? 0)%nat then
              send (error 404 "No verified transactions found")
            else if negb (List.length found =? List.length ids)%nat then
              send (error 400
                      "Some transactions are not in VERIFIED status or do not exist")
            else
              submittedTransactions <- for_of found (submit_one actor) ;;
              send (json 200
                      (SubmitBody submittedTransactions
                         (List.length submittedTransactions)))
        end
  end.

End Routes.

(* ================================================================= *)
(** ** middleware/auth *)

Inductive TokenKind : Type := access | refresh_kind.

(** The [type] claim the two generators above write. *)
Definition type_claim (k : TokenKind) : string :=
  match k with
  | access => "employee_access"
  | refresh_kind => "employee_refresh"
  end.

Inductive ValidateError : Type :=
  TokenExpired | TokenTypeMismatch | SignatureInvalid | IssuerAudienceMismatch.

Section Auth.

Context {L : Libraries}.

(** Modelled from the spec: the Token Issuer's [validate(token,
    expectedType)] ([middleware/auth] is not among the sources).  Spec,
    section 4.2: tokens carry subject, issuance time, expiry, issuer,
    audience and a type discriminator; [validate] fails with
    TokenExpired, TokenTypeMismatch, SignatureInvalid or
    IssuerAudienceMismatch; section 6: the fixed issuer and audience pair
    is checked exactly. *)
Definition validate (env : Env) (now : Date) (token : Token) (expected : TokenKind)
    : ValidateError + Decoded :=
  match jwt_verify token (JWT_SECRET env) now with
  | inl message =>
      inl (if message =? "jwt expired" then TokenExpired else SignatureInvalid)
  | inr d =>
      match d_iss d, d_aud d with
      | Some iss, Some aud =>
          if (iss =? "secure-payments-portal") && (aud =? "banking-employees") then
            if type_is d (type_claim expected) then inr d
            else inl TokenTypeMismatch
          else inl IssuerAudienceMismatch
      | _, _ => inl IssuerAudienceMismatch
      end
  end.

(** Modelled from the spec: the Authorization Middleware [employeeAuth]
    ([middleware/auth] is not among the sources).  Spec, section 4.4:
    [validate(token, access)]; on success resolve the employee and attach
    it to the request; on any validation error reject with Unauthorized
    before the operation runs. *)
Definition employeeAuth (env : Env) (now : Date) (token : Token) : M Employee :=
  match validate env now token access with
  | inl _ => send (error 401 "Unauthorized")
  | inr d =>
      found <- Employee_findById (d_employeeId d) ;;
      match found with
      | Some employee => ret employee
      | None => send (error 401 "Unauthorized")
      end
  end.

End Auth.

(* ================================================================= *)
(** ** A reference implementation of the libraries *)

(** For running the handlers on concrete requests: a token is the claims
    and options it was signed with together with the signing secret, or
    text that is no token at all; a password hash is the hashed text
    behind a fixed prefix. *)
Module Reference.

Inductive RefToken : Type :=
| Signed (p : JwtPayload) (key : string) (o : SignOptions)
| Malformed (text : string).

(** Seconds in the two lifetimes the generators can ask for by default. *)
Definition seconds (expiresIn : string) : Z :=
  if expiresIn =? "24h" then 86400
  else if expiresIn =? "7d" then 604800
  else 3600.

Definition ref_verify (t : RefToken) (secret : string) (now : Date) : string + Decoded :=
  match t with
  | Malformed _ => inl "jwt malformed"
  | Signed p key o =>
      if negb (key =? secret) then inl "invalid signature"
      else if (pl_iat p + seconds (expiresIn o) <=? now / 1000)%Z then inl "jwt expired"
      else inr (mkDecoded (Some (pl_employeeId p)) (Some (pl_type p))
                  (Some (pl_iat p)) (Some (issuer o)) (Some (audience o)))
  end.

Definition ref_hash (plain : string) : string := "$argon2id$" ++ plain.

Definition ref_argon2_verify (hash plain : string) : option bool :=
  if String.prefix "$argon2id$" hash then Some (hash =? ref_hash plain) else None.

Definition libraries : Libraries :=
  Build_Libraries RefToken Signed ref_verify ref_argon2_verify.

End Reference.

(* ================================================================= *)
(** ** Sample data *)

(** The demo employee of [scripts/create-demo-employee.js] and a few
    transactions, for running the handlers. *)
Module Sample.

Definition env : Env := mkEnv "a-signing-secret" None None.

Definition T0 : Date := 1700000000000.

(** A clock that reads the same instant throughout one request. *)
Definition at_time (now : Date) : LoginClock :=
  mkLoginClock now now now now now now now now now.

Definition refresh_at (now : Date) : RefreshClock := mkRefreshClock now now now.

(** John Smith with a given role and verification limit. *)
Definition staff (r : Role) (limit : Number) : Employee :=
  mkEmployee "65a1b2c3d4e5f60718293a4b" "EMP001" "John Smith" "jsmith"
    (Reference.ref_hash ("Demo123!@#" ++ "9f3c")) "9f3c" r
    "International Payments" true None T0 0 None false
    "john.smith@bank.com" None limit T0 T0.

(** The schema defaults: role EMPLOYEE, limit 100000. *)
Definition jsmith : Employee := staff EMPLOYEE (JS.Number_of_Z 100000).

Definition jsmith_with (attempts : Z) (until : option Date) : Employee :=
  set_lockedUntil until (set_failedLoginAttempts attempts jsmith).

Definition credentials (u pw : string) : LoginRequest :=
  mkLoginRequest (Some u) (Some "EMP001") (Some pw).

Definition payment (id : string) (a : Number) (st : Status) : Transaction :=
  mkTransaction id a "USD" "DEUTDEFF" st None None.

(** The Number of an amount given in whole cents: [c / 100]. *)
Definition cents (c : Z) : Number :=
  JS.div (JS.Number_of_Z c) (JS.Number_of_Z 100).

(** A body whose username is the one-element array ['jsmith']. *)
Definition array_username : RawLoginBody :=
  mkRawLogin (JArray [JString "jsmith"]) (JString "EMP001")
    (JString "Demo123!@#").

(** A body whose password is the one-element array ['Demo123!@#']. *)
Definition array_password : RawLoginBody :=
  mkRawLogin (JString "jsmith") (JString "EMP001")
    (JArray [JString "Demo123!@#"]).

Definition approve (id : string) : VerifyRequest := mkVerifyRequest id (Some true) None.

Definition reject (id : string) (notes : option string) : VerifyRequest :=
  mkVerifyRequest id (Some false) notes.

Definition id1 : string := "65a1b2c3d4e5f60718293a01".
Definition id2 : string := "65a1b2c3d4e5f60718293a02".
Definition id3 : string := "65a1b2c3d4e5f60718293a03".
Definition id4 : string := "65a1b2c3d4e5f60718293a04".

(** Three verified payments and one that is still pending. *)
Definition ledger : World :=
  mkWorld [jsmith]
    [payment id1 (JS.Number_of_Z 500) VERIFIED;
     payment id2 (JS.Number_of_Z 1200) VERIFIED;
     payment id3 (JS.Number_of_Z 75) VERIFIED;
     payment id4 (JS.Number_of_Z 300) PENDING]
    [].

End Sample.

(* ================================================================= *)
(** ** models/Employee.js: the pre-save hook *)

Definition set_salt (x : string) (e : Employee) : Employee :=
  mkEmployee (_id e) (employeeId e) (fullName e) (username e) (passwordHash e)
    x (role e) (department e) (isActive e) (lastLoginAt e)
    (passwordChangedAt e) (failedLoginAttempts e) (lockedUntil e)
    (twoFactorEnabled e) (email e) (phoneNumber e) (verificationLimit e)
    (createdAt e) (updatedAt e).

Definition set_passwordHash (x : string) (e : Employee) : Employee :=
  mkEmployee (_id e) (employeeId e) (fullName e) (username e) x
    (salt e) (role e) (department e) (isActive e) (lastLoginAt e)
    (passwordChangedAt e) (failedLoginAttempts e) (lockedUntil e)
    (twoFactorEnabled e) (email e) (phoneNumber e) (verificationLimit e)
    (createdAt e) (updatedAt e).

Definition set_passwordChangedAt (d : Date) (e : Employee) : Employee :=
  mkEmployee (_id e) (employeeId e) (fullName e) (username e) (passwordHash e)
    (salt e) (role e) (department e) (isActive e) (lastLoginAt e)
    d (failedLoginAttempts e) (lockedUntil e)
    (twoFactorEnabled e) (email e) (phoneNumber e) (verificationLimit e)
    (createdAt e) (updatedAt e).

(** A Number in a boolean position: NaN, +0 and -0 are falsy. *)
Definition number_falsy (n : Number) : bool :=
  match n with
  | S754_nan | S754_zero _ => true
  | _ => false
  end.

(** [n || d] on Numbers. *)
Definition number_or (n d : Number) : Number := if number_falsy n then d else n.

(** [Math.min(a, b)]: NaN if either is NaN, -0 below +0. *)
Definition Math_min (a b : Number) : Number :=
  match a, b with
  | S754_nan, _ | _, S754_nan => S754_nan
  | S754_zero sa, S754_zero sb => S754_zero (sa || sb)
  | _, _ => if SFltb b a then b else a
  end.

(** The options object the hook hands to [argon2.hash]
    ([type: argon2.argon2id] is fixed). *)
Record Argon2Options : Type := mkArgon2Options {
  memoryCost : Number;
  parallelism : Number;
  timeCost : Number
}.

(** [parseInt(process.env.ARGON2_MEMORY)] and its two siblings, as
    read when the hook runs. *)
Record HashEnv : Type := mkHashEnv {
  ARGON2_MEMORY : Number;
  ARGON2_PARALLELISM : Number;
  ARGON2_TIME : Number
}.

Definition hash_options (env : HashEnv) : Argon2Options :=
  mkArgon2Options
    (number_or (ARGON2_MEMORY env) (JS.Number_of_Z 65536))
    (number_or (ARGON2_PARALLELISM env) (JS.Number_of_Z 2))
    (number_or (ARGON2_TIME env) (JS.Number_of_Z 3)).

(** [argon2.hash(plain, options)]; [inl message] when the promise
    rejects. *)
Definition Hasher : Type := string -> Argon2Options -> string + string.

(** [employeeSchema.pre('save', ...)], run on a document [e].
    [modified] is [this.isModified('passwordHash')], [salt_hex] what
    [crypto.randomBytes(32).toString('hex')] returns, the two dates what
    the two [Date.now()] return.  [inl message] is [next(error)]. *)
Definition pre_save (hash : Hasher) (env : HashEnv) (modified : bool)
    (t_updated : Date) (salt_hex : string) (t_changed : Date) (e : Employee)
    : string + Employee :=
  let e0 := set_updatedAt t_updated e in
  if negb modified then inr e0
  else
    let e1 := set_salt salt_hex e0 in
    let passwordWithSalt := passwordHash e1 ++ salt e1 in
    match hash passwordWithSalt (hash_options env) with
    | inl message => inl message
    | inr hashed => inr (set_passwordChangedAt t_changed (set_passwordHash hashed e1))
    end.

(* ================================================================= *)
(** ** routes/employees.js: the page size of the listing route *)

(** [Math.min(parseInt(req.query.limit) || 20, 100)], with [parsed] the
    Number [parseInt] returned. *)
Definition page_size (parsed : Number) : Number :=
  Math_min (number_or parsed (JS.Number_of_Z 20)) (JS.Number_of_Z 100).

(* ================================================================= *)
(** ** pages/EmployeeLogin *)

Module Client.

Record FormData : Type := mkFormData {
  f_username : string;
  f_employeeId : string;
  f_password : string
}.

(** [useState({ username: '', employeeId: '', password: '' })] *)
Definition initial : FormData := mkFormData EmptyString EmptyString EmptyString.

(** [patterns.username]: [/^[a-zA-Z0-9_-]{3,30}$/] *)
Definition patterns_username (s : string) : bool :=
  JS.test_class
    (fun c => JS.is_lower c || JS.is_upper c || JS.is_digit c
              || Ascii.eqb c "_" || Ascii.eqb c "-") 3 30 s.

(** [patterns.employeeId]: [/^[A-Z0-9]{6,10}$/] *)
Definition patterns_employeeId (s : string) : bool :=
  JS.test_class (fun c => JS.is_upper c || JS.is_digit c) 6 10 s.

(** The [newErrors] object: a message under each key that was set. *)
Record Errors : Type := mkErrors {
  err_username : option string;
  err_employeeId : option string;
  err_password : option string
}.

(** [Object.keys(newErrors).length === 0] *)
Definition no_errors (e : Errors) : bool :=
  match err_username e, err_employeeId e, err_password e with
  | None, None, None => true
  | _, _, _ => false
  end.

Definition empty (s : string) : bool := s =? EmptyString.

(** The names of the three inputs ([e.target.name]). *)
Inductive Field : Type := username_field | employeeId_field | password_field.

(** [value.replace(/[<>]/g, '')] *)
Fixpoint sanitize (value : string) : string :=
  match value with
  | EmptyString => EmptyString
  | String c rest =>
      if Ascii.eqb c "<" || Ascii.eqb c ">" then sanitize rest
      else String c (sanitize rest)
  end.

(** The form state after [handleChange] (the error map it also clears
    is not part of the form data). *)
Definition handleChange (name : Field) (value : string) (f : FormData) : FormData :=
  let sanitizedValue := sanitize value in
  match name with
  | username_field => mkFormData sanitizedValue (f_employeeId f) (f_password f)
  | employeeId_field => mkFormData (f_username f) sanitizedValue (f_password f)
  | password_field => mkFormData (f_username f) (f_employeeId f) sanitizedValue
  end.

(** The form state after a sequence of change events. *)
Definition typed (events : list (Field * string)) (f : FormData) : FormData :=
  fold_left (fun g ev => handleChange (fst ev) (snd ev) g) events f.

Section WithToUpperCase.

(** [String.prototype.toUpperCase], which leaves the code units of the
    model for some letters, is taken as it is. *)
Variable toUpperCase : string -> string.

(** [validate()]: the error map and its verdict. *)
Definition validate (f : FormData) : Errors * bool :=
  let newErrors :=
    mkErrors
      (if empty (f_username f) || negb (patterns_username (f_username f))
       then Some "Username must be 3-30 characters and contain only letters, numbers, underscores, and hyphens"
       else None)
      (if empty (f_employeeId f)
          || negb (patterns_employeeId (toUpperCase (f_employeeId f)))
       then Some "Employee ID must be 6-10 uppercase alphanumeric characters"
       else None)
      (if empty (f_password f) || (String.length (f_password f) =? 0)%nat
       then Some "Password is required"
       else None) in
  (newErrors, no_errors newErrors).

(** [handleSubmit]: the credentials handed to [login], or nothing when
    validation stops the submission. *)
Definition handleSubmit (f : FormData) : option LoginRequest :=
  if negb (snd (validate f)) then None
  else Some (mkLoginRequest (Some (f_username f))
               (Some (toUpperCase (f_employeeId f)))
               (Some (f_password f))).

End WithToUpperCase.

End Client.

(* ================================================================= *)
(** ** Vocabulary of the statements *)

(** A request property fails a pattern when it is absent or does not
    match. *)
Definition fails (pattern : string -> bool) (v : option string) : Prop :=
  match v with
  | None => True
  | Some s => pattern s = false
  end.

(** Malformed login input: a username outside [A-Za-z0-9_-]{3,30}, an
    employee id outside [A-Z0-9]{6,10}, or a password that is missing or
    empty. *)
Definition malformed (req : LoginRequest) : Prop :=
  fails patterns_username (req_username req)
  \/ fails employeeId_pattern (req_employeeId req)
  \/ req_password req = None \/ req_password req = Some EmptyString.

(** Well-formed login input, the complement. *)
Definition well_formed (req : LoginRequest) (u i pw : string) : Prop :=
  req = mkLoginRequest (Some u) (Some i) (Some pw)
  /\ patterns_username u = true
  /\ employeeId_pattern i = true
  /\ pw <> EmptyString.

(** The audit event the login route records when it refuses. *)
Definition login_failed (u i reason : string) : AuditEvent :=
  AuthenticationEvent "EMPLOYEE_LOGIN_FAILED" false
    [("username", FStr u); ("employeeId", FStr i); ("reason", FStr reason)].

(** The message [jwt.verify] throws on a refresh request, if it throws. *)
Definition verify_error {L : Libraries} (env : Env) (now : Date)
    (token : option Token) : option string :=
  match token with
  | None => Some "jwt must be provided"
  | Some t =>
      match jwt_verify t (JWT_SECRET env) now with
      | inl message => Some message
      | inr _ => None
      end
  end.

(** The audit event of a refresh whose token does not verify. *)
Definition refresh_failed (reason : string) : AuditEvent :=
  AuthenticationEvent "EMPLOYEE_TOKEN_REFRESH_FAILED" false [("reason", FStr reason)].

(** No usable employee: none found, or the one found is inactive. *)
Definition unusable (found : option Employee) : Prop :=
  match found with
  | None => True
  | Some e => isActive e = false
  end.

(** A verify request that passes the input checks of the route with the
    boolean [verified]. *)
Definition passes_validation (req : VerifyRequest) (verified : bool) : Prop :=
  objectIdFormat (params_id req) = true
  /\ body_verified req = Some verified
  /\ (JS.truthy (body_notes req) = false
      \/ (String.length (JS.toString (body_notes req)) <= 500)%nat).

(** The transaction the text of an id resolves to. *)
Definition lookup (id : string) (w : World) : option Transaction :=
  find (fun d => tx_id d =? JS.toLowerCase id) (transactions w).

Definition verified_by (now : Date) (t : Transaction) : Transaction :=
  mkTransaction (tx_id t) (amount t) (currency t) (swiftCode t)
    VERIFIED (Some now) (rejectionReason t).

Definition rejected_with (reason : string) (t : Transaction) : Transaction :=
  mkTransaction (tx_id t) (amount t) (currency t) (swiftCode t)
    REJECTED (verifiedAt t) (Some reason).

Definition processing (t : Transaction) : Transaction :=
  mkTransaction (tx_id t) (amount t) (currency t) (swiftCode t)
    PROCESSING (verifiedAt t) (rejectionReason t).

(** An id of a batch resolves when the store holds a transaction under
    it and that transaction is VERIFIED. *)
Definition resolves (w : World) (id : string) : bool :=
  match lookup id w with
  | Some t => Status_eqb (status t) VERIFIED
  | None => false
  end.

(** A batch the submission route takes past its input checks: 1 to 50
    ids, each of them 24 hexadecimal digits. *)
Definition batch (ids : list string) : Prop :=
  (1 <= List.length ids <= 50)%nat
  /\ Forall (fun id => objectIdFormat id = true) ids.

(** [_id] is unique in a collection. *)
Definition unique_ids (w : World) : Prop := NoDup (map tx_id (transactions w)).

(** The ids of a batch name pairwise different transactions. *)
Definition distinct (ids : list string) : Prop := NoDup (map JS.toLowerCase ids).

Definition submitted_of (t : Transaction) : Submitted :=
  mkSubmitted (tx_id t) (amount t) (currency t) (swiftCode t).

(** The collection after each transaction of [fs] went through the
    submission loop. *)
Definition after_submission (fs docs : list Transaction) : list Transaction :=
  fold_left (fun ds t => replace_transaction (processing t) ds) fs docs.

(** The employee document after one refused password, as
    [incrementFailedAttempts] writes it. *)
Definition failed_once (clk : LoginClock) (e : Employee) : Employee :=
  set_updatedAt (lc_incr_save clk)
    (set_failedLoginAttempts (failedLoginAttempts e + 1)
       (if (maxAttempts <=? failedLoginAttempts e + 1)%Z
           && negb (isAccountLocked (lc_incr_locked clk) e)
        then set_lockedUntil (Some (lc_incr_lock clk + lockTime)) e
        else e)).

(** The employee document after [resetFailedAttempts]. *)
Definition reset_once (clk : LoginClock) (e : Employee) : Employee :=
  set_updatedAt (lc_reset_save clk)
    (set_lockedUntil None (set_failedLoginAttempts 0 e)).

(** The employee document after a login that succeeded:
    [resetFailedAttempts], then [updateLastLogin]. *)
Definition logged_in (clk : LoginClock) (e : Employee) : Employee :=
  set_updatedAt (lc_lastLogin_save clk)
    (set_lastLoginAt (Some (lc_lastLogin clk)) (reset_once clk e)).

(** The audit event of a login that succeeded. *)
Definition login_succeeded (e : Employee) : AuditEvent :=
  AuthenticationEvent "EMPLOYEE_LOGIN_SUCCESS" true
    [("employeeId", FStr (employeeId e)); ("username", FStr (username e));
     ("role", FRole (role e))].

(** The store after the same login request was made once for each clock
    of a list, in order. *)
Fixpoint logins {L : Libraries} (env : Env) (req : LoginRequest)
    (clks : list LoginClock) (w : World) : World :=
  match clks with
  | [] => w
  | clk :: rest => logins env req rest (snd (login env clk req w))
  end.

(** Two documents that are the same person to [findByCredentials] and to
    the password check. *)
Definition same_identity (a b : Employee) : Prop :=
  _id a = _id b /\ username a = username b /\ employeeId a = employeeId b
  /\ isActive a = isActive b /\ passwordHash a = passwordHash b
  /\ salt a = salt b /\ role a = role b
  /\ verificationLimit a = verificationLimit b.

(** The audit event of a refresh that succeeded. *)
Definition refresh_succeeded (e : Employee) : AuditEvent :=
  AuthenticationEvent "EMPLOYEE_TOKEN_REFRESH" true [("employeeId", FStr (_id e))].

(** A hasher and the verifier of the libraries belong together: a hash
    verifies against the text it was made from and against no other. *)
Definition hasher_matches (hash : Hasher) (L : Libraries) : Prop :=
  forall x o h, hash x o = inr h -> forall y, argon2_verify h y = Some (x =? y).

(** A string holds neither [<] nor [>]. *)
Definition no_angle (s : string) : Prop :=
  forall c, In c (list_ascii_of_string s) -> c <> "<"%char /\ c <> ">"%char.

(** ** Validation of JSON values *)

(** [!v || !pattern.test(v)] holds: [v] is falsy, or its text does not
    match. *)
Definition text_fails (print : Number -> string) (pattern : string -> bool)
    (v : JsValue) : Prop :=
  truthy_value v = false
  \/ exists s, ToString print v = Some s /\ pattern s = false.

(** [v] is truthy and its text matches. *)
Definition text_passes (print : Number -> string) (pattern : string -> bool)
    (v : JsValue) : Prop :=
  truthy_value v = true
  /\ exists s, ToString print v = Some s /\ pattern s = true.

(** ** Exact values of Numbers *)

(** Every finite Number is a whole multiple of 2^-1074, the least
    positive Number; [units x] is that multiple, the exact value of [x]
    scaled by 2^1074. *)
Definition units (x : Number) : Z :=
  match x with
  | S754_finite false m e => Zpos m * 2 ^ (e + 1074)
  | S754_finite true m e => - (Zpos m * 2 ^ (e + 1074))
  | _ => 0
  end.

(** The finite Numbers, each in its one canonical form. *)
Definition stored (x : Number) : bool :=
  match x with
  | S754_zero _ => true
  | S754_finite _ m e => bounded JS.prec JS.emax m e
  | _ => false
  end.

(** The distance between [x] and the decimal [n / d], scaled by
    [d * 2^1074]. *)
Definition off (x : Number) (n : Z) (d : positive) : Z :=
  Z.abs (Zpos d * units x - n * 2 ^ 1074).

(** [x] is a Number nearest to the decimal [n / d]: what reading a
    numeral, a JSON body or a division gives. *)
Definition nearest (x : Number) (n : Z) (d : positive) : Prop :=
  stored x = true /\ forall y, stored y = true -> off x n d <= off y n d.

(** The value of [x] is the decimal [n / d] itself. *)
Definition exactly (x : Number) (n : Z) (d : positive) : Prop :=
  stored x = true /\ Zpos d * units x = n * 2 ^ 1074.

(* ================================================================= *)
(** * Properties *)

(** ** Strings and documents *)

Lemma test_class_nonempty (cls : ascii -> bool) (lo hi : nat) (s : string) :
  (1 <= lo)%nat -> JS.test_class cls lo hi s = true -> (s =? EmptyString) = false.
Proof.
  intros Hlo H. unfold JS.test_class in H.
  apply andb_prop in H as [H _]. apply andb_prop in H as [H _].
  apply Nat.leb_le in H.
  destruct s; simpl in *; [lia | reflexivity].
Qed.

Lemma find_replace_employee (docs : list Employee) (e e' : Employee) :
  In e docs -> _id e' = _id e ->
  find (fun d => _id d =? _id e) (replace_employee e' docs) = Some e'.
Proof.
  intros Hin Hid. induction docs as [|d docs IH]; [contradiction|].
  simpl. rewrite Hid. destruct (_id d =? _id e) eqn:Hd.
  - rewrite Hid, String.eqb_refl. reflexivity.
  - rewrite Hd. apply IH. destruct Hin as [->|Hin]; [|exact Hin].
    rewrite String.eqb_refl in Hd. discriminate.
Qed.

Lemma find_replace_transaction (docs : list Transaction) (t t' : Transaction) :
  In t docs -> tx_id t' = tx_id t ->
  find (fun d => tx_id d =? tx_id t) (replace_transaction t' docs) = Some t'.
Proof.
  intros Hin Hid. induction docs as [|d docs IH]; [contradiction|].
  simpl. rewrite Hid. destruct (tx_id d =? tx_id t) eqn:Hd.
  - rewrite Hid, String.eqb_refl. reflexivity.
  - rewrite Hd. apply IH. destruct Hin as [->|Hin]; [|exact Hin].
    rewrite String.eqb_refl in Hd. discriminate.
Qed.

(** ** Login *)

Section LoginProperties.

Context {L : Libraries}.

Lemma well_formed_passes (req : LoginRequest) (u i pw : string) :
  well_formed req u i pw ->
  forall env clk,
    login env clk req =
    tryCatch
      (employee <- findByCredentials (lc_lookup clk) u i ;;
       isPasswordValid <- validatePassword employee pw ;;
       if negb isPasswordValid then
         incrementFailedAttempts (lc_incr_locked clk) (lc_incr_lock clk)
           (lc_incr_save clk) employee ;;
         logAuthenticationEvent "EMPLOYEE_LOGIN_FAILED" false
           [("username", FStr u); ("employeeId", FStr i);
            ("reason", FStr "Invalid password")] ;;
         send (error 401 "Invalid credentials")
       else
         employee <- resetFailedAttempts (lc_reset_save clk) employee ;;
         employee <- updateLastLogin (lc_lastLogin clk) (lc_lastLogin_save clk) employee ;;
         logAuthenticationEvent "EMPLOYEE_LOGIN_SUCCESS" true
           [("employeeId", FStr (employeeId employee));
            ("username", FStr (username employee));
            ("role", FRole (role employee))] ;;
         send (json 200
                 (LoginBody (profile employee)
                    (generateEmployeeToken env (lc_access clk) (_id employee))
                    (generateEmployeeRefreshToken env (lc_refresh clk) (_id employee)))))
      (fun message =>
         modify (add_audit (login_failed u i message)) ;;
         send (error 401 "Invalid credentials")).
Proof.
  intros (-> & Hu & Hi & Hpw) env clk.
  unfold login. cbn [req_username req_employeeId req_password JS.truthy JS.toString].
  rewrite (test_class_nonempty is_username_char 3 30 u) by (exact Hu || lia).
  rewrite (test_class_nonempty (fun c => JS.is_upper c || JS.is_digit c) 6 10 i)
    by (exact Hi || lia).
  rewrite Hu, Hi.
  apply String.eqb_neq in Hpw. rewrite Hpw. reflexivity.
Qed.

(** On a request whose properties are strings or absent, malformed
    input (a username outside [A-Za-z0-9_-]{3,30}, an employee id outside
    [A-Z0-9]{6,10}, or a missing or empty password) is answered with
    status 400 by a response that is fixed by the request alone: whatever
    the store holds, the same response is sent and the store, counters
    and audit log included, is returned untouched. *)
Theorem login_malformed_fails_fast (env : Env) (clk : LoginClock) (req : LoginRequest) :
  malformed req ->
  exists r, code r = 400
    /\ forall w, login env clk req w = (Sent r, w).
Proof.
  intros H. unfold login.
  destruct (negb (JS.truthy (req_username req))
            || negb (patterns_username (JS.toString (req_username req)))) eqn:Eu.
  { eexists; split; [|intros w; reflexivity]; reflexivity. }
  destruct (negb (JS.truthy (req_employeeId req))
            || negb (employeeId_pattern (JS.toString (req_employeeId req)))) eqn:Ei.
  { eexists; split; [|intros w; reflexivity]; reflexivity. }
  destruct (negb (JS.truthy (req_password req))) eqn:Ep.
  { eexists; split; [|intros w; reflexivity]; reflexivity. }
  exfalso.
  apply orb_false_elim in Eu as [Eu1 Eu2], Ei as [Ei1 Ei2].
  apply negb_false_iff in Eu1, Eu2, Ei1, Ei2, Ep.
  destruct H as [H|[H|[H|H]]].
  - destruct (req_username req); simpl in *; congruence.
  - destruct (req_employeeId req); simpl in *; congruence.
  - rewrite H in Ep. discriminate.
  - rewrite H in Ep. discriminate.
Qed.

(** C1.  A login with well-formed input that finds an active, unlocked
    employee and whose password check answers false is answered 401
    'Invalid credentials'; the stored employee then has
    [failedLoginAttempts] one higher, and when that new count is 5 or more
    (and the account is not locked at the time [incrementFailedAttempts]
    looks) [lockedUntil] is the time read for the new expiry plus 15
    minutes; below 5 the lock field keeps its value.  The failure is
    recorded in the audit log. *)
Theorem login_wrong_password_counts_and_locks
    (env : Env) (clk : LoginClock) (req : LoginRequest) (u i pw : string)
    (w : World) (e : Employee) :
  well_formed req u i pw ->
  findOne_credentials u i (employees w) = Some e ->
  isAccountLocked (lc_lookup clk) e = false ->
  argon2_verify (passwordHash e) (pw ++ salt e) = Some false ->
  exists w' e',
    login env clk req w = (Sent (error 401 "Invalid credentials"), w')
    /\ find (fun d => _id d =? _id e) (employees w') = Some e'
    /\ failedLoginAttempts e' = failedLoginAttempts e + 1
    /\ (5 <= failedLoginAttempts e + 1 ->
        isAccountLocked (lc_incr_locked clk) e = false ->
        lockedUntil e' = Some (lc_incr_lock clk + 15 * 60 * 1000))
    /\ (failedLoginAttempts e + 1 < 5 -> lockedUntil e' = lockedUntil e)
    /\ transactions w' = transactions w
    /\ audit w' = (audit w ++ [login_failed u i "Invalid password"])%list.
Proof.
  intros Hreq Hfind Hlocked Hverify.
  rewrite (well_formed_passes _ _ _ _ Hreq).
  unfold tryCatch, bind, findByCredentials, gets, bind.
  rewrite Hfind, Hlocked. unfold ret, validatePassword. rewrite Hverify.
  cbn -[Z.add Z.mul Z.leb replace_employee].
  eexists; eexists; split; [reflexivity|].
  cbn [employees transactions audit set_employees add_audit].
  split.
  { apply find_replace_employee.
    - apply find_some in Hfind. exact (proj1 Hfind).
    - destruct ((maxAttempts <=? failedLoginAttempts e + 1)%Z
                && negb (isAccountLocked (lc_incr_locked clk) e)); reflexivity. }
  split.
  { destruct ((maxAttempts <=? failedLoginAttempts e + 1)%Z
              && negb (isAccountLocked (lc_incr_locked clk) e)); reflexivity. }
  split.
  { intros Hcount Hfree. rewrite Hfree.
    replace (maxAttempts <=? failedLoginAttempts e + 1)%Z with true
      by (symmetry; apply Z.leb_le; unfold maxAttempts; lia).
    reflexivity. }
  split.
  { intros Hcount.
    replace (maxAttempts <=? failedLoginAttempts e + 1)%Z with false
      by (symmetry; apply Z.leb_gt; unfold maxAttempts; lia).
    reflexivity. }
  split; reflexivity.
Qed.

(** C2, as the code has it.  A login with well-formed input against an
    employee whose account is locked is refused before any password
    check (the result is fixed without reference to [argon2_verify]) and
    without touching the employee collection, so no counter moves.  The
    response is the same 401 'Invalid credentials' every other refused
    login gets; that the account is locked is said only in the reason of
    the audit event. *)
Theorem login_locked_refused_unchanged
    (env : Env) (clk : LoginClock) (req : LoginRequest) (u i pw : string)
    (w : World) (e : Employee) :
  well_formed req u i pw ->
  findOne_credentials u i (employees w) = Some e ->
  isAccountLocked (lc_lookup clk) e = true ->
  login env clk req w =
    (Sent (error 401 "Invalid credentials"),
     mkWorld (employees w) (transactions w)
       (audit w ++
        [login_failed u i
           "Account is temporarily locked due to too many failed attempts"])%list).
Proof.
  intros Hreq Hfind Hlocked.
  rewrite (well_formed_passes _ _ _ _ Hreq).
  unfold tryCatch, bind, findByCredentials, gets, bind.
  rewrite Hfind, Hlocked. reflexivity.
Qed.

End LoginProperties.

Lemma login_wrong_password_witness :
  exists w' e',
    login (L := Reference.libraries) Sample.env (Sample.at_time Sample.T0)
      (Sample.credentials "jsmith" "guess")
      (mkWorld [Sample.jsmith_with 4 None] [] [])
    = (Sent (error 401 "Invalid credentials"), w')
    /\ find (fun d => _id d =? _id Sample.jsmith) (employees w') = Some e'
    /\ failedLoginAttempts e' = 5
    /\ lockedUntil e' = Some (Sample.T0 + 900000).
Proof.
  destruct (login_wrong_password_counts_and_locks (L := Reference.libraries)
              Sample.env (Sample.at_time Sample.T0)
              (Sample.credentials "jsmith" "guess") "jsmith" "EMP001" "guess"
              (mkWorld [Sample.jsmith_with 4 None] [] [])
              (Sample.jsmith_with 4 None))
    as (w' & e' & Hrun & Hfind & Hcount & Hlock & _).
  - repeat split; try reflexivity. discriminate.
  - reflexivity.
  - reflexivity.
  - reflexivity.
  - exists w', e'. repeat split; try assumption.
    apply Hlock; [vm_compute; discriminate | reflexivity].
Defined.

Lemma login_locked_refused_witness :
  login (L := Reference.libraries) Sample.env (Sample.at_time Sample.T0)
    (Sample.credentials "jsmith" "Demo123!@#")
    (mkWorld [Sample.jsmith_with 5 (Some (Sample.T0 + 60000))] [] [])
  = (Sent (error 401 "Invalid credentials"),
     mkWorld [Sample.jsmith_with 5 (Some (Sample.T0 + 60000))] []
       [login_failed "jsmith" "EMP001"
          "Account is temporarily locked due to too many failed attempts"]).
Proof.
  apply (login_locked_refused_unchanged (L := Reference.libraries)
           Sample.env (Sample.at_time Sample.T0)
           (Sample.credentials "jsmith" "Demo123!@#") "jsmith" "EMP001" "Demo123!@#"
           (mkWorld [Sample.jsmith_with 5 (Some (Sample.T0 + 60000))] [] [])
           (Sample.jsmith_with 5 (Some (Sample.T0 + 60000)))).
  - repeat split; try reflexivity. discriminate.
  - reflexivity.
  - reflexivity.
Defined.

(** C2 as stated fails: the locked employee presenting the right password
    is answered with the 'Invalid credentials' body, not with the lock
    error, and the answer is the one an unknown username gets. *)
Lemma login_locked_answer_is_invalid_credentials :
  exists r,
    fst (login (L := Reference.libraries) Sample.env (Sample.at_time Sample.T0)
           (Sample.credentials "jsmith" "Demo123!@#")
           (mkWorld [Sample.jsmith_with 5 (Some (Sample.T0 + 60000))] [] []))
    = Sent r
    /\ body r = ErrorBody (Text "Invalid credentials")
    /\ body r <> ErrorBody
         (Text "Account is temporarily locked due to too many failed attempts")
    /\ fst (login (L := Reference.libraries) Sample.env (Sample.at_time Sample.T0)
              (Sample.credentials "nobody" "Demo123!@#")
              (mkWorld [Sample.jsmith_with 5 (Some (Sample.T0 + 60000))] [] []))
       = Sent r.
Proof.
  eexists. split; [vm_compute; reflexivity|].
  split; [reflexivity|]. split; [discriminate|]. vm_compute. reflexivity.
Qed.

Lemma login_malformed_witness :
  exists r, code r = 400
    /\ forall w,
         login (L := Reference.libraries) Sample.env (Sample.at_time Sample.T0)
           (mkLoginRequest (Some "jsmith") (Some "emp001") (Some "Demo123!@#")) w
         = (Sent r, w).
Proof.
  apply (login_malformed_fails_fast (L := Reference.libraries)).
  right. left. reflexivity.
Defined.

(** ** Token refresh *)

Section RefreshProperties.

Context {L : Libraries}.

Lemma refresh_verify_throws (env : Env) (clk : RefreshClock) (tok : option Token)
    (w : World) (m : string) :
  verify_error env (rc_verify clk) tok = Some m ->
  refresh env clk tok w =
    (Sent (error 401 "Invalid refresh token"), add_audit (refresh_failed m) w).
Proof.
  unfold verify_error, refresh, tryCatch, bind, verify_token.
  destruct tok as [t|].
  - destruct (jwt_verify t (JWT_SECRET env) (rc_verify clk)); [|discriminate].
    intros [= ->]. reflexivity.
  - intros [= <-]. reflexivity.
Qed.

Lemma refresh_wrong_type (env : Env) (clk : RefreshClock) (t : Token)
    (d : Decoded) (w : World) :
  jwt_verify t (JWT_SECRET env) (rc_verify clk) = inr d ->
  type_is d "employee_refresh" = false ->
  refresh env clk (Some t) w = (Sent (error 401 "Invalid token type"), w).
Proof.
  intros Hv Ht. unfold refresh, tryCatch, bind, verify_token.
  rewrite Hv. unfold ret. rewrite Ht. reflexivity.
Qed.

Lemma refresh_no_employee (env : Env) (clk : RefreshClock) (t : Token)
    (d : Decoded) (w : World) (found : option Employee) :
  jwt_verify t (JWT_SECRET env) (rc_verify clk) = inr d ->
  type_is d "employee_refresh" = true ->
  Employee_findById (d_employeeId d) w = (Next found, w) ->
  unusable found ->
  refresh env clk (Some t) w = (Sent (error 401 "Employee not found or inactive"), w).
Proof.
  intros Hv Ht Hf Hu. unfold refresh, tryCatch, bind, verify_token.
  rewrite Hv. unfold ret. rewrite Ht. cbn [negb]. rewrite Hf.
  destruct found as [e|]; [|reflexivity].
  simpl in Hu. rewrite Hu. reflexivity.
Qed.

Lemma refresh_accepted (env : Env) (clk : RefreshClock) (tok : option Token)
    (w w' : World) (r : Response) :
  refresh env clk tok w = (Sent r, w') ->
  code r = 200 ->
  exists t d, tok = Some t
    /\ jwt_verify t (JWT_SECRET env) (rc_verify clk) = inr d
    /\ d_type d = Some "employee_refresh".
Proof.
  unfold refresh, tryCatch, bind, verify_token.
  destruct tok as [t|]; [|intros [= <- _]; discriminate].
  destruct (jwt_verify t (JWT_SECRET env) (rc_verify clk)) as [m|d] eqn:Hv;
    [intros [= <- _]; discriminate|].
  unfold ret. destruct (type_is d "employee_refresh") eqn:Ht;
    [|intros [= <- _]; discriminate].
  intros _ _. exists t, d. split; [reflexivity|]. split; [exact Hv|].
  unfold type_is in Ht. destruct (d_type d) as [s|]; [|discriminate].
  apply String.eqb_eq in Ht. congruence.
Qed.

Lemma refresh_lookup_throws (env : Env) (clk : RefreshClock) (t : Token)
    (d : Decoded) (w : World) (m : string) :
  jwt_verify t (JWT_SECRET env) (rc_verify clk) = inr d ->
  type_is d "employee_refresh" = true ->
  Employee_findById (d_employeeId d) w = (Thrown m, w) ->
  refresh env clk (Some t) w =
    (Sent (error 401 "Invalid refresh token"), add_audit (refresh_failed m) w).
Proof.
  intros Hv Ht Hf. unfold refresh, tryCatch, bind, verify_token.
  rewrite Hv. unfold ret. rewrite Ht. cbn [negb]. rewrite Hf. reflexivity.
Qed.

Lemma Employee_findById_cases (id : option string) (w : World) :
  (exists found, Employee_findById id w = (Next found, w))
  \/ (exists m, Employee_findById id w = (Thrown m, w)).
Proof.
  unfold Employee_findById, ret, throw, gets.
  destruct id as [s|]; [destruct (castObjectId s)|];
    (left; eexists; reflexivity) || (right; eexists; reflexivity).
Qed.

(** The refresh route always answers, with 200 or with 401 and one of
    three error texts. *)
Lemma refresh_answers (env : Env) (clk : RefreshClock) (tok : option Token) (w : World) :
  exists r w',
    refresh env clk tok w = (Sent r, w')
    /\ (code r = 200
        \/ code r = 401
           /\ (body r = ErrorBody (Text "Invalid refresh token")
               \/ body r = ErrorBody (Text "Invalid token type")
               \/ body r = ErrorBody (Text "Employee not found or inactive"))).
Proof.
  destruct (verify_error env (rc_verify clk) tok) as [m|] eqn:Hv.
  { eexists; eexists. split; [apply (refresh_verify_throws _ _ _ _ m Hv)|].
    right. split; [reflexivity|]. left. reflexivity. }
  unfold verify_error in Hv. destruct tok as [t|]; [|discriminate].
  destruct (jwt_verify t (JWT_SECRET env) (rc_verify clk)) as [m|d] eqn:Hd;
    [discriminate|].
  destruct (type_is d "employee_refresh") eqn:Ht.
  2:{ eexists; eexists. split; [apply (refresh_wrong_type _ _ _ d); assumption|].
      right. split; [reflexivity|]. right. left. reflexivity. }
  destruct (Employee_findById_cases (d_employeeId d) w) as [(found & Hf)|(m & Hf)].
  2:{ eexists; eexists.
      split; [apply (refresh_lookup_throws _ _ _ d _ m); assumption|].
      right. split; [reflexivity|]. left. reflexivity. }
  destruct found as [e|].
  2:{ eexists; eexists.
      split; [apply (refresh_no_employee _ _ _ d _ None); (assumption || exact I)|].
      right. split; [reflexivity|]. right. right. reflexivity. }
  destruct (isActive e) eqn:Ha.
  2:{ eexists; eexists.
      split; [apply (refresh_no_employee _ _ _ d _ (Some e)); assumption|].
      right. split; [reflexivity|]. right. right. reflexivity. }
  unfold refresh, tryCatch, bind, verify_token.
  rewrite Hd. unfold ret. rewrite Ht. cbn [negb]. rewrite Hf, Ha. cbn.
  eexists; eexists. split; [reflexivity|]. left. reflexivity.
Qed.

(** C6, as the code has it.  Every refresh call is answered, and a
    refresh that fails is always answered with status 401, but with one
    of three texts that tells the failing sub-check: 'Invalid refresh
    token' when the token is absent or [jwt.verify] throws, or when the
    lookup of the subject throws (with the thrown message in the audit
    log); 'Invalid token type' when the verified type claim is not
    employee_refresh; 'Employee not found or inactive' when the subject
    is not found or not active.  The last two leave the store and the
    audit log as they were. *)
Theorem refresh_failure_names_subcheck (env : Env) (clk : RefreshClock) (w : World) :
  (forall tok m,
      verify_error env (rc_verify clk) tok = Some m ->
      refresh env clk tok w =
        (Sent (error 401 "Invalid refresh token"), add_audit (refresh_failed m) w))
  /\ (forall t d,
      jwt_verify t (JWT_SECRET env) (rc_verify clk) = inr d ->
      type_is d "employee_refresh" = false ->
      refresh env clk (Some t) w = (Sent (error 401 "Invalid token type"), w))
  /\ (forall t d found,
      jwt_verify t (JWT_SECRET env) (rc_verify clk) = inr d ->
      type_is d "employee_refresh" = true ->
      Employee_findById (d_employeeId d) w = (Next found, w) ->
      unusable found ->
      refresh env clk (Some t) w =
        (Sent (error 401 "Employee not found or inactive"), w))
  /\ (forall t d m,
      jwt_verify t (JWT_SECRET env) (rc_verify clk) = inr d ->
      type_is d "employee_refresh" = true ->
      Employee_findById (d_employeeId d) w = (Thrown m, w) ->
      refresh env clk (Some t) w =
        (Sent (error 401 "Invalid refresh token"), add_audit (refresh_failed m) w))
  /\ (forall tok,
      exists r w',
        refresh env clk tok w = (Sent r, w')
        /\ (code r = 200
            \/ code r = 401
               /\ (body r = ErrorBody (Text "Invalid refresh token")
                   \/ body r = ErrorBody (Text "Invalid token type")
                   \/ body r = ErrorBody (Text "Employee not found or inactive")))).
Proof.
  split; [|split; [|split; [|split]]].
  - intros tok m. apply refresh_verify_throws.
  - intros t d. apply refresh_wrong_type.
  - intros t d found. apply refresh_no_employee.
  - intros t d m. apply refresh_lookup_throws.
  - intros tok. apply refresh_answers.
Qed.

End RefreshProperties.

Lemma reference_faithful : jwt_faithful Reference.libraries.
Proof.
  intros p k o k' now d. cbn [jwt_verify jwt_sign Reference.libraries].
  unfold Reference.ref_verify.
  destruct (negb (k =? k')); [discriminate|].
  destruct (pl_iat p + Reference.seconds (expiresIn o) <=? now / 1000)%Z;
    [discriminate|].
  intros [= <-]. split; reflexivity.
Qed.

Lemma refresh_failure_witness :
  refresh (L := Reference.libraries) Sample.env (Sample.refresh_at Sample.T0)
    (Some (Reference.Malformed "not a token"))
    (mkWorld [Sample.jsmith] [] [])
  = (Sent (error 401 "Invalid refresh token"),
     mkWorld [Sample.jsmith] [] [refresh_failed "jwt malformed"]).
Proof.
  apply (proj1 (refresh_failure_names_subcheck (L := Reference.libraries)
                  Sample.env (Sample.refresh_at Sample.T0)
                  (mkWorld [Sample.jsmith] [] []))).
  reflexivity.
Defined.

(** C6 as stated fails: a correctly signed access token and text that is
    no token are both refused by the refresh route, but with different
    error texts, so the caller can tell the type check from the
    signature check. *)
Lemma refresh_errors_differ :
  exists r1 r2,
    fst (refresh (L := Reference.libraries) Sample.env (Sample.refresh_at Sample.T0)
           (Some (generateEmployeeToken (L := Reference.libraries) Sample.env
                    Sample.T0 (_id Sample.jsmith)))
           (mkWorld [Sample.jsmith] [] [])) = Sent r1
    /\ fst (refresh (L := Reference.libraries) Sample.env (Sample.refresh_at Sample.T0)
              (Some (Reference.Malformed "not a token"))
              (mkWorld [Sample.jsmith] [] [])) = Sent r2
    /\ body r1 = ErrorBody (Text "Invalid token type")
    /\ body r2 = ErrorBody (Text "Invalid refresh token")
    /\ r1 <> r2.
Proof.
  eexists; eexists. split; [vm_compute; reflexivity|].
  split; [vm_compute; reflexivity|].
  split; [reflexivity|]. split; [reflexivity|]. discriminate.
Qed.

Section TokenTypeProperties.

Context {L : Libraries}.

Lemma validate_type (env : Env) (now : Date) (tok : Token) (k : TokenKind) (d : Decoded) :
  validate env now tok k = inr d -> d_type d = Some (type_claim k).
Proof.
  unfold validate.
  destruct (jwt_verify tok (JWT_SECRET env) now) as [m|d']; [discriminate|].
  destruct (d_iss d') as [iss|]; [|discriminate].
  destruct (d_aud d') as [aud|]; [|discriminate].
  destruct ((iss =? "secure-payments-portal") && (aud =? "banking-employees"));
    [|discriminate].
  destruct (type_is d' (type_claim k)) eqn:Ht; [|discriminate].
  intros [= <-]. unfold type_is in Ht.
  destruct (d_type d') as [s|]; [|discriminate].
  apply String.eqb_eq in Ht. congruence.
Qed.

Lemma validate_refuses_other_kind (env env' : Env) (now now' : Date) (id : string) :
  jwt_faithful L ->
  forall d, validate env now (generateEmployeeRefreshToken env' now' id) access <> inr d.
Proof.
  intros HL d Hv. pose proof (validate_type _ _ _ _ _ Hv) as Ht.
  unfold validate in Hv. unfold generateEmployeeRefreshToken in Hv.
  destruct (jwt_verify _ (JWT_SECRET env) now) as [m|d'] eqn:E; [discriminate|].
  apply HL in E as [_ E]. cbn in E.
  destruct (d_iss d'); [|discriminate]. destruct (d_aud d'); [|discriminate].
  destruct (_ && _); [|discriminate].
  destruct (type_is d' (type_claim access)); [|discriminate].
  injection Hv as <-. rewrite E in Ht. discriminate.
Qed.

(** C7.  A token is accepted only by the operation its type claim names.
    The refresh route answers 401 'Invalid token type' to every token
    that verifies with a type claim other than employee_refresh, and a
    refresh it answers with 200 was given a token whose verified type
    claim is employee_refresh; so an access token made by
    [generateEmployeeToken] is never accepted by it.  Conversely the
    access gate ([validate] at kind access, and [employeeAuth] built on
    it) accepts only tokens whose type claim is employee_access, so a
    refresh token made by [generateEmployeeRefreshToken] is refused
    there. *)
Theorem token_type_matches_operation :
  (forall env clk t d w,
      jwt_verify t (JWT_SECRET env) (rc_verify clk) = inr d ->
      type_is d "employee_refresh" = false ->
      refresh env clk (Some t) w = (Sent (error 401 "Invalid token type"), w))
  /\ (forall env clk tok w w' r,
      refresh env clk tok w = (Sent r, w') ->
      code r = 200 ->
      exists t d, tok = Some t
        /\ jwt_verify t (JWT_SECRET env) (rc_verify clk) = inr d
        /\ d_type d = Some "employee_refresh")
  /\ (forall env now tok k d,
      validate env now tok k = inr d -> d_type d = Some (type_claim k))
  /\ (jwt_faithful L ->
      forall env env' clk now id w,
      exists r w',
        refresh env clk (Some (generateEmployeeToken env' now id)) w = (Sent r, w')
        /\ code r = 401)
  /\ (jwt_faithful L ->
      forall env env' now now' id w,
        employeeAuth env now (generateEmployeeRefreshToken env' now' id) w
        = (Sent (error 401 "Unauthorized"), w)).
Proof.
  split; [|split; [|split; [|split]]].
  - intros env clk t d w. apply refresh_wrong_type.
  - intros env clk tok w w' r. apply refresh_accepted.
  - intros env now tok k d. apply validate_type.
  - intros HL env env' clk now id w.
    destruct (jwt_verify (generateEmployeeToken env' now id) (JWT_SECRET env)
                (rc_verify clk)) as [m|d] eqn:Hv.
    + exists (error 401 "Invalid refresh token"), (add_audit (refresh_failed m) w).
      split; [|reflexivity]. apply refresh_verify_throws.
      unfold verify_error. rewrite Hv. reflexivity.
    + exists (error 401 "Invalid token type"), w.
      split; [|reflexivity]. apply (refresh_wrong_type _ _ _ d); [exact Hv|].
      apply HL in Hv as [_ Hv]. unfold type_is. rewrite Hv. reflexivity.
  - intros HL env env' now now' id w. unfold employeeAuth.
    destruct (validate env now (generateEmployeeRefreshToken env' now' id) access)
      as [err|d] eqn:Hv; [reflexivity|].
    exfalso. exact (validate_refuses_other_kind _ _ _ _ _ HL d Hv).
Qed.

End TokenTypeProperties.

Lemma token_type_witness :
  refresh (L := Reference.libraries) Sample.env (Sample.refresh_at Sample.T0)
    (Some (generateEmployeeToken (L := Reference.libraries) Sample.env
             Sample.T0 (_id Sample.jsmith)))
    (mkWorld [Sample.jsmith] [] [])
  = (Sent (error 401 "Invalid token type"), mkWorld [Sample.jsmith] [] [])
  /\ employeeAuth (L := Reference.libraries) Sample.env Sample.T0
       (generateEmployeeRefreshToken (L := Reference.libraries) Sample.env
          Sample.T0 (_id Sample.jsmith))
       (mkWorld [Sample.jsmith] [] [])
     = (Sent (error 401 "Unauthorized"), mkWorld [Sample.jsmith] [] []).
Proof.
  split.
  - eapply (proj1 (token_type_matches_operation (L := Reference.libraries))).
    + vm_compute. reflexivity.
    + reflexivity.
  - apply (proj2 (proj2 (proj2 (proj2
             (token_type_matches_operation (L := Reference.libraries)))))).
    exact reference_faithful.
Defined.

(** ** Numbers *)

Section Numbers.

Local Close Scope string_scope.

Lemma digits2_bounds (p : positive) :
  2 ^ (Zpos (digits2_pos p) - 1) <= Zpos p < 2 ^ Zpos (digits2_pos p).
Proof.
  induction p as [p IH|p IH|]; cbn [digits2_pos].
  - rewrite Pos2Z.inj_succ, Z.pow_succ_r by lia.
    replace (Z.succ (Zpos (digits2_pos p)) - 1)
      with (Z.succ (Zpos (digits2_pos p) - 1)) by lia.
    rewrite Z.pow_succ_r by lia. lia.
  - rewrite Pos2Z.inj_succ, Z.pow_succ_r by lia.
    replace (Z.succ (Zpos (digits2_pos p)) - 1)
      with (Z.succ (Zpos (digits2_pos p) - 1)) by lia.
    rewrite Z.pow_succ_r by lia. lia.
  - simpl. lia.
Qed.

Lemma digits2_shift (p d : positive) :
  digits2_pos (Pos.iter xO p d) = (digits2_pos p + d)%positive.
Proof.
  revert p. induction d using Pos.peano_ind; intros p.
  - simpl. lia.
  - rewrite Pos.iter_succ. cbn [digits2_pos]. rewrite IHd. lia.
Qed.

Lemma digits2_mono (p q : positive) :
  Zpos (digits2_pos p) < Zpos (digits2_pos q) -> Zpos p < Zpos q.
Proof.
  intros H. pose proof (digits2_bounds p) as [_ Hp].
  pose proof (digits2_bounds q) as [Hq _].
  assert (2 ^ Zpos (digits2_pos p) <= 2 ^ (Zpos (digits2_pos q) - 1))
    by (apply Z.pow_le_mono_r; lia).
  lia.
Qed.

(** Rounding a mantissa that already has its canonical exponent changes
    nothing. *)
Lemma round_canonical (m : positive) (e : Z) :
  canonical_mantissa JS.prec JS.emax m e = true -> e <= 971 ->
  binary_round_aux JS.prec JS.emax false (Zpos m) e loc_Exact = S754_finite false m e.
Proof.
  intros Hc He. unfold canonical_mantissa in Hc. apply Z.eqb_eq in Hc.
  unfold binary_round_aux, shr_fexp. cbn [Zdigits2 shr_record_of_loc].
  rewrite Hc, Z.sub_diag.
  cbn [shr shr_m loc_of_shr_record round_nearest_even Zdigits2].
  rewrite Hc, Z.sub_diag. cbn [shr shr_m shr_record_of_loc].
  replace (e <=? JS.emax - JS.prec) with true
    by (symmetry; apply Z.leb_le; unfold JS.emax, JS.prec; lia).
  reflexivity.
Qed.

(** The Number of a positive integer below 2^53 is that integer, its
    mantissa shifted up to 53 bits. *)
Lemma Number_of_pos (p : positive) :
  Zpos p < 2 ^ 53 ->
  exists m e, JS.Number_of_Z (Zpos p) = S754_finite false m e
    /\ e = Zpos (digits2_pos p) - 53
    /\ e <= 0
    /\ Zpos m = Zpos p * 2 ^ (- e).
Proof.
  intros Hp. pose proof (digits2_bounds p) as [Hlo _].
  assert (Hd : Zpos (digits2_pos p) <= 53).
  { destruct (Z_le_gt_dec (Zpos (digits2_pos p)) 53) as [H|H]; [exact H|].
    exfalso.
    assert (2 ^ 53 <= 2 ^ (Zpos (digits2_pos p) - 1))
      by (apply Z.pow_le_mono_r; lia).
    lia. }
  unfold JS.Number_of_Z, binary_normalize, binary_round, shl_align.
  assert (Hf : fexp JS.prec JS.emax (Zpos (digits2_pos p) + 0)
               = Zpos (digits2_pos p) - 53).
  { unfold fexp, emin, JS.prec, JS.emax. lia. }
  rewrite Hf.
  destruct (Zpos (digits2_pos p) - 53 - 0) as [|d|d] eqn:Hs; [|lia|].
  - exists p, 0. split; [|split; [|split]].
    + apply round_canonical; [|lia]. unfold canonical_mantissa.
      apply Z.eqb_eq. unfold fexp, emin, JS.prec, JS.emax. lia.
    + lia.
    + lia.
    + simpl. lia.
  - exists (Pos.iter xO p d), (Zpos (digits2_pos p) - 53).
    split; [|split; [|split]].
    + apply round_canonical; [|lia]. unfold canonical_mantissa.
      apply Z.eqb_eq. rewrite digits2_shift.
      unfold fexp, emin, JS.prec, JS.emax. lia.
    + reflexivity.
    + lia.
    + change (Pos.iter xO p d) with (shift_pos d p).
      rewrite shift_pos_correct, Z.pow_pos_fold.
      replace (- (Zpos (digits2_pos p) - 53)) with (Zpos d) by lia. lia.
Qed.

Lemma gt_of_pos (a l : positive) :
  Zpos a < 2 ^ 53 -> Zpos l < 2 ^ 53 ->
  JS.gt (JS.Number_of_Z (Zpos a)) (JS.Number_of_Z (Zpos l)) = (Zpos l <? Zpos a).
Proof.
  intros Ha Hl.
  destruct (Number_of_pos a Ha) as (ma & ea & -> & Hea & Hea0 & Hma).
  destruct (Number_of_pos l Hl) as (ml & el & -> & Hel & Hel0 & Hml).
  unfold JS.gt, SFltb, SFcompare.
  destruct (el ?= ea) eqn:Hc.
  - apply Z.compare_eq in Hc. rewrite Hc in Hml.
    change (Pos.compare_cont Eq ml ma) with (Zpos ml ?= Zpos ma).
    rewrite Hml, Hma.
    assert (0 < 2 ^ (- ea)) by (apply Z.pow_pos_nonneg; lia).
    destruct (Zpos l <? Zpos a) eqn:E.
    + apply Z.ltb_lt in E.
      replace (Zpos l * 2 ^ (- ea) ?= Zpos a * 2 ^ (- ea)) with Lt; [reflexivity|].
      symmetry. apply Z.mul_lt_mono_pos_r; assumption.
    + apply Z.ltb_ge in E.
      destruct (Zpos l * 2 ^ (- ea) ?= Zpos a * 2 ^ (- ea)) eqn:E2; try reflexivity.
      change (Zpos l * 2 ^ (- ea) < Zpos a * 2 ^ (- ea)) in E2.
      apply Z.mul_lt_mono_pos_r in E2; [lia|assumption].
  - change (el < ea) in Hc. symmetry. apply Z.ltb_lt.
    apply digits2_mono. lia.
  - change (el > ea) in Hc. symmetry. apply Z.ltb_ge.
    apply Z.lt_le_incl, digits2_mono. lia.
Qed.

(** On whole numbers from 0 up to 2^53 - 1 ([Number.MAX_SAFE_INTEGER])
    the Number comparison is the comparison of the integers. *)
Lemma gt_of_safe_integers (a l : Z) :
  0 <= a < 2 ^ 53 -> 0 <= l < 2 ^ 53 ->
  JS.gt (JS.Number_of_Z a) (JS.Number_of_Z l) = (l <? a).
Proof.
  intros Ha Hl.
  destruct a as [|a|a]; [| |lia]; (destruct l as [|l|l]; [| |lia]).
  - reflexivity.
  - destruct (Number_of_pos l (proj2 Hl)) as (m & e & -> & _). reflexivity.
  - destruct (Number_of_pos a (proj2 Ha)) as (m & e & -> & _). reflexivity.
  - apply gt_of_pos; lia.
Qed.

End Numbers.

(** ** Verifying a transaction *)

Section VerifyProperties.

Context {L : Libraries}.

Lemma cast_of_format (id : string) :
  objectIdFormat id = true -> castObjectId id = Some (JS.toLowerCase id).
Proof. intros H. unfold castObjectId. rewrite H. reflexivity. Qed.

Lemma notes_accepted (notes : option string) :
  JS.truthy notes = false \/ (String.length (JS.toString notes) <= 500)%nat ->
  JS.truthy notes && (500 <? String.length (JS.toString notes))%nat = false.
Proof.
  intros [H|H].
  - rewrite H. reflexivity.
  - apply andb_false_iff. right. apply Nat.ltb_ge. exact H.
Qed.

Lemma lookup_replace (id : string) (w : World) (t t' : Transaction) (ev : AuditEvent) :
  lookup id w = Some t -> tx_id t' = tx_id t ->
  lookup id (add_audit ev
               (set_transactions (replace_transaction t' (transactions w)) w))
  = Some t'.
Proof.
  unfold lookup. intros Hl Hid. cbn [transactions add_audit set_transactions].
  apply find_some in Hl as [Hin Hk]. apply String.eqb_eq in Hk. rewrite <- Hk.
  apply find_replace_transaction; assumption.
Qed.

Ltac enter_verify Hreq Hlook :=
  let Hfmt := fresh "Hfmt" in
  let Hv := fresh "Hv" in
  let Hnotes := fresh "Hnotes" in
  destruct Hreq as (Hfmt & Hv & Hnotes);
  unfold verifyTransaction;
  rewrite Hfmt, Hv; cbn [negb];
  rewrite (notes_accepted _ Hnotes);
  unfold bind at 1; unfold Transaction_findById;
  rewrite (cast_of_format _ Hfmt); unfold gets;
  unfold lookup in Hlook; rewrite Hlook.

Lemma verify_not_pending (now : Date) (actor : Employee) (req : VerifyRequest)
    (v : bool) (w : World) (t : Transaction) :
  passes_validation req v ->
  lookup (params_id req) w = Some t ->
  status t <> PENDING ->
  verifyTransaction now actor req w =
    (Sent (error 400 "Transaction is not in PENDING status"), w).
Proof.
  intros Hreq Hlook Hst. enter_verify Hreq Hlook.
  destruct (status t); try reflexivity. contradiction.
Qed.

Lemma verify_over_limit (now : Date) (actor : Employee) (req : VerifyRequest)
    (w : World) (t : Transaction) :
  passes_validation req true ->
  lookup (params_id req) w = Some t ->
  status t = PENDING ->
  exceedsLimit true t actor = true ->
  verifyTransaction now actor req w =
    (Sent (json 403 (ErrorBody (LimitText (verificationLimit actor)))), w).
Proof.
  intros Hreq Hlook Hst Hex. enter_verify Hreq Hlook.
  rewrite Hst, Hex. reflexivity.
Qed.

Lemma verify_approves (now : Date) (actor : Employee) (req : VerifyRequest)
    (w : World) (t : Transaction) :
  passes_validation req true ->
  lookup (params_id req) w = Some t ->
  status t = PENDING ->
  exceedsLimit true t actor = false ->
  exists w',
    verifyTransaction now actor req w =
      (Sent (json 200 (VerifyBody "Transaction verified successfully"
                         (mkView (tx_id t) VERIFIED (Some now) (rejectionReason t)))),
       w')
    /\ lookup (params_id req) w' = Some (verified_by now t)
    /\ employees w' = employees w.
Proof.
  intros Hreq Hlook Hst Hex. pose proof Hlook as Hlook'.
  enter_verify Hreq Hlook.
  rewrite Hst, Hex. cbn. eexists. split; [reflexivity|].
  split; [|reflexivity].
  apply (lookup_replace _ w t); [exact Hlook'|reflexivity].
Qed.

Lemma exceedsLimit_spec (t : Transaction) (actor : Employee) :
  exceedsLimit true t actor = true <->
  JS.gt (amount t) (verificationLimit actor) = true
  /\ role actor <> ADMIN /\ role actor <> SUPERVISOR.
Proof.
  unfold exceedsLimit. cbn [andb].
  destruct (JS.gt (amount t) (verificationLimit actor)), (role actor);
    cbn; split; intros H; try discriminate; try (repeat split; congruence);
    destruct H as (H1 & H2 & H3); congruence.
Qed.

(** A verify call answered with 200 leaves the transaction it names in a
    status other than PENDING. *)
Lemma verify_success_leaves_pending (now : Date) (actor : Employee)
    (req : VerifyRequest) (w w' : World) (r : Response) :
  verifyTransaction now actor req w = (Sent r, w') ->
  code r = 200 ->
  exists t', lookup (params_id req) w' = Some t' /\ status t' <> PENDING.
Proof.
  unfold verifyTransaction.
  destruct (objectIdFormat (params_id req)) eqn:Hfmt; cbn [negb];
    [|intros [= <- _]; discriminate].
  destruct (body_verified req) as [v|]; [|intros [= <- _]; discriminate].
  destruct (JS.truthy (body_notes req)
            && (500 <? String.length (JS.toString (body_notes req)))%nat);
    [intros [= <- _]; discriminate|].
  unfold bind at 1. unfold Transaction_findById.
  rewrite (cast_of_format _ Hfmt). unfold gets.
  destruct (find (fun t => tx_id t =? JS.toLowerCase (params_id req))
              (transactions w)) as [t|] eqn:Hlook;
    [|intros [= <- _]; discriminate].
  destruct (negb (Status_eqb (status t) PENDING));
    [intros [= <- _]; discriminate|].
  destruct (exceedsLimit v t actor); [intros [= <- _]; discriminate|].
  destruct v; cbn; intros [= <- <-] _.
  - exists (verified_by now t). split; [|discriminate].
    apply (lookup_replace _ w t); [exact Hlook|reflexivity].
  - exists (rejected_with (JS.or_else (body_notes req) "Rejected by employee") t).
    split; [|discriminate].
    apply (lookup_replace _ w t); [exact Hlook|reflexivity].
Qed.

(** C3.  An approval of a PENDING transaction whose amount is greater
    than the acting employee's verification limit, by an employee who is
    neither ADMIN nor SUPERVISOR, is answered 403 with the limit text and
    the store is left as it was.  In particular an EMPLOYEE with limit
    100000 is refused on an amount of 150000, while on 99999.99 (the
    Number 9999999/100) the approval is answered 200 and the transaction
    is stored VERIFIED with [verifiedAt] stamped. *)
Theorem verify_limit_enforced :
  (forall now actor req w t,
      passes_validation req true ->
      lookup (params_id req) w = Some t ->
      status t = PENDING ->
      JS.gt (amount t) (verificationLimit actor) = true ->
      role actor <> ADMIN -> role actor <> SUPERVISOR ->
      verifyTransaction now actor req w =
        (Sent (json 403 (ErrorBody (LimitText (verificationLimit actor)))), w))
  /\ (forall now actor req w t,
      passes_validation req true ->
      lookup (params_id req) w = Some t ->
      status t = PENDING ->
      role actor = EMPLOYEE ->
      verificationLimit actor = JS.Number_of_Z 100000 ->
      amount t = JS.Number_of_Z 150000 ->
      verifyTransaction now actor req w =
        (Sent (json 403 (ErrorBody (LimitText (JS.Number_of_Z 100000)))), w))
  /\ (forall now actor req w t,
      passes_validation req true ->
      lookup (params_id req) w = Some t ->
      status t = PENDING ->
      role actor = EMPLOYEE ->
      verificationLimit actor = JS.Number_of_Z 100000 ->
      amount t = JS.div (JS.Number_of_Z 9999999) (JS.Number_of_Z 100) ->
      exists w',
        verifyTransaction now actor req w =
          (Sent (json 200 (VerifyBody "Transaction verified successfully"
                             (mkView (tx_id t) VERIFIED (Some now)
                                (rejectionReason t)))),
           w')
        /\ lookup (params_id req) w' = Some (verified_by now t)).
Proof.
  split; [|split].
  - intros now actor req w t Hreq Hlook Hst Hgt Ha Hs.
    apply (verify_over_limit _ _ _ _ t); try assumption.
    apply exceedsLimit_spec. repeat split; assumption.
  - intros now actor req w t Hreq Hlook Hst Hrole Hlim Hamt.
    rewrite <- Hlim. apply (verify_over_limit _ _ _ _ t); try assumption.
    unfold exceedsLimit. rewrite Hrole, Hlim, Hamt. reflexivity.
  - intros now actor req w t Hreq Hlook Hst Hrole Hlim Hamt.
    destruct (verify_approves now actor req w t) as (w' & Hrun & Hl & _);
      try assumption.
    + unfold exceedsLimit. rewrite Hlim, Hamt. reflexivity.
    + exists w'. split; assumption.
Qed.

(** C4, as the code has it.  A verify call that passes the input checks
    and names a transaction that is not PENDING is answered 400
    'Transaction is not in PENDING status' and changes nothing.
    Consequently, once a verify call has been answered 200 (approval or
    rejection alike), every later well-formed verify call on the same id
    gets that 400 and leaves the store as the first call left it. *)
Theorem verify_requires_pending :
  (forall now actor req v w t,
      passes_validation req v ->
      lookup (params_id req) w = Some t ->
      status t <> PENDING ->
      verifyTransaction now actor req w =
        (Sent (error 400 "Transaction is not in PENDING status"), w))
  /\ (forall now1 actor1 req1 w r1 w1 now2 actor2 req2 v2,
      verifyTransaction now1 actor1 req1 w = (Sent r1, w1) ->
      code r1 = 200 ->
      params_id req2 = params_id req1 ->
      passes_validation req2 v2 ->
      verifyTransaction now2 actor2 req2 w1 =
        (Sent (error 400 "Transaction is not in PENDING status"), w1)).
Proof.
  split.
  - intros now actor req v w t. apply verify_not_pending.
  - intros now1 actor1 req1 w r1 w1 now2 actor2 req2 v2 Hrun Hok Hid Hreq.
    destruct (verify_success_leaves_pending _ _ _ _ _ _ Hrun Hok)
      as (t' & Hlook & Hst).
    apply (verify_not_pending _ _ _ v2 _ t'); [exact Hreq| |exact Hst].
    rewrite Hid. exact Hlook.
Qed.

(** C10.  A rejection ([verified] false) of a PENDING transaction is
    answered 200 and stores the transaction REJECTED.  The stored
    [rejectionReason], which the answer repeats, is the text of the notes
    when notes were sent and are not empty, and 'Rejected by employee'
    when they are absent or empty.  Nothing is assumed about the amount,
    the verification limit or the role of the acting employee. *)
Theorem verify_reject_ignores_limit (now : Date) (actor : Employee)
    (req : VerifyRequest) (w : World) (t : Transaction) :
  passes_validation req false ->
  lookup (params_id req) w = Some t ->
  status t = PENDING ->
  exists w' reason,
    verifyTransaction now actor req w =
      (Sent (json 200
               (VerifyBody "Transaction rejected"
                  (mkView (tx_id t) REJECTED (verifiedAt t) (Some reason)))),
       w')
    /\ lookup (params_id req) w' = Some (rejected_with reason t)
    /\ employees w' = employees w
    /\ (forall notes, body_notes req = Some notes -> notes <> EmptyString ->
        reason = notes)
    /\ (body_notes req = None \/ body_notes req = Some EmptyString ->
        reason = "Rejected by employee").
Proof.
  intros Hreq Hlook Hst. pose proof Hlook as Hlook'.
  enter_verify Hreq Hlook.
  rewrite Hst. cbn [Status_eqb negb].
  replace (exceedsLimit false t actor) with false by reflexivity.
  cbn. eexists. exists (JS.or_else (body_notes req) "Rejected by employee").
  split; [reflexivity|].
  split; [apply (lookup_replace _ w t); [exact Hlook'|reflexivity]|].
  split; [reflexivity|].
  split.
  - intros notes Hn Hne. rewrite Hn.
    destruct notes as [|c rest]; [contradiction|reflexivity].
  - intros [Hn|Hn]; rewrite Hn; reflexivity.
Qed.

End VerifyProperties.

Lemma verify_limit_witness :
  verifyTransaction (L := Reference.libraries) Sample.T0 Sample.jsmith
    (Sample.approve Sample.id1)
    (mkWorld [Sample.jsmith]
       [Sample.payment Sample.id1 (JS.Number_of_Z 150000) PENDING] [])
  = (Sent (json 403 (ErrorBody (LimitText (JS.Number_of_Z 100000)))),
     mkWorld [Sample.jsmith]
       [Sample.payment Sample.id1 (JS.Number_of_Z 150000) PENDING] []).
Proof.
  apply (proj1 (verify_limit_enforced (L := Reference.libraries)) Sample.T0
           Sample.jsmith (Sample.approve Sample.id1) _
           (Sample.payment Sample.id1 (JS.Number_of_Z 150000) PENDING)).
  - split; [reflexivity|]. split; [reflexivity|]. left. reflexivity.
  - reflexivity.
  - reflexivity.
  - reflexivity.
  - discriminate.
  - discriminate.
Defined.

Lemma verify_requires_pending_witness :
  verifyTransaction (L := Reference.libraries) Sample.T0 Sample.jsmith
    (Sample.approve Sample.id1)
    (mkWorld [Sample.jsmith]
       [Sample.payment Sample.id1 (JS.Number_of_Z 500) VERIFIED] [])
  = (Sent (error 400 "Transaction is not in PENDING status"),
     mkWorld [Sample.jsmith]
       [Sample.payment Sample.id1 (JS.Number_of_Z 500) VERIFIED] []).
Proof.
  apply (proj1 (verify_requires_pending (L := Reference.libraries)) Sample.T0
           Sample.jsmith (Sample.approve Sample.id1) true _
           (Sample.payment Sample.id1 (JS.Number_of_Z 500) VERIFIED)).
  - split; [reflexivity|]. split; [reflexivity|]. left. reflexivity.
  - reflexivity.
  - discriminate.
Defined.

(** C4 as stated fails: an approval refused for exceeding the limit
    leaves the transaction PENDING, and the same call made a second time
    is answered 403 again, not 400 'Transaction is not in PENDING
    status'. *)
Lemma verify_twice_after_refusal :
  exists w1 r2,
    verifyTransaction (L := Reference.libraries) Sample.T0 Sample.jsmith
      (Sample.approve Sample.id1)
      (mkWorld [Sample.jsmith]
         [Sample.payment Sample.id1 (JS.Number_of_Z 150000) PENDING] [])
    = (Sent (json 403 (ErrorBody (LimitText (JS.Number_of_Z 100000)))), w1)
    /\ fst (verifyTransaction (L := Reference.libraries) Sample.T0 Sample.jsmith
              (Sample.approve Sample.id1) w1) = Sent r2
    /\ code r2 = 403
    /\ r2 <> error 400 "Transaction is not in PENDING status".
Proof.
  eexists; eexists. split; [vm_compute; reflexivity|].
  split; [vm_compute; reflexivity|]. split; [reflexivity|]. discriminate.
Qed.

Lemma verify_reject_witness :
  exists w',
    verifyTransaction (L := Reference.libraries) Sample.T0 Sample.jsmith
      (Sample.reject Sample.id1 (Some "Beneficiary name does not match"))
      (mkWorld [Sample.jsmith]
         [Sample.payment Sample.id1 (JS.Number_of_Z 150000) PENDING] [])
    = (Sent (json 200
               (VerifyBody "Transaction rejected"
                  (mkView Sample.id1 REJECTED None
                     (Some "Beneficiary name does not match")))),
       w')
    /\ lookup Sample.id1 w' =
       Some (rejected_with "Beneficiary name does not match"
               (Sample.payment Sample.id1 (JS.Number_of_Z 150000) PENDING))
    /\ employees w' = [Sample.jsmith].
Proof.
  destruct (verify_reject_ignores_limit (L := Reference.libraries) Sample.T0
              Sample.jsmith
              (Sample.reject Sample.id1 (Some "Beneficiary name does not match"))
              (mkWorld [Sample.jsmith]
                 [Sample.payment Sample.id1 (JS.Number_of_Z 150000) PENDING] [])
              (Sample.payment Sample.id1 (JS.Number_of_Z 150000) PENDING))
    as (w' & reason & Hrun & Hlook & Hemp & Hnotes & _).
  - split; [reflexivity|]. split; [reflexivity|]. right. cbn. lia.
  - reflexivity.
  - reflexivity.
  - assert (Hr : reason = "Beneficiary name does not match")
      by (apply Hnotes; [reflexivity|discriminate]).
    subst reason. exists w'. split; [exact Hrun|]. split; [exact Hlook|exact Hemp].
Defined.

(** C8 as stated fails: the comparison is made on binary64 values.  The
    amount 9007199254740993 is greater than the limit 9007199254740992,
    but both numerals denote the same Number, so the test does not fire
    and the EMPLOYEE's approval is answered 200. *)
Lemma limit_check_rounds :
  (9007199254740992 <? 9007199254740993)%Z = true
  /\ exceedsLimit true
       (Sample.payment Sample.id1 (JS.Number_of_Z 9007199254740993) PENDING)
       (Sample.staff EMPLOYEE (JS.Number_of_Z 9007199254740992))
     = false
  /\ exists w',
       verifyTransaction (L := Reference.libraries) Sample.T0
         (Sample.staff EMPLOYEE (JS.Number_of_Z 9007199254740992))
         (Sample.approve Sample.id1)
         (mkWorld []
            [Sample.payment Sample.id1 (JS.Number_of_Z 9007199254740993) PENDING]
            [])
       = (Sent (json 200 (VerifyBody "Transaction verified successfully"
                            (mkView Sample.id1 VERIFIED (Some Sample.T0) None))),
          w').
Proof.
  split; [reflexivity|]. split; [reflexivity|].
  eexists. vm_compute. reflexivity.
Qed.

(** ** Submitting a batch *)

Section BatchProperties.

Context {L : Libraries}.

Local Abbreviation has o := (fun d : Transaction => tx_id d =? o).

Lemma cast_all_batch (ids : list string) :
  Forall (fun id => objectIdFormat id = true) ids ->
  cast_all ids = Some (map JS.toLowerCase ids).
Proof.
  induction 1 as [|id ids Hid _ IH]; [reflexivity|].
  cbn [cast_all map]. rewrite (cast_of_format _ Hid), IH. reflexivity.
Qed.

Lemma no_bad_id (ids : list string) :
  Forall (fun id => objectIdFormat id = true) ids ->
  find (fun id => negb (objectIdFormat id)) ids = None.
Proof.
  induction 1 as [|id ids Hid _ IH]; [reflexivity|].
  cbn [find]. rewrite Hid. exact IH.
Qed.

(** In a collection with unique ids a document is the one its id finds. *)
Lemma find_own_id (docs : list Transaction) (t : Transaction) :
  NoDup (map tx_id docs) -> In t docs -> find (has (tx_id t)) docs = Some t.
Proof.
  induction docs as [|d docs IH]; [contradiction|].
  cbn [map find]. intros Hnd [->|Hin].
  - rewrite String.eqb_refl. reflexivity.
  - inversion Hnd as [|? ? Hd Hnd']; subst.
    destruct (tx_id d =? tx_id t) eqn:E.
    + apply String.eqb_eq in E. exfalso. apply Hd. rewrite E.
      apply in_map. exact Hin.
    + apply IH; assumption.
Qed.

(** Filtering a collection keeps its ids unique. *)
Lemma filter_unique_ids (keep : Transaction -> bool) (docs : list Transaction) :
  NoDup (map tx_id docs) -> NoDup (map tx_id (filter keep docs)).
Proof.
  intros Hu. induction docs as [|d docs IH]; cbn [map filter]; [constructor|].
  inversion Hu as [|? ? Hd Hu']; subst.
  destruct (keep d); [|exact (IH Hu')].
  cbn [map]. constructor; [|exact (IH Hu')].
  intros Hin. apply Hd. apply in_map_iff in Hin as (x & Hx & Hin).
  apply filter_In in Hin as [Hin _]. rewrite <- Hx. apply in_map. exact Hin.
Qed.

Lemma filter_length_lt {A} (p : A -> bool) (l : list A) (x : A) :
  In x l -> p x = false -> (List.length (filter p l) < List.length l)%nat.
Proof.
  induction l as [|a l IH]; [contradiction|].
  intros [->|Hin] Hp; cbn [filter List.length].
  - rewrite Hp. pose proof (filter_length_le p l). lia.
  - specialize (IH Hin Hp). destruct (p a); cbn [List.length]; lia.
Qed.

Lemma existsb_eqb_In (o : string) (os : list string) :
  existsb (String.eqb o) os = true <-> In o os.
Proof.
  rewrite existsb_exists. split.
  - intros (x & Hx & E). apply String.eqb_eq in E. subst. exact Hx.
  - intros H. exists o. split; [exact H|apply String.eqb_refl].
Qed.

Lemma selected_iff (oids : list ObjectId) (docs : list Transaction) (t : Transaction) :
  In t (select_in_status oids VERIFIED docs) <->
  In t docs /\ In (tx_id t) oids /\ status t = VERIFIED.
Proof.
  unfold select_in_status. rewrite filter_In, andb_true_iff, existsb_eqb_In.
  destruct (status t); cbn; intuition discriminate.
Qed.

Lemma resolves_iff (w : World) (id : string) :
  unique_ids w ->
  resolves w id = true <->
  exists t, In t (transactions w) /\ tx_id t = JS.toLowerCase id
            /\ status t = VERIFIED.
Proof.
  intros Hu. unfold resolves, lookup. split.
  - destruct (find _ _) as [t|] eqn:E; [|discriminate].
    intros Hs. apply find_some in E as [Hin Hid]. apply String.eqb_eq in Hid.
    exists t. repeat split; try assumption. destruct (status t); (reflexivity || discriminate).
  - intros (t & Hin & Hid & Hs). rewrite <- Hid, (find_own_id _ _ Hu Hin), Hs.
    reflexivity.
Qed.

(** The documents the query selects are as many as the ids that resolve,
    at most. *)
Lemma selected_length (w : World) (ids : list string) :
  unique_ids w ->
  (List.length (select_in_status (map JS.toLowerCase ids) VERIFIED (transactions w))
   <= List.length (filter (resolves w) ids))%nat.
Proof.
  intros Hu.
  rewrite <- (length_map tx_id (select_in_status _ _ _)).
  rewrite <- (length_map JS.toLowerCase (filter _ _)).
  apply NoDup_incl_length.
  - apply filter_unique_ids. exact Hu.
  - intros o Ho. apply in_map_iff in Ho as (t & <- & Ht).
    apply selected_iff in Ht as (Hin & Hoid & Hs).
    apply in_map_iff in Hoid as (id & Hid & Hin').
    apply in_map_iff. exists id. split; [exact Hid|].
    apply filter_In. split; [exact Hin'|].
    apply (resolves_iff _ _ Hu). exists t. repeat split; auto.
Qed.

Lemma find_replace_other (docs : list Transaction) (t' : Transaction) (o : ObjectId) :
  tx_id t' <> o ->
  find (has o) (replace_transaction t' docs) = find (has o) docs.
Proof.
  intros Hne. induction docs as [|d docs IH]; [reflexivity|].
  cbn [replace_transaction map find]. fold (replace_transaction t' docs).
  destruct (tx_id d =? tx_id t') eqn:E.
  - apply String.eqb_eq in E.
    replace (tx_id t' =? o) with false by (symmetry; apply String.eqb_neq; exact Hne).
    replace (tx_id d =? o) with false
      by (symmetry; apply String.eqb_neq; congruence).
    exact IH.
  - destruct (tx_id d =? o); [reflexivity|exact IH].
Qed.

Lemma find_replace_same (docs : list Transaction) (t' t0 : Transaction) :
  find (has (tx_id t')) docs = Some t0 ->
  find (has (tx_id t')) (replace_transaction t' docs) = Some t'.
Proof.
  intros H. apply find_some in H as [Hin Hid]. apply String.eqb_eq in Hid.
  rewrite <- Hid. apply find_replace_transaction; [exact Hin|].
  symmetry. exact Hid.
Qed.

Lemma after_submission_other (fs docs : list Transaction) (o : ObjectId) :
  ~ In o (map tx_id fs) ->
  find (has o) (after_submission fs docs) = find (has o) docs.
Proof.
  revert docs. induction fs as [|t fs IH]; intros docs Hn; [reflexivity|].
  cbn [after_submission fold_left]. fold (after_submission fs).
  rewrite IH by (intros H; apply Hn; right; exact H).
  apply find_replace_other. intros H. apply Hn. left. exact H.
Qed.

Lemma after_submission_member (fs docs : list Transaction) (t t0 : Transaction) :
  NoDup (map tx_id fs) -> In t fs ->
  find (has (tx_id t)) docs = Some t0 ->
  find (has (tx_id t)) (after_submission fs docs) = Some (processing t).
Proof.
  revert docs t0. induction fs as [|f fs IH]; intros docs t0 Hnd Hin Hf;
    [contradiction|].
  cbn [after_submission fold_left]. fold (after_submission fs).
  inversion Hnd as [|? ? Hf_new Hnd']; subst.
  destruct Hin as [->|Hin].
  - rewrite after_submission_other by exact Hf_new.
    apply (find_replace_same docs (processing t) t0). exact Hf.
  - apply (IH _ t0 Hnd' Hin).
    rewrite find_replace_other; [exact Hf|].
    cbn. intros E. apply Hf_new. rewrite E. apply in_map. exact Hin.
Qed.

Lemma submit_one_run (actor : Employee) (t : Transaction) (w : World) :
  exists w1,
    submit_one actor t w = (Next (submitted_of t), w1)
    /\ transactions w1 = replace_transaction (processing t) (transactions w)
    /\ employees w1 = employees w.
Proof. eexists. repeat split. Qed.

(** The submission loop, run to its end. *)
Lemma submission_loop (actor : Employee) (fs : list Transaction) (w : World) :
  exists w',
    for_of fs (submit_one actor) w = (Next (map submitted_of fs), w')
    /\ transactions w' = after_submission fs (transactions w)
    /\ employees w' = employees w.
Proof.
  revert w. induction fs as [|t fs IH]; intros w.
  - exists w. repeat split.
  - destruct (submit_one_run actor t w) as (w1 & Hone & Htx1 & Hemp1).
    destruct (IH w1) as (w' & Hrun & Htx & Hemp).
    exists w'. split; [|split].
    + cbn [for_of]. unfold bind at 1. rewrite Hone.
      unfold bind at 1. rewrite Hrun. reflexivity.
    + rewrite Htx, Htx1. reflexivity.
    + congruence.
Qed.

Ltac enter_submit ids Hb :=
  let Hlen := fresh "Hlen" in
  let Hfmt := fresh "Hfmt" in
  destruct Hb as (Hlen & Hfmt);
  unfold submitToSwift;
  replace (List.length ids =? 0)%nat with false
    by (symmetry; apply Nat.eqb_neq; lia);
  replace (50 <? List.length ids)%nat with false
    by (symmetry; apply Nat.ltb_ge; lia);
  rewrite (no_bad_id _ Hfmt);
  unfold bind at 1; unfold Transaction_find_in_status;
  rewrite (cast_all_batch _ Hfmt); unfold gets.

Lemma submit_none (actor : Employee) (ids : list string) (w : World) :
  batch ids ->
  select_in_status (map JS.toLowerCase ids) VERIFIED (transactions w) = [] ->
  submitToSwift actor (Some ids) w =
    (Sent (error 404 "No verified transactions found"), w).
Proof.
  intros Hb Hsel. enter_submit ids Hb. rewrite Hsel. reflexivity.
Qed.

Lemma submit_partial (actor : Employee) (ids : list string) (w : World) :
  batch ids ->
  select_in_status (map JS.toLowerCase ids) VERIFIED (transactions w) <> [] ->
  List.length (select_in_status (map JS.toLowerCase ids) VERIFIED (transactions w))
    <> List.length ids ->
  submitToSwift actor (Some ids) w =
    (Sent (error 400 "Some transactions are not in VERIFIED status or do not exist"),
     w).
Proof.
  intros Hb Hne Hlen'. enter_submit ids Hb.
  replace (List.length
             (select_in_status (map JS.toLowerCase ids) VERIFIED (transactions w))
           =? 0)%nat with false.
  - apply Nat.eqb_neq in Hlen'. rewrite Hlen'. reflexivity.
  - symmetry. apply Nat.eqb_neq.
    destruct (select_in_status _ _ _); [contradiction|discriminate].
Qed.

Lemma submit_all (actor : Employee) (ids : list string) (w : World) :
  batch ids ->
  List.length (select_in_status (map JS.toLowerCase ids) VERIFIED (transactions w))
    = List.length ids ->
  exists w',
    submitToSwift actor (Some ids) w =
      (Sent (json 200
               (SubmitBody
                  (map submitted_of
                     (select_in_status (map JS.toLowerCase ids) VERIFIED
                        (transactions w)))
                  (List.length ids))),
       w')
    /\ transactions w' =
       after_submission
         (select_in_status (map JS.toLowerCase ids) VERIFIED (transactions w))
         (transactions w)
    /\ employees w' = employees w.
Proof.
  intros Hb Hlen'. pose proof Hb as (Hl & _). enter_submit ids Hb.
  rewrite Hlen'.
  replace (List.length ids =? 0)%nat with false
    by (symmetry; apply Nat.eqb_neq; lia).
  rewrite Nat.eqb_refl. cbn [negb].
  destruct (submission_loop actor
              (select_in_status (map JS.toLowerCase ids) VERIFIED (transactions w)) w)
    as (w' & Hrun & Htx & Hemp).
  exists w'. split; [|split; assumption].
  unfold bind. rewrite Hrun. unfold send. rewrite length_map, Hlen'. reflexivity.
Qed.

Lemma selected_of_resolved (w : World) (ids : list string) (id : string) (t : Transaction) :
  In id ids -> lookup id w = Some t -> status t = VERIFIED ->
  In t (select_in_status (map JS.toLowerCase ids) VERIFIED (transactions w))
  /\ tx_id t = JS.toLowerCase id.
Proof.
  intros Hin Hl Hs. unfold lookup in Hl. apply find_some in Hl as [Ht Hid].
  apply String.eqb_eq in Hid. split; [|exact Hid].
  apply selected_iff. repeat split; try assumption.
  rewrite Hid. apply in_map. exact Hin.
Qed.

Lemma resolved_lookup (w : World) (id : string) :
  resolves w id = true ->
  exists t, lookup id w = Some t /\ status t = VERIFIED.
Proof.
  unfold resolves. destruct (lookup id w) as [t|]; [|discriminate].
  intros H. exists t. split; [reflexivity|].
  destruct (status t); (reflexivity || discriminate).
Qed.

Lemma selected_all (w : World) (ids : list string) :
  unique_ids w -> distinct ids ->
  (forall id, In id ids -> resolves w id = true) ->
  List.length (select_in_status (map JS.toLowerCase ids) VERIFIED (transactions w))
  = List.length ids.
Proof.
  intros Hu Hd Hall. apply Nat.le_antisymm.
  - etransitivity; [apply (selected_length _ _ Hu)|apply filter_length_le].
  - rewrite <- (length_map JS.toLowerCase ids).
    rewrite <- (length_map tx_id (select_in_status _ _ _)).
    apply NoDup_incl_length; [exact Hd|].
    intros o Ho. apply in_map_iff in Ho as (id & <- & Hin).
    destruct (resolved_lookup _ _ (Hall id Hin)) as (t & Hl & Hs).
    destruct (selected_of_resolved w ids id t Hin Hl Hs) as [Hsel Hid].
    rewrite <- Hid. apply in_map. exact Hsel.
Qed.

(** C5, as the code has it.  For a batch of 1 to 50 well-formed ids over
    a collection with unique ids: when no id of the batch resolves to a
    VERIFIED transaction the call is answered 404 'No verified
    transactions found'; when some id resolves and some id does not it
    is answered 400 'Some transactions are not in VERIFIED status or do
    not exist'; in both cases the store is left exactly as it was.  When
    the ids name pairwise different transactions and every one resolves
    to a VERIFIED transaction, the call is answered 200 with a count
    equal to the size of the batch, every transaction of the batch is
    stored PROCESSING, and no other transaction and no employee
    changes. *)
Theorem submit_all_or_nothing (actor : Employee) (ids : list string) (w : World) :
  batch ids ->
  unique_ids w ->
  ((forall id, In id ids -> resolves w id = false) ->
   submitToSwift actor (Some ids) w =
     (Sent (error 404 "No verified transactions found"), w))
  /\ ((exists id, In id ids /\ resolves w id = true) ->
      (exists id, In id ids /\ resolves w id = false) ->
      submitToSwift actor (Some ids) w =
        (Sent (error 400
                 "Some transactions are not in VERIFIED status or do not exist"),
         w))
  /\ ((forall id, In id ids -> resolves w id = true) ->
      distinct ids ->
      exists w' submitted,
        submitToSwift actor (Some ids) w =
          (Sent (json 200 (SubmitBody submitted (List.length ids))), w')
        /\ (forall id t, In id ids -> lookup id w = Some t ->
            lookup id w' = Some (processing t))
        /\ (forall id, ~ In (JS.toLowerCase id) (map JS.toLowerCase ids) ->
            lookup id w' = lookup id w)
        /\ employees w' = employees w).
Proof.
  intros Hb Hu. split; [|split].
  - intros Hnone. apply submit_none; [exact Hb|].
    destruct (select_in_status _ _ _) as [|t found] eqn:Hsel; [reflexivity|].
    exfalso.
    assert (Ht : In t (select_in_status (map JS.toLowerCase ids) VERIFIED
                         (transactions w))) by (rewrite Hsel; left; reflexivity).
    apply selected_iff in Ht as (Hin & Hoid & Hs).
    apply in_map_iff in Hoid as (id & Hid & Hin').
    specialize (Hnone id Hin').
    assert (resolves w id = true); [|congruence].
    apply (resolves_iff _ _ Hu). exists t. repeat split; auto.
  - intros (id1 & Hin1 & Hr1) (id0 & Hin0 & Hr0).
    apply submit_partial; [exact Hb| |].
    + destruct (resolved_lookup _ _ Hr1) as (t & Hl & Hs).
      destruct (selected_of_resolved w ids id1 t Hin1 Hl Hs) as [Hsel _].
      intros E. rewrite E in Hsel. contradiction.
    + pose proof (selected_length w ids Hu).
      pose proof (filter_length_lt (resolves w) ids id0 Hin0 Hr0). lia.
  - intros Hall Hd.
    destruct (submit_all actor ids w Hb (selected_all w ids Hu Hd Hall))
      as (w' & Hrun & Htx & Hemp).
    exists w'. eexists. split; [exact Hrun|]. split; [|split; [|exact Hemp]].
    + intros id t Hin Hl. unfold lookup. rewrite Htx.
      destruct (resolved_lookup _ _ (Hall id Hin)) as (t1 & Hl1 & Hs).
      assert (t1 = t) by congruence. subst t1.
      destruct (selected_of_resolved w ids id t Hin Hl Hs) as [Hsel Hid].
      rewrite <- Hid.
      apply (after_submission_member _ _ t t).
      * apply filter_unique_ids. exact Hu.
      * exact Hsel.
      * rewrite Hid. exact Hl.
    + intros id Hout. unfold lookup. rewrite Htx.
      apply after_submission_other. intros Hin. apply Hout.
      apply in_map_iff in Hin as (t & Ht & Hsel).
      apply selected_iff in Hsel as (_ & Hoid & _). rewrite <- Ht. exact Hoid.
Qed.

End BatchProperties.

Lemma submit_all_or_nothing_witness :
  submitToSwift (L := Reference.libraries) Sample.jsmith
    (Some [Sample.id1; Sample.id2; Sample.id3; Sample.id4]) Sample.ledger
  = (Sent (error 400 "Some transactions are not in VERIFIED status or do not exist"),
     Sample.ledger).
Proof.
  apply (submit_all_or_nothing (L := Reference.libraries) Sample.jsmith
           [Sample.id1; Sample.id2; Sample.id3; Sample.id4] Sample.ledger).
  - split; [simpl; lia|]. repeat constructor.
  - unfold unique_ids. simpl. repeat constructor; simpl; intuition discriminate.
  - exists Sample.id1. split; [left; reflexivity|reflexivity].
  - exists Sample.id4. split; [simpl; tauto|reflexivity].
Defined.

(** C5 as stated fails on the error: a batch whose only id names a
    PENDING transaction is answered 404 'No verified transactions
    found', not the 400 of a partly valid batch.  (A batch that names one
    VERIFIED transaction twice is refused with that 400 although each of
    its ids resolves.) *)
Lemma submit_refusals_differ :
  (resolves Sample.ledger Sample.id4 = false
   /\ submitToSwift (L := Reference.libraries) Sample.jsmith
        (Some [Sample.id4]) Sample.ledger
      = (Sent (error 404 "No verified transactions found"), Sample.ledger)
   /\ error (L := Reference.libraries) 404 "No verified transactions found"
      <> error 400 "Some transactions are not in VERIFIED status or do not exist")
  /\ (resolves Sample.ledger Sample.id1 = true
      /\ submitToSwift (L := Reference.libraries) Sample.jsmith
           (Some [Sample.id1; Sample.id1]) Sample.ledger
         = (Sent (error 400
                    "Some transactions are not in VERIFIED status or do not exist"),
            Sample.ledger)).
Proof.
  split; [split; [reflexivity|split; [vm_compute; reflexivity|discriminate]]|].
  split; [reflexivity|vm_compute; reflexivity].
Qed.

(* ================================================================= *)
(** * Further properties of the routes *)

(** ** Login: the other paths *)

Section LoginPaths.

Context {L : Libraries}.

Lemma findOne_after_replace (u i : string) (docs : list Employee) (e e' : Employee) :
  findOne_credentials u i docs = Some e ->
  same_identity e' e ->
  findOne_credentials u i (replace_employee e' docs) = Some e'.
Proof.
  intros Hf (Hid & Hu & Hi & Ha & _). unfold findOne_credentials in *.
  assert (Hp : (username e' =? u) && (employeeId e' =? i)
               && Bool.eqb (isActive e') true = true).
  { apply find_some in Hf as [_ Hp]. rewrite Hu, Hi, Ha. exact Hp. }
  induction docs as [|d docs IH]; [discriminate|].
  cbn [replace_employee map find] in *. fold (replace_employee e' docs).
  destruct (_id d =? _id e') eqn:Ed.
  - rewrite Hp. reflexivity.
  - destruct ((username d =? u) && (employeeId d =? i)
              && Bool.eqb (isActive d) true) eqn:Epd.
    + injection Hf as ->. rewrite Hid, String.eqb_refl in Ed. discriminate.
    + apply IH. exact Hf.
Qed.

Lemma replace_keeps_ids (e' : Employee) (docs : list Employee) :
  map _id (replace_employee e' docs) = map _id docs.
Proof.
  induction docs as [|d docs IH]; [reflexivity|].
  cbn [replace_employee map]. fold (replace_employee e' docs).
  rewrite IH. destruct (_id d =? _id e') eqn:E; [|reflexivity].
  apply String.eqb_eq in E. congruence.
Qed.

(** The run of a login on the wrong-password path, in full. *)
Lemma login_wrong_password_run (env : Env) (clk : LoginClock) (req : LoginRequest)
    (u i pw : string) (w : World) (e : Employee) :
  well_formed req u i pw ->
  findOne_credentials u i (employees w) = Some e ->
  isAccountLocked (lc_lookup clk) e = false ->
  argon2_verify (passwordHash e) (pw ++ salt e) = Some false ->
  login env clk req w =
    (Sent (error 401 "Invalid credentials"),
     add_audit (login_failed u i "Invalid password")
       (set_employees (replace_employee (failed_once clk e) (employees w)) w)).
Proof.
  intros Hreq Hfind Hlocked Hverify.
  rewrite (well_formed_passes _ _ _ _ Hreq).
  unfold tryCatch, bind, findByCredentials, gets, bind.
  rewrite Hfind, Hlocked. unfold ret, validatePassword. rewrite Hverify.
  unfold failed_once, incrementFailedAttempts.
  destruct ((maxAttempts <=? failedLoginAttempts e + 1)%Z
            && negb (isAccountLocked (lc_incr_locked clk) e)); reflexivity.
Qed.

(** The run of a login on the success path, in full. *)
Lemma login_success_run (env : Env) (clk : LoginClock) (req : LoginRequest)
    (u i pw : string) (w : World) (e : Employee) :
  well_formed req u i pw ->
  findOne_credentials u i (employees w) = Some e ->
  isAccountLocked (lc_lookup clk) e = false ->
  argon2_verify (passwordHash e) (pw ++ salt e) = Some true ->
  login env clk req w =
    (Sent (json 200
             (LoginBody (profile (logged_in clk e))
                (generateEmployeeToken env (lc_access clk) (_id e))
                (generateEmployeeRefreshToken env (lc_refresh clk) (_id e)))),
     add_audit (login_succeeded e)
       (set_employees
          (replace_employee (logged_in clk e)
             (replace_employee (reset_once clk e) (employees w)))
          w)).
Proof.
  intros Hreq Hfind Hlocked Hverify.
  rewrite (well_formed_passes _ _ _ _ Hreq).
  unfold tryCatch, bind, findByCredentials, gets, bind.
  rewrite Hfind, Hlocked. unfold ret, validatePassword. rewrite Hverify.
  reflexivity.
Qed.

Lemma login_unknown_run (env : Env) (clk : LoginClock) (req : LoginRequest)
    (u i pw : string) (w : World) :
  well_formed req u i pw ->
  findOne_credentials u i (employees w) = None ->
  login env clk req w =
    (Sent (error 401 "Invalid credentials"),
     add_audit (login_failed u i "Invalid credentials") w).
Proof.
  intros Hreq Hfind. rewrite (well_formed_passes _ _ _ _ Hreq).
  unfold tryCatch, bind, findByCredentials, gets, bind.
  rewrite Hfind. reflexivity.
Qed.

Lemma login_locked_run (env : Env) (clk : LoginClock) (req : LoginRequest)
    (u i pw : string) (w : World) (e : Employee) :
  well_formed req u i pw ->
  findOne_credentials u i (employees w) = Some e ->
  isAccountLocked (lc_lookup clk) e = true ->
  login env clk req w =
    (Sent (error 401 "Invalid credentials"),
     add_audit
       (login_failed u i
          "Account is temporarily locked due to too many failed attempts") w).
Proof.
  intros Hreq Hfind Hlocked. rewrite (well_formed_passes _ _ _ _ Hreq).
  unfold tryCatch, bind, findByCredentials, gets, bind.
  rewrite Hfind, Hlocked. reflexivity.
Qed.

Lemma login_hasher_error_run (env : Env) (clk : LoginClock) (req : LoginRequest)
    (u i pw : string) (w : World) (e : Employee) :
  well_formed req u i pw ->
  findOne_credentials u i (employees w) = Some e ->
  isAccountLocked (lc_lookup clk) e = false ->
  argon2_verify (passwordHash e) (pw ++ salt e) = None ->
  login env clk req w =
    (Sent (error 401 "Invalid credentials"),
     add_audit (login_failed u i "Password validation failed") w).
Proof.
  intros Hreq Hfind Hlocked Hverify. rewrite (well_formed_passes _ _ _ _ Hreq).
  unfold tryCatch, bind, findByCredentials, gets, bind.
  rewrite Hfind, Hlocked. unfold ret, validatePassword. rewrite Hverify.
  reflexivity.
Qed.

Lemma same_identity_refl (e : Employee) : same_identity e e.
Proof. repeat split. Qed.

Lemma same_identity_trans (a b c : Employee) :
  same_identity a b -> same_identity b c -> same_identity a c.
Proof.
  unfold same_identity. intros H1 H2.
  repeat match goal with H : _ /\ _ |- _ => destruct H end.
  repeat split; congruence.
Qed.

Lemma failed_once_identity (clk : LoginClock) (e : Employee) :
  same_identity (failed_once clk e) e.
Proof.
  unfold failed_once.
  destruct ((maxAttempts <=? failedLoginAttempts e + 1)%Z
            && negb (isAccountLocked (lc_incr_locked clk) e)); repeat split.
Qed.

(** X1.  A login with well-formed input, the right password and an
    account that is active and not locked is answered 200 with the
    profile and a fresh access and refresh token for the employee's
    [_id]; the stored employee then has [failedLoginAttempts] 0, no
    [lockedUntil] and [lastLoginAt] at the time read by
    [updateLastLogin], with identity, secrets, role and limit as before;
    the success is recorded in the audit log and no transaction is
    touched. *)
Theorem login_success_resets
    (env : Env) (clk : LoginClock) (req : LoginRequest) (u i pw : string)
    (w : World) (e : Employee) :
  well_formed req u i pw ->
  findOne_credentials u i (employees w) = Some e ->
  isAccountLocked (lc_lookup clk) e = false ->
  argon2_verify (passwordHash e) (pw ++ salt e) = Some true ->
  exists w' e',
    login env clk req w =
      (Sent (json 200
               (LoginBody (profile e')
                  (generateEmployeeToken env (lc_access clk) (_id e))
                  (generateEmployeeRefreshToken env (lc_refresh clk) (_id e)))),
       w')
    /\ findOne_credentials u i (employees w') = Some e'
    /\ failedLoginAttempts e' = 0
    /\ lockedUntil e' = None
    /\ lastLoginAt e' = Some (lc_lastLogin clk)
    /\ same_identity e' e
    /\ transactions w' = transactions w
    /\ audit w' = (audit w ++ [login_succeeded e])%list.
Proof.
  intros Hreq Hfind Hlocked Hverify.
  exists (add_audit (login_succeeded e)
            (set_employees
               (replace_employee (logged_in clk e)
                  (replace_employee (reset_once clk e) (employees w)))
               w)),
         (logged_in clk e).
  split; [apply (login_success_run _ _ _ u i pw); assumption|].
  split.
  { cbn [employees add_audit set_employees].
    apply (findOne_after_replace _ _ _ (reset_once clk e)); [|repeat split].
    apply (findOne_after_replace _ _ _ e); [exact Hfind|repeat split]. }
  repeat split.
Qed.

(** X2.  Every login with well-formed input is answered, and the answer
    is either 200 or exactly the one 401 'Invalid credentials' response,
    whatever made the login fail (unknown identity, locked account,
    wrong password, failing hasher).  Each such login adds exactly one
    event to the audit log, adds or removes no employee document and
    touches no transaction. *)
Theorem login_answers_uniformly
    (env : Env) (clk : LoginClock) (req : LoginRequest) (u i pw : string)
    (w : World) :
  well_formed req u i pw ->
  exists r w' ev,
    login env clk req w = (Sent r, w')
    /\ (code r = 200 \/ r = error 401 "Invalid credentials")
    /\ audit w' = (audit w ++ [ev])%list
    /\ map _id (employees w') = map _id (employees w)
    /\ transactions w' = transactions w.
Proof.
  intros Hreq.
  destruct (findOne_credentials u i (employees w)) as [e|] eqn:Hfind.
  2:{ eexists; eexists; eexists.
      split; [apply (login_unknown_run _ _ _ u i pw); assumption|].
      split; [right; reflexivity|]. repeat split. }
  destruct (isAccountLocked (lc_lookup clk) e) eqn:Hlocked.
  { eexists; eexists; eexists.
    split; [apply (login_locked_run _ _ _ u i pw _ e); assumption|].
    split; [right; reflexivity|]. repeat split. }
  destruct (argon2_verify (passwordHash e) (pw ++ salt e)) as [[|]|] eqn:Hverify.
  - eexists; eexists; eexists.
    split; [apply (login_success_run _ _ _ u i pw _ e); assumption|].
    split; [left; reflexivity|]. split; [reflexivity|]. split; [|reflexivity].
    cbn [employees add_audit set_employees]. rewrite !replace_keeps_ids. reflexivity.
  - eexists; eexists; eexists.
    split; [apply (login_wrong_password_run _ _ _ u i pw _ e); assumption|].
    split; [right; reflexivity|]. split; [reflexivity|]. split; [|reflexivity].
    cbn [employees add_audit set_employees]. rewrite replace_keeps_ids. reflexivity.
  - eexists; eexists; eexists.
    split; [apply (login_hasher_error_run _ _ _ u i pw _ e); assumption|].
    split; [right; reflexivity|]. repeat split.
Qed.

(** X3.  Only a refused password moves the counter.  A login for an
    identity that is not found, and a login whose password check itself
    fails ([argon2.verify] rejects, so [validatePassword] throws), are
    answered 401 and change nothing in the store but the audit log,
    where the reason is 'Invalid credentials' and 'Password validation
    failed'. *)
Theorem login_counts_only_refused_passwords
    (env : Env) (clk : LoginClock) (req : LoginRequest) (u i pw : string)
    (w : World) :
  well_formed req u i pw ->
  (findOne_credentials u i (employees w) = None ->
   login env clk req w =
     (Sent (error 401 "Invalid credentials"),
      mkWorld (employees w) (transactions w)
        (audit w ++ [login_failed u i "Invalid credentials"])%list))
  /\ (forall e,
      findOne_credentials u i (employees w) = Some e ->
      isAccountLocked (lc_lookup clk) e = false ->
      argon2_verify (passwordHash e) (pw ++ salt e) = None ->
      login env clk req w =
        (Sent (error 401 "Invalid credentials"),
         mkWorld (employees w) (transactions w)
           (audit w ++ [login_failed u i "Password validation failed"])%list)).
Proof.
  intros Hreq. split.
  - intros Hfind. apply (login_unknown_run _ _ _ u i pw); assumption.
  - intros e Hfind Hlocked Hverify.
    apply (login_hasher_error_run _ _ _ u i pw _ e); assumption.
Qed.

Lemma logins_app (env : Env) (req : LoginRequest) (clks : list LoginClock)
    (clk : LoginClock) (w : World) :
  logins env req (clks ++ [clk]) w = snd (login env clk req (logins env req clks w)).
Proof.
  revert w. induction clks as [|c clks IH]; intros w; [reflexivity|].
  cbn [logins app]. apply IH.
Qed.

(** Refused passwords below the threshold only count. *)
Lemma logins_below_threshold (env : Env) (req : LoginRequest) (u i pw : string)
    (clks : list LoginClock) :
  well_formed req u i pw ->
  forall (w : World) (e : Employee),
    findOne_credentials u i (employees w) = Some e ->
    lockedUntil e = None ->
    argon2_verify (passwordHash e) (pw ++ salt e) = Some false ->
    failedLoginAttempts e + Z.of_nat (List.length clks) < 5 ->
    exists e',
      findOne_credentials u i (employees (logins env req clks w)) = Some e'
      /\ same_identity e' e
      /\ lockedUntil e' = None
      /\ failedLoginAttempts e' = failedLoginAttempts e + Z.of_nat (List.length clks).
Proof.
  intros Hreq. induction clks as [|clk clks IH]; intros w e Hfind Hfree Hverify Hcount.
  - exists e. cbn [logins List.length Z.of_nat]. split; [exact Hfind|].
    split; [apply same_identity_refl|]. split; [exact Hfree|lia].
  - cbn [logins]. cbn [List.length] in Hcount. rewrite Nat2Z.inj_succ in Hcount.
    assert (Hunlocked : isAccountLocked (lc_lookup clk) e = false)
      by (unfold isAccountLocked; rewrite Hfree; reflexivity).
    rewrite (login_wrong_password_run env clk req u i pw w e Hreq Hfind Hunlocked Hverify).
    cbn [snd].
    assert (Hbelow : (maxAttempts <=? failedLoginAttempts e + 1)%Z = false)
      by (apply Z.leb_gt; unfold maxAttempts; lia).
    assert (Hone : failed_once clk e
                   = set_updatedAt (lc_incr_save clk)
                       (set_failedLoginAttempts (failedLoginAttempts e + 1) e))
      by (unfold failed_once; rewrite Hbelow; reflexivity).
    destruct (IH (add_audit (login_failed u i "Invalid password")
                    (set_employees
                       (replace_employee (failed_once clk e) (employees w)) w))
                 (failed_once clk e))
      as (e' & Hf' & Hid & Hfree' & Hcount').
    + cbn [employees add_audit set_employees].
      apply (findOne_after_replace _ _ _ e); [exact Hfind|].
      apply failed_once_identity.
    + rewrite Hone. exact Hfree.
    + rewrite Hone. exact Hverify.
    + rewrite Hone.
      cbn [failedLoginAttempts set_updatedAt set_failedLoginAttempts]. lia.
    + exists e'. split; [exact Hf'|].
      split; [apply (same_identity_trans _ (failed_once clk e));
              [exact Hid|apply failed_once_identity]|].
      split; [exact Hfree'|].
      rewrite Hcount', Hone. cbn [List.length]. rewrite Nat2Z.inj_succ.
      cbn [failedLoginAttempts set_updatedAt set_failedLoginAttempts]. lia.
Qed.

(** X4.  Five refused passwords in a row lock the account, and the lock
    holds.  Starting from an employee with no failed attempt and no
    lock, after five logins with a wrong password the stored employee
    has [failedLoginAttempts] 5 and [lockedUntil] 15 minutes after the
    time the fifth attempt read; any further login for that identity
    whose lookup happens before that instant, with whatever password,
    is answered 401 and changes no employee document, so the counter
    stays at 5. *)
Theorem five_failures_lock
    (env : Env) (req : LoginRequest) (u i pw : string)
    (clks : list LoginClock) (clk5 : LoginClock) (w : World) (e : Employee) :
  well_formed req u i pw ->
  findOne_credentials u i (employees w) = Some e ->
  failedLoginAttempts e = 0 ->
  lockedUntil e = None ->
  argon2_verify (passwordHash e) (pw ++ salt e) = Some false ->
  List.length clks = 4%nat ->
  exists e5,
    findOne_credentials u i (employees (logins env req (clks ++ [clk5]) w)) = Some e5
    /\ failedLoginAttempts e5 = 5
    /\ lockedUntil e5 = Some (lc_incr_lock clk5 + 15 * 60 * 1000)
    /\ forall clk6 req6 pw6,
         well_formed req6 u i pw6 ->
         lc_lookup clk6 < lc_incr_lock clk5 + 15 * 60 * 1000 ->
         exists w6,
           login env clk6 req6 (logins env req (clks ++ [clk5]) w)
           = (Sent (error 401 "Invalid credentials"), w6)
           /\ employees w6 = employees (logins env req (clks ++ [clk5]) w).
Proof.
  intros Hreq Hfind Hzero Hfree Hverify Hlen.
  destruct (logins_below_threshold env req u i pw clks Hreq w e Hfind Hfree Hverify)
    as (e4 & Hf4 & Hid4 & Hfree4 & Hcount4); [rewrite Hzero, Hlen; cbn; lia|].
  rewrite Hzero, Hlen in Hcount4. cbn in Hcount4.
  assert (Hunlocked : isAccountLocked (lc_lookup clk5) e4 = false)
    by (unfold isAccountLocked; rewrite Hfree4; reflexivity).
  assert (Hverify4 : argon2_verify (passwordHash e4) (pw ++ salt e4) = Some false).
  { destruct Hid4 as (_ & _ & _ & _ & Hh & Hs & _). rewrite Hh, Hs. exact Hverify. }
  rewrite logins_app.
  rewrite (login_wrong_password_run env clk5 req u i pw _ e4 Hreq Hf4 Hunlocked Hverify4).
  cbn [snd employees add_audit set_employees].
  assert (Hone : failed_once clk5 e4
                 = set_updatedAt (lc_incr_save clk5)
                     (set_failedLoginAttempts 5
                        (set_lockedUntil (Some (lc_incr_lock clk5 + lockTime)) e4))).
  { unfold failed_once, isAccountLocked. rewrite Hfree4, Hcount4. reflexivity. }
  assert (Hf5 : findOne_credentials u i
                  (replace_employee (failed_once clk5 e4)
                     (employees (logins env req clks w)))
                = Some (failed_once clk5 e4)).
  { apply (findOne_after_replace _ _ _ e4); [exact Hf4|apply failed_once_identity]. }
  exists (failed_once clk5 e4). split; [exact Hf5|].
  split; [rewrite Hone; reflexivity|]. split; [rewrite Hone; reflexivity|].
  intros clk6 req6 pw6 Hreq6 Hbefore.
  eexists. split.
  - apply (login_locked_run _ _ _ u i pw6 _ (failed_once clk5 e4)); [exact Hreq6| |].
    + exact Hf5.
    + rewrite Hone. unfold isAccountLocked. cbn [lockedUntil set_updatedAt
        set_failedLoginAttempts set_lockedUntil].
      apply Z.ltb_lt. unfold lockTime. exact Hbefore.
  - reflexivity.
Qed.

End LoginPaths.

Lemma login_success_witness :
  exists w' e',
    fst (login (L := Reference.libraries) Sample.env (Sample.at_time Sample.T0)
           (Sample.credentials "jsmith" "Demo123!@#")
           (mkWorld [Sample.jsmith_with 3 (Some (Sample.T0 - 1))] [] []))
    = Sent (json 200
              (LoginBody (profile e')
                 (generateEmployeeToken Sample.env Sample.T0 (_id Sample.jsmith))
                 (generateEmployeeRefreshToken Sample.env Sample.T0
                    (_id Sample.jsmith))))
    /\ findOne_credentials "jsmith" "EMP001" (employees w') = Some e'
    /\ failedLoginAttempts e' = 0
    /\ lockedUntil e' = None.
Proof.
  destruct (login_success_resets (L := Reference.libraries) Sample.env
              (Sample.at_time Sample.T0) (Sample.credentials "jsmith" "Demo123!@#")
              "jsmith" "EMP001" "Demo123!@#"
              (mkWorld [Sample.jsmith_with 3 (Some (Sample.T0 - 1))] [] [])
              (Sample.jsmith_with 3 (Some (Sample.T0 - 1))))
    as (w' & e' & Hrun & Hfind & Hcount & Hlock & _).
  - repeat split; try reflexivity. discriminate.
  - reflexivity.
  - reflexivity.
  - reflexivity.
  - exists w', e'. rewrite Hrun. repeat split; assumption.
Defined.

Lemma login_answers_uniformly_witness :
  exists r w' ev,
    login (L := Reference.libraries) Sample.env (Sample.at_time Sample.T0)
      (Sample.credentials "nobody" "Demo123!@#") (mkWorld [Sample.jsmith] [] [])
    = (Sent r, w')
    /\ (code r = 200 \/ r = error 401 "Invalid credentials")
    /\ audit w' = [ev]
    /\ map _id (employees w') = [_id Sample.jsmith]
    /\ transactions w' = [].
Proof.
  apply (login_answers_uniformly (L := Reference.libraries) Sample.env
           (Sample.at_time Sample.T0) (Sample.credentials "nobody" "Demo123!@#")
           "nobody" "EMP001" "Demo123!@#" (mkWorld [Sample.jsmith] [] [])).
  repeat split; try reflexivity. discriminate.
Defined.

Lemma login_counts_only_refused_passwords_witness :
  login (L := Reference.libraries) Sample.env (Sample.at_time Sample.T0)
    (Sample.credentials "nobody" "Demo123!@#") (mkWorld [Sample.jsmith] [] [])
  = (Sent (error 401 "Invalid credentials"),
     mkWorld [Sample.jsmith] [] [login_failed "nobody" "EMP001" "Invalid credentials"]).
Proof.
  apply (proj1 (login_counts_only_refused_passwords (L := Reference.libraries)
                  Sample.env (Sample.at_time Sample.T0)
                  (Sample.credentials "nobody" "Demo123!@#")
                  "nobody" "EMP001" "Demo123!@#" (mkWorld [Sample.jsmith] [] [])
                  ltac:(repeat split; try reflexivity; discriminate))).
  reflexivity.
Defined.

Lemma five_failures_lock_witness :
  exists e5,
    findOne_credentials "jsmith" "EMP001"
      (employees
         (logins (L := Reference.libraries) Sample.env
            (Sample.credentials "jsmith" "guess")
            (repeat (Sample.at_time Sample.T0) 4 ++ [Sample.at_time (Sample.T0 + 5000)])
            (mkWorld [Sample.jsmith] [] [])))
    = Some e5
    /\ failedLoginAttempts e5 = 5
    /\ lockedUntil e5 = Some (Sample.T0 + 5000 + 15 * 60 * 1000).
Proof.
  destruct (five_failures_lock (L := Reference.libraries) Sample.env
              (Sample.credentials "jsmith" "guess") "jsmith" "EMP001" "guess"
              (repeat (Sample.at_time Sample.T0) 4)
              (Sample.at_time (Sample.T0 + 5000))
              (mkWorld [Sample.jsmith] [] []) Sample.jsmith)
    as (e5 & Hfind & Hcount & Hlock & _).
  - repeat split; try reflexivity. discriminate.
  - reflexivity.
  - reflexivity.
  - reflexivity.
  - reflexivity.
  - reflexivity.
  - exists e5. repeat split; assumption.
Defined.

(** ** Token refresh: the success path *)

Section RefreshPaths.

Context {L : Libraries}.

Lemma refresh_success_run (env : Env) (clk : RefreshClock) (t : Token)
    (d : Decoded) (w : World) (e : Employee) :
  jwt_verify t (JWT_SECRET env) (rc_verify clk) = inr d ->
  type_is d "employee_refresh" = true ->
  Employee_findById (d_employeeId d) w = (Next (Some e), w) ->
  isActive e = true ->
  refresh env clk (Some t) w =
    (Sent (json 200
             (RefreshBody (generateEmployeeToken env (rc_access clk) (_id e))
                (generateEmployeeRefreshToken env (rc_refresh clk) (_id e)))),
     add_audit (refresh_succeeded e) w).
Proof.
  intros Hv Ht Hf Ha. unfold refresh, tryCatch, bind, verify_token.
  rewrite Hv. unfold ret. rewrite Ht. cbn [negb]. rewrite Hf, Ha. reflexivity.
Qed.

(** X5.  The refresh route keeps no token state and writes no document:
    whatever the token and whatever the outcome, the employee and
    transaction collections after the call are the ones before it, and
    the audit log gains at most one event. *)
Theorem refresh_writes_no_document (env : Env) (clk : RefreshClock)
    (tok : option Token) (w w' : World) (o : Outcome Response unit) :
  refresh env clk tok w = (o, w') ->
  employees w' = employees w
  /\ transactions w' = transactions w
  /\ (audit w' = audit w \/ exists ev, audit w' = (audit w ++ [ev])%list).
Proof.
  destruct (verify_error env (rc_verify clk) tok) as [m|] eqn:Hv.
  { rewrite (refresh_verify_throws _ _ _ _ m Hv). intros [= _ <-].
    repeat split. right. eexists. reflexivity. }
  unfold verify_error in Hv. destruct tok as [t|]; [|discriminate].
  destruct (jwt_verify t (JWT_SECRET env) (rc_verify clk)) as [m|d] eqn:Hd;
    [discriminate|].
  destruct (type_is d "employee_refresh") eqn:Ht.
  2:{ rewrite (refresh_wrong_type _ _ _ d _ Hd Ht). intros [= _ <-].
      repeat split. left. reflexivity. }
  destruct (Employee_findById_cases (d_employeeId d) w) as [(found & Hf)|(m & Hf)].
  2:{ rewrite (refresh_lookup_throws _ _ _ d _ m Hd Ht Hf). intros [= _ <-].
      repeat split. right. eexists. reflexivity. }
  destruct found as [e|].
  2:{ rewrite (refresh_no_employee _ _ _ d _ None Hd Ht Hf I). intros [= _ <-].
      repeat split. left. reflexivity. }
  destruct (isActive e) eqn:Ha.
  2:{ rewrite (refresh_no_employee _ _ _ d _ (Some e) Hd Ht Hf Ha). intros [= _ <-].
      repeat split. left. reflexivity. }
  rewrite (refresh_success_run _ _ _ d _ e Hd Ht Hf Ha). intros [= _ <-].
  repeat split. right. eexists. reflexivity.
Qed.

(** X6.  The refresh token a successful login hands out is good for the
    refresh route.  With a token library that is faithful to the signed
    claims: after a login answered 200 for an employee whose [_id] is a
    well-formed ObjectId, if the refresh token of that answer still
    verifies when it is presented, the refresh route answers 200 with a
    new access and refresh token for the same [_id]. *)
Theorem login_then_refresh
    (env : Env) (clk : LoginClock) (req : LoginRequest) (u i pw : string)
    (w : World) (e : Employee) (clk' : RefreshClock) (d : Decoded) :
  jwt_faithful L ->
  well_formed req u i pw ->
  findOne_credentials u i (employees w) = Some e ->
  isAccountLocked (lc_lookup clk) e = false ->
  argon2_verify (passwordHash e) (pw ++ salt e) = Some true ->
  castObjectId (_id e) = Some (_id e) ->
  jwt_verify (generateEmployeeRefreshToken env (lc_refresh clk) (_id e))
    (JWT_SECRET env) (rc_verify clk') = inr d ->
  exists w1 p t rt w2,
    login env clk req w = (Sent (json 200 (LoginBody p t rt)), w1)
    /\ refresh env clk' (Some rt) w1 =
       (Sent (json 200
                (RefreshBody (generateEmployeeToken env (rc_access clk') (_id e))
                   (generateEmployeeRefreshToken env (rc_refresh clk') (_id e)))),
        w2).
Proof.
  intros HL Hreq Hfind Hlocked Hverify Hcast Hjwt.
  eexists; eexists; eexists; eexists; eexists. split.
  - apply (login_success_run _ _ _ u i pw _ e); assumption.
  - pose proof (HL _ _ _ _ _ _ Hjwt) as [Hsub Htype]. cbn in Hsub, Htype.
    assert (Ha : isActive e = true).
    { apply find_some in Hfind as [_ Hp].
      apply andb_prop in Hp as [_ Hp]. destruct (isActive e); [reflexivity|discriminate]. }
    apply (refresh_success_run _ _ _ d _ (logged_in clk e)).
    + exact Hjwt.
    + unfold type_is. rewrite Htype. reflexivity.
    + rewrite Hsub. unfold Employee_findById. rewrite Hcast. unfold gets.
      cbn [employees add_audit set_employees].
      rewrite (find_replace_employee _ (reset_once clk e) (logged_in clk e));
        [reflexivity| |reflexivity].
      assert (Hin : In e (employees w)) by (apply find_some in Hfind; tauto).
      pose proof (find_replace_employee _ e (reset_once clk e) Hin eq_refl) as Hr.
      apply find_some in Hr. tauto.
    + exact Ha.
Qed.

End RefreshPaths.

Lemma refresh_writes_no_document_witness :
  employees
    (snd (refresh (L := Reference.libraries) Sample.env (Sample.refresh_at Sample.T0)
            (Some (Reference.Malformed "x")) Sample.ledger))
  = employees Sample.ledger.
Proof.
  eapply (proj1 (refresh_writes_no_document (L := Reference.libraries) Sample.env
                   (Sample.refresh_at Sample.T0) (Some (Reference.Malformed "x"))
                   Sample.ledger _ _ _)).
  Unshelve. all: try apply surjective_pairing.
Defined.

Lemma login_then_refresh_witness :
  exists w1 p t rt w2,
    login (L := Reference.libraries) Sample.env (Sample.at_time Sample.T0)
      (Sample.credentials "jsmith" "Demo123!@#") (mkWorld [Sample.jsmith] [] [])
    = (Sent (json 200 (LoginBody p t rt)), w1)
    /\ refresh (L := Reference.libraries) Sample.env
         (Sample.refresh_at (Sample.T0 + 3600000)) (Some rt) w1
       = (Sent (json 200
                  (RefreshBody
                     (generateEmployeeToken Sample.env (Sample.T0 + 3600000)
                        (_id Sample.jsmith))
                     (generateEmployeeRefreshToken Sample.env (Sample.T0 + 3600000)
                        (_id Sample.jsmith)))),
          w2).
Proof.
  eapply (login_then_refresh (L := Reference.libraries) Sample.env
            (Sample.at_time Sample.T0) (Sample.credentials "jsmith" "Demo123!@#")
            "jsmith" "EMP001" "Demo123!@#" (mkWorld [Sample.jsmith] [] [])
            Sample.jsmith (Sample.refresh_at (Sample.T0 + 3600000))).
  - exact reference_faithful.
  - repeat split; try reflexivity. discriminate.
  - reflexivity.
  - reflexivity.
  - reflexivity.
  - reflexivity.
  - vm_compute. reflexivity.
Defined.

(** ** Verifying a transaction: refusals, bypass, boundary *)

Section VerifyPaths.

Context {L : Libraries}.

Ltac to_lookup Hreq Hlook :=
  let Hfmt := fresh "Hfmt" in
  let Hv := fresh "Hv" in
  let Hnotes := fresh "Hnotes" in
  destruct Hreq as (Hfmt & Hv & Hnotes);
  unfold verifyTransaction;
  rewrite Hfmt, Hv; cbn [negb];
  rewrite (notes_accepted _ Hnotes);
  unfold bind at 1; unfold Transaction_findById;
  rewrite (cast_of_format _ Hfmt); unfold gets;
  unfold lookup in Hlook; rewrite Hlook.

(** X7.  The verify route refuses in a fixed order.  An id that is not 24
    hexadecimal digits is answered 400 'Invalid transaction ID format'
    whatever else the request holds; with a well-formed id, a [verified]
    that is not a boolean is answered 400 'Verified flag must be a
    boolean'; with both in order, notes longer than 500 characters are
    answered 400; all three without looking at the store.  A request
    that passes these checks but names no stored transaction is answered
    404 'Transaction not found'.  In every case the store is left as it
    was. *)
Theorem verify_refusals_in_order (now : Date) (actor : Employee) (req : VerifyRequest) :
  (objectIdFormat (params_id req) = false ->
   forall w, verifyTransaction now actor req w =
               (Sent (error 400 "Invalid transaction ID format"), w))
  /\ (objectIdFormat (params_id req) = true ->
      body_verified req = None ->
      forall w, verifyTransaction now actor req w =
                  (Sent (error 400 "Verified flag must be a boolean"), w))
  /\ (objectIdFormat (params_id req) = true ->
      forall v, body_verified req = Some v ->
      JS.truthy (body_notes req) = true ->
      (500 < String.length (JS.toString (body_notes req)))%nat ->
      forall w, verifyTransaction now actor req w =
                  (Sent (error 400 "Notes must be a string with max 500 characters"),
                   w))
  /\ (forall v w,
      passes_validation req v ->
      lookup (params_id req) w = None ->
      verifyTransaction now actor req w =
        (Sent (error 404 "Transaction not found"), w)).
Proof.
  split; [|split; [|split]].
  - intros Hf w. unfold verifyTransaction. rewrite Hf. reflexivity.
  - intros Hf Hv w. unfold verifyTransaction. rewrite Hf, Hv. reflexivity.
  - intros Hf v Hv Ht Hlen w. unfold verifyTransaction. rewrite Hf, Hv, Ht.
    apply Nat.ltb_lt in Hlen. rewrite Hlen. reflexivity.
  - intros v w Hreq Hlook. to_lookup Hreq Hlook. reflexivity.
Qed.

(** X8.  The verify route always answers, and an answer other than 200
    means nothing was written: the store after a refused call (400, 403
    or 404) is the store before it, audit log included. *)
Theorem verify_refusal_changes_nothing (now : Date) (actor : Employee)
    (req : VerifyRequest) (w : World) :
  exists r w',
    verifyTransaction now actor req w = (Sent r, w')
    /\ (code r = 200
        \/ w' = w /\ (code r = 400 \/ code r = 403 \/ code r = 404)).
Proof.
  unfold verifyTransaction.
  destruct (objectIdFormat (params_id req)) eqn:Hfmt; cbn [negb];
    [|eexists; eexists; split; [reflexivity|right; split; [reflexivity|tauto]]].
  destruct (body_verified req) as [v|];
    [|eexists; eexists; split; [reflexivity|right; split; [reflexivity|tauto]]].
  destruct (JS.truthy (body_notes req)
            && (500 <? String.length (JS.toString (body_notes req)))%nat);
    [eexists; eexists; split; [reflexivity|right; split; [reflexivity|tauto]]|].
  unfold bind at 1. unfold Transaction_findById.
  rewrite (cast_of_format _ Hfmt). unfold gets.
  destruct (find _ (transactions w)) as [t|];
    [|eexists; eexists; split; [reflexivity|right; split; [reflexivity|tauto]]].
  destruct (negb (Status_eqb (status t) PENDING));
    [eexists; eexists; split; [reflexivity|right; split; [reflexivity|tauto]]|].
  destruct (exceedsLimit v t actor);
    [eexists; eexists; split; [reflexivity|right; split; [reflexivity|tauto]]|].
  destruct v; eexists; eexists; (split; [reflexivity|left; reflexivity]).
Qed.

Lemma gt_irreflexive (x : Number) : JS.gt x x = false.
Proof.
  unfold JS.gt, SFltb, SFcompare.
  destruct x as [s|s| |s m e]; try destruct s; try reflexivity;
    rewrite Z.compare_refl;
    change (Pos.compare_cont Eq m m) with (Pos.compare m m);
    rewrite Pos.compare_refl; reflexivity.
Qed.

(** X9.  The limit does not bind ADMIN and SUPERVISOR: an approval of a
    PENDING transaction by an employee with one of these roles is
    answered 200 and the transaction is stored VERIFIED, whatever its
    amount and whatever the employee's verification limit. *)
Theorem verify_bypass_for_admin_and_supervisor (now : Date) (actor : Employee)
    (req : VerifyRequest) (w : World) (t : Transaction) :
  role actor = ADMIN \/ role actor = SUPERVISOR ->
  passes_validation req true ->
  lookup (params_id req) w = Some t ->
  status t = PENDING ->
  exists w',
    verifyTransaction now actor req w =
      (Sent (json 200 (VerifyBody "Transaction verified successfully"
                         (mkView (tx_id t) VERIFIED (Some now) (rejectionReason t)))),
       w')
    /\ lookup (params_id req) w' = Some (verified_by now t).
Proof.
  intros Hrole Hreq Hlook Hst.
  destruct (verify_approves now actor req w t) as (w' & Hrun & Hl & _);
    try assumption.
  - unfold exceedsLimit.
    destruct Hrole as [-> | ->]; cbn; rewrite ?andb_false_r; reflexivity.
  - exists w'. split; assumption.
Qed.

(** X10.  The limit is inclusive and the test is strict: an approval of
    a PENDING transaction whose amount is equal to the acting employee's
    verification limit is answered 200 for every role; so is one where
    the amount or the limit is NaN, on which [>] is false. *)
Theorem verify_limit_is_inclusive (now : Date) (actor : Employee)
    (req : VerifyRequest) (w : World) (t : Transaction) :
  amount t = verificationLimit actor
  \/ amount t = S754_nan \/ verificationLimit actor = S754_nan ->
  passes_validation req true ->
  lookup (params_id req) w = Some t ->
  status t = PENDING ->
  exists w',
    verifyTransaction now actor req w =
      (Sent (json 200 (VerifyBody "Transaction verified successfully"
                         (mkView (tx_id t) VERIFIED (Some now) (rejectionReason t)))),
       w')
    /\ lookup (params_id req) w' = Some (verified_by now t).
Proof.
  intros Hamt Hreq Hlook Hst.
  destruct (verify_approves now actor req w t) as (w' & Hrun & Hl & _);
    try assumption.
  - unfold exceedsLimit. cbn [andb].
    replace (JS.gt (amount t) (verificationLimit actor)) with false; [reflexivity|].
    symmetry. destruct Hamt as [-> | [-> | ->]].
    + apply gt_irreflexive.
    + unfold JS.gt, SFltb, SFcompare. destruct (verificationLimit actor); reflexivity.
    + unfold JS.gt, SFltb, SFcompare. reflexivity.
  - exists w'. split; assumption.
Qed.

End VerifyPaths.

Lemma verify_refusals_in_order_witness :
  verifyTransaction (L := Reference.libraries) Sample.T0 Sample.jsmith
    (mkVerifyRequest "not-an-id" None None) Sample.ledger
  = (Sent (error 400 "Invalid transaction ID format"), Sample.ledger).
Proof.
  apply (proj1 (verify_refusals_in_order (L := Reference.libraries) Sample.T0
                  Sample.jsmith (mkVerifyRequest "not-an-id" None None))).
  reflexivity.
Defined.

Lemma verify_bypass_witness :
  exists w',
    verifyTransaction (L := Reference.libraries) Sample.T0
      (Sample.staff SUPERVISOR (JS.Number_of_Z 100000)) (Sample.approve Sample.id1)
      (mkWorld [] [Sample.payment Sample.id1 (JS.Number_of_Z 150000) PENDING] [])
    = (Sent (json 200 (VerifyBody "Transaction verified successfully"
                         (mkView Sample.id1 VERIFIED (Some Sample.T0) None))),
       w')
    /\ lookup Sample.id1 w' =
       Some (verified_by Sample.T0
               (Sample.payment Sample.id1 (JS.Number_of_Z 150000) PENDING)).
Proof.
  apply (verify_bypass_for_admin_and_supervisor (L := Reference.libraries) Sample.T0
           (Sample.staff SUPERVISOR (JS.Number_of_Z 100000))
           (Sample.approve Sample.id1) _
           (Sample.payment Sample.id1 (JS.Number_of_Z 150000) PENDING)).
  - right. reflexivity.
  - split; [reflexivity|]. split; [reflexivity|]. left. reflexivity.
  - reflexivity.
  - reflexivity.
Defined.

Lemma verify_limit_is_inclusive_witness :
  exists w',
    verifyTransaction (L := Reference.libraries) Sample.T0 Sample.jsmith
      (Sample.approve Sample.id1)
      (mkWorld [] [Sample.payment Sample.id1 (JS.Number_of_Z 100000) PENDING] [])
    = (Sent (json 200 (VerifyBody "Transaction verified successfully"
                         (mkView Sample.id1 VERIFIED (Some Sample.T0) None))),
       w')
    /\ lookup Sample.id1 w' =
       Some (verified_by Sample.T0
               (Sample.payment Sample.id1 (JS.Number_of_Z 100000) PENDING)).
Proof.
  apply (verify_limit_is_inclusive (L := Reference.libraries) Sample.T0
           Sample.jsmith (Sample.approve Sample.id1) _
           (Sample.payment Sample.id1 (JS.Number_of_Z 100000) PENDING)).
  - left. reflexivity.
  - split; [reflexivity|]. split; [reflexivity|]. left. reflexivity.
  - reflexivity.
  - reflexivity.
Defined.

(** ** Submitting a batch: refusals, frame, order of the ids *)

Section BatchPaths.

Context {L : Libraries}.

Ltac to_query ids Hb :=
  let Hlen := fresh "Hlen" in
  let Hfmt := fresh "Hfmt" in
  destruct Hb as (Hlen & Hfmt);
  unfold submitToSwift;
  replace (List.length ids =? 0)%nat with false
    by (symmetry; apply Nat.eqb_neq; lia);
  replace (50 <? List.length ids)%nat with false
    by (symmetry; apply Nat.ltb_ge; lia);
  rewrite (no_bad_id _ Hfmt);
  unfold bind at 1; unfold Transaction_find_in_status;
  rewrite (cast_all_batch _ Hfmt); unfold gets.



(** What a submission call comes to: a refusal that leaves the store as
    it was, or a well-formed batch each id of which selected its own
    document. *)
Lemma submit_cases (actor : Employee) (ids_opt : option (list string)) (w : World) :
  (exists r, submitToSwift actor ids_opt w = (Sent r, w)
             /\ (code r = 400 \/ code r = 404))
  \/ (exists ids, ids_opt = Some ids /\ batch ids
      /\ List.length (select_in_status (map JS.toLowerCase ids) VERIFIED
                        (transactions w))
         = List.length ids).
Proof.
  destruct ids_opt as [ids|];
    [|left; eexists; split; [reflexivity|left; reflexivity]].
  unfold submitToSwift.
  destruct (List.length ids =? 0)%nat eqn:H0;
    [left; eexists; split; [reflexivity|left; reflexivity]|].
  destruct (50 <? List.length ids)%nat eqn:H50;
    [left; eexists; split; [reflexivity|left; reflexivity]|].
  destruct (find (fun id => negb (objectIdFormat id)) ids) as [bad|] eqn:Hbad;
    [left; eexists; split; [reflexivity|left; reflexivity]|].
  assert (Hb : batch ids).
  { apply Nat.eqb_neq in H0. apply Nat.ltb_ge in H50. split; [lia|].
    apply Forall_forall. intros id Hin.
    pose proof (find_none _ _ Hbad id Hin) as Hn. cbn in Hn.
    destruct (objectIdFormat id); [reflexivity|discriminate]. }
  unfold bind at 1. unfold Transaction_find_in_status.
  rewrite (cast_all_batch _ (proj2 Hb)). unfold gets.
  destruct (List.length (select_in_status (map JS.toLowerCase ids) VERIFIED
                           (transactions w)) =? 0)%nat eqn:Hz;
    [left; eexists; split; [reflexivity|right; reflexivity]|].
  destruct (List.length (select_in_status (map JS.toLowerCase ids) VERIFIED
                           (transactions w)) =? List.length ids)%nat eqn:He;
    [|left; eexists; split; [reflexivity|left; reflexivity]].
  right. exists ids. split; [reflexivity|]. split; [exact Hb|].
  apply Nat.eqb_eq. exact He.
Qed.


Lemma select_permuted (ids ids' : list string) (docs : list Transaction) :
  Permutation ids ids' ->
  select_in_status (map JS.toLowerCase ids) VERIFIED docs
  = select_in_status (map JS.toLowerCase ids') VERIFIED docs.
Proof.
  intros Hp. unfold select_in_status. apply filter_ext. intros t. f_equal.
  apply eq_true_iff_eq. rewrite !existsb_eqb_In.
  split; apply Permutation_in; [|symmetry]; apply Permutation_map; exact Hp.
Qed.

(** X13.  The order in which a well-formed batch lists its ids does not
    matter: two batches of 1 to 50 well-formed ids that are permutations
    of each other get the same answer and leave the same store. *)
Theorem submit_ignores_order (actor : Employee) (ids ids' : list string) (w : World) :
  batch ids ->
  Permutation ids ids' ->
  submitToSwift actor (Some ids) w = submitToSwift actor (Some ids') w.
Proof.
  intros Hb Hp.
  assert (Hb' : batch ids').
  { destruct Hb as (Hlen & Hfmt). split.
    - rewrite <- (Permutation_length Hp). exact Hlen.
    - apply Forall_forall. intros id Hin. rewrite Forall_forall in Hfmt.
      apply Hfmt. apply (Permutation_in _ (Permutation_sym Hp)). exact Hin. }
  to_query ids Hb. to_query ids' Hb'.
  rewrite (select_permuted ids ids' _ Hp), (Permutation_length Hp). reflexivity.
Qed.

(** X14.  The only thing the submission route ever writes is the move of
    a VERIFIED transaction to PROCESSING.  Over a collection with unique
    ids, after any call, whatever its input and outcome, no employee
    document has changed, and every stored transaction is found under
    its id either exactly as it was or, if it was VERIFIED, with its
    status set to PROCESSING and every other field as before. *)
Theorem submit_only_moves_verified (actor : Employee)
    (ids_opt : option (list string)) (w w' : World) (o : Outcome Response unit) :
  unique_ids w ->
  submitToSwift actor ids_opt w = (o, w') ->
  employees w' = employees w
  /\ forall id t,
       lookup id w = Some t ->
       lookup id w' = Some t
       \/ (status t = VERIFIED /\ lookup id w' = Some (processing t)).
Proof.
  intros Hu Hrun.
  destruct (submit_cases actor ids_opt w) as [(r & Hr & _)|(ids & -> & Hb & Hlen)].
  - rewrite Hr in Hrun. injection Hrun as _ <-. split; [reflexivity|].
    intros id t Hl. left. exact Hl.
  - destruct (submit_all actor ids w Hb Hlen) as (w1 & Hrun1 & Htx & Hemp).
    rewrite Hrun1 in Hrun. injection Hrun as _ <-. split; [exact Hemp|].
    intros id t Hl. unfold lookup in *. rewrite Htx.
    pose proof (find_some _ _ Hl) as [Hin Hid]. apply String.eqb_eq in Hid.
    rewrite <- Hid.
    destruct (in_dec string_dec (tx_id t)
                (map tx_id (select_in_status (map JS.toLowerCase ids) VERIFIED
                              (transactions w)))) as [Hsel|Hout].
    + right. apply in_map_iff in Hsel as (f & Hf & Hsel).
      pose proof Hsel as Hsel'.
      apply selected_iff in Hsel' as (Hfin & _ & Hfs).
      assert (f = t).
      { pose proof (find_own_id _ _ Hu Hfin) as H1.
        pose proof (find_own_id _ _ Hu Hin) as H2.
        rewrite Hf in H1. congruence. }
      subst f. split; [exact Hfs|].
      apply (after_submission_member _ _ t t).
      * apply filter_unique_ids. exact Hu.
      * exact Hsel.
      * apply find_own_id; assumption.
    + left. rewrite (after_submission_other _ _ _ Hout).
      apply find_own_id; assumption.
Qed.

End BatchPaths.


Lemma submit_ignores_order_witness :
  submitToSwift (L := Reference.libraries) Sample.jsmith
    (Some [Sample.id1; Sample.id2; Sample.id3]) Sample.ledger
  = submitToSwift (L := Reference.libraries) Sample.jsmith
      (Some [Sample.id3; Sample.id1; Sample.id2]) Sample.ledger.
Proof.
  apply (submit_ignores_order (L := Reference.libraries)).
  - split; [simpl; lia|repeat constructor].
  - apply Permutation_sym.
    change [Sample.id3; Sample.id1; Sample.id2]
      with ([Sample.id3] ++ [Sample.id1; Sample.id2])%list.
    change [Sample.id1; Sample.id2; Sample.id3]
      with ([Sample.id1; Sample.id2] ++ [Sample.id3])%list.
    apply Permutation_app_comm.
Defined.

Lemma submit_only_moves_verified_witness :
  lookup Sample.id4
    (snd (submitToSwift (L := Reference.libraries) Sample.jsmith
            (Some [Sample.id1; Sample.id2; Sample.id3]) Sample.ledger))
  = Some (Sample.payment Sample.id4 (JS.Number_of_Z 300) PENDING).
Proof.
  destruct (submit_only_moves_verified (L := Reference.libraries) Sample.jsmith
              (Some [Sample.id1; Sample.id2; Sample.id3]) Sample.ledger
              (snd (submitToSwift (L := Reference.libraries) Sample.jsmith
                      (Some [Sample.id1; Sample.id2; Sample.id3]) Sample.ledger))
              (fst (submitToSwift (L := Reference.libraries) Sample.jsmith
                      (Some [Sample.id1; Sample.id2; Sample.id3]) Sample.ledger)))
    as (_ & Hframe).
  - unfold unique_ids. simpl. repeat constructor; simpl; intuition discriminate.
  - apply surjective_pairing.
  - destruct (Hframe Sample.id4
                (Sample.payment Sample.id4 (JS.Number_of_Z 300) PENDING) eq_refl)
      as [H|[H _]]; [exact H|discriminate].
Defined.

(** ** Login: the lock is armed whenever the count reaches five *)

Section LockArming.

Context {L : Libraries}.

Lemma unlocked_later (t t' : Date) (e : Employee) :
  isAccountLocked t e = false -> t <= t' -> isAccountLocked t' e = false.
Proof.
  unfold isAccountLocked. destruct (lockedUntil e) as [until|]; [|reflexivity].
  intros H Hle. apply Z.ltb_ge in H. apply Z.ltb_ge. lia.
Qed.

(** X15.  On the login route the second lock test of
    [incrementFailedAttempts] never stands in the way: the account was
    found unlocked a moment before, so if the clock does not run
    backwards, a refused password that brings the count to 5 or more
    always sets [lockedUntil] to 15 minutes after the time read.  In
    particular the count is not cleared when a lock runs out, so after
    an expired lock every further refused password locks the account
    again at once. *)
Theorem login_lock_always_armed
    (env : Env) (clk : LoginClock) (req : LoginRequest) (u i pw : string)
    (w : World) (e : Employee) :
  well_formed req u i pw ->
  findOne_credentials u i (employees w) = Some e ->
  isAccountLocked (lc_lookup clk) e = false ->
  argon2_verify (passwordHash e) (pw ++ salt e) = Some false ->
  lc_lookup clk <= lc_incr_locked clk ->
  4 <= failedLoginAttempts e ->
  exists w' e',
    login env clk req w = (Sent (error 401 "Invalid credentials"), w')
    /\ findOne_credentials u i (employees w') = Some e'
    /\ failedLoginAttempts e' = failedLoginAttempts e + 1
    /\ lockedUntil e' = Some (lc_incr_lock clk + 15 * 60 * 1000)
    /\ forall now, now < lc_incr_lock clk + 15 * 60 * 1000 ->
                   isAccountLocked now e' = true.
Proof.
  intros Hreq Hfind Hlocked Hverify Hclock Hcount.
  assert (Hone : failed_once clk e
                 = set_updatedAt (lc_incr_save clk)
                     (set_failedLoginAttempts (failedLoginAttempts e + 1)
                        (set_lockedUntil (Some (lc_incr_lock clk + lockTime)) e))).
  { unfold failed_once.
    rewrite (unlocked_later _ _ _ Hlocked Hclock).
    replace (maxAttempts <=? failedLoginAttempts e + 1)%Z with true
      by (symmetry; apply Z.leb_le; unfold maxAttempts; lia).
    reflexivity. }
  eexists; exists (failed_once clk e). split.
  - apply (login_wrong_password_run _ _ _ u i pw _ e); assumption.
  - cbn [employees add_audit set_employees]. split.
    + apply (findOne_after_replace _ _ _ e); [exact Hfind|apply failed_once_identity].
    + rewrite Hone. split; [reflexivity|]. split; [reflexivity|].
      intros now Hnow. unfold isAccountLocked.
      cbn [lockedUntil set_updatedAt set_failedLoginAttempts set_lockedUntil].
      apply Z.ltb_lt. unfold lockTime. exact Hnow.
Qed.

End LockArming.

Lemma login_lock_always_armed_witness :
  exists w' e',
    login (L := Reference.libraries) Sample.env (Sample.at_time Sample.T0)
      (Sample.credentials "jsmith" "guess")
      (mkWorld [Sample.jsmith_with 7 (Some (Sample.T0 - 1))] [] [])
    = (Sent (error 401 "Invalid credentials"), w')
    /\ findOne_credentials "jsmith" "EMP001" (employees w') = Some e'
    /\ failedLoginAttempts e' = 8
    /\ lockedUntil e' = Some (Sample.T0 + 15 * 60 * 1000).
Proof.
  destruct (login_lock_always_armed (L := Reference.libraries) Sample.env
              (Sample.at_time Sample.T0) (Sample.credentials "jsmith" "guess")
              "jsmith" "EMP001" "guess"
              (mkWorld [Sample.jsmith_with 7 (Some (Sample.T0 - 1))] [] [])
              (Sample.jsmith_with 7 (Some (Sample.T0 - 1))))
    as (w' & e' & Hrun & Hfind & Hcount & Hlock & _).
  - repeat split; try reflexivity. discriminate.
  - reflexivity.
  - reflexivity.
  - reflexivity.
  - cbn. lia.
  - cbn. lia.
  - exists w', e'. repeat split; assumption.
Defined.

(** ** Setting a password and checking it *)

Section PasswordRoundTrip.

Context {L : Libraries}.

Lemma list_ascii_of_append (a b : string) :
  list_ascii_of_string (a ++ b)
  = (list_ascii_of_string a ++ list_ascii_of_string b)%list.
Proof.
  induction a as [|c a IH]; [reflexivity|]. cbn. rewrite IH. reflexivity.
Qed.

Lemma append_cancel_right (a b s : string) : a ++ s = b ++ s -> a = b.
Proof.
  intros H. apply (f_equal list_ascii_of_string) in H.
  rewrite !list_ascii_of_append in H. apply app_inv_tail in H.
  rewrite <- (string_of_list_ascii_of_string a),
          <- (string_of_list_ascii_of_string b), H.
  reflexivity.
Qed.

Lemma eqb_append_right (a b s : string) : (a ++ s =? b ++ s) = (a =? b).
Proof.
  destruct (a =? b) eqn:E.
  - apply String.eqb_eq in E. subst. apply String.eqb_refl.
  - apply String.eqb_neq. intros H. apply append_cancel_right in H.
    apply String.eqb_neq in E. contradiction.
Qed.

(** X16.  A password set on a document and saved is the one, and the
    only one, [validatePassword] accepts afterwards.  When the pre-save
    hook runs on a document whose [passwordHash] field holds a new plain
    password and the hasher does not fail, the saved document carries
    the fresh salt, and with a verifier that matches the hasher
    [validatePassword] answers true for that password and false for
    every other; a hook run on a document whose password was not
    modified leaves hash and salt alone. *)
Theorem password_round_trip (hash : Hasher) (env : HashEnv)
    (t_updated t_changed : Date) (salt_hex : string) (e e' : Employee) :
  hasher_matches hash L ->
  pre_save hash env true t_updated salt_hex t_changed e = inr e' ->
  salt e' = salt_hex
  /\ passwordChangedAt e' = t_changed
  /\ (forall w, validatePassword e' (passwordHash e) w = (Next true, w))
  /\ (forall pw w, pw <> passwordHash e ->
                   validatePassword e' pw w = (Next false, w))
  /\ (forall t s c e0,
        pre_save hash env false t s c e0 = inr (set_updatedAt t e0)).
Proof.
  intros Hm Hsave. unfold pre_save in Hsave. cbn [negb] in Hsave.
  cbn [passwordHash salt set_salt set_updatedAt] in Hsave.
  destruct (hash (passwordHash e ++ salt_hex) (hash_options env)) as [m|h] eqn:Hh;
    [discriminate|].
  injection Hsave as <-.
  split; [reflexivity|]. split; [reflexivity|].
  split; [|split; [|reflexivity]].
  - intros w. unfold validatePassword.
    cbn [passwordHash salt set_passwordChangedAt set_passwordHash set_salt set_updatedAt].
    rewrite (Hm _ _ _ Hh), String.eqb_refl. reflexivity.
  - intros pw w Hne. unfold validatePassword.
    cbn [passwordHash salt set_passwordChangedAt set_passwordHash set_salt set_updatedAt].
    rewrite (Hm _ _ _ Hh), eqb_append_right.
    replace (passwordHash e =? pw) with false; [reflexivity|].
    symmetry. apply String.eqb_neq. congruence.
Qed.

End PasswordRoundTrip.

Lemma reference_hasher_matches :
  hasher_matches (fun x _ => inr (Reference.ref_hash x)) Reference.libraries.
Proof.
  intros x o h [= <-] y.
  cbn. unfold Reference.ref_argon2_verify, Reference.ref_hash. cbn.
  destruct x; reflexivity.
Qed.

Lemma password_round_trip_witness :
  validatePassword (L := Reference.libraries) Sample.jsmith "Demo123!@#"
    (mkWorld [] [] [])
  = (Next true, mkWorld [] [] []).
Proof.
  apply (proj1 (proj2 (proj2
           (password_round_trip (L := Reference.libraries)
              (fun x _ => inr (Reference.ref_hash x))
              (mkHashEnv S754_nan S754_nan S754_nan) Sample.T0 Sample.T0 "9f3c"
              (set_passwordHash "Demo123!@#" Sample.jsmith) Sample.jsmith
              reference_hasher_matches eq_refl)))).
Defined.

(** ** The page size of the listing route *)

Section PageSize.

Local Close Scope string_scope.

(** X17.  The page size of the transaction listing,
    [Math.min(parseInt(req.query.limit) || 20, 100)], is never NaN,
    never zero and never above 100, whatever Number [parseInt] returned:
    NaN and zero give 20, anything above 100 (infinity included) gives
    100, and every other value is passed on as it is, negative values
    included. *)
Theorem page_size_capped (parsed : Number) :
  JS.gt (page_size parsed) (JS.Number_of_Z 100) = false
  /\ number_falsy (page_size parsed) = false
  /\ (number_falsy parsed = true -> page_size parsed = JS.Number_of_Z 20)
  /\ (JS.gt parsed (JS.Number_of_Z 100) = true ->
      page_size parsed = JS.Number_of_Z 100)
  /\ (number_falsy parsed = false ->
      JS.gt parsed (JS.Number_of_Z 100) = false ->
      page_size parsed = parsed).
Proof.
  assert (H100 : JS.Number_of_Z 100 = S754_finite false 7036874417766400 (-46))
    by reflexivity.
  assert (H20 : JS.Number_of_Z 20 = S754_finite false 5629499534213120 (-48))
    by reflexivity.
  unfold page_size, number_or, JS.gt. rewrite H100, H20.
  destruct parsed as [s|s| |s m e]; cbn [number_falsy].
  - repeat split; try reflexivity; discriminate.
  - destruct s; repeat split; try reflexivity; discriminate.
  - repeat split; try reflexivity; discriminate.
  - cbn [Math_min].
    destruct (SFltb (S754_finite false 7036874417766400 (-46)) (S754_finite s m e))
      eqn:Hgt.
    + repeat split; try reflexivity; discriminate.
    + repeat split; try reflexivity; try discriminate. exact Hgt.
Qed.

End PageSize.

Lemma page_size_witness :
  page_size (JS.Number_of_Z 5000) = JS.Number_of_Z 100
  /\ page_size (JS.Number_of_Z (-5)) = JS.Number_of_Z (-5)
  /\ page_size S754_nan = JS.Number_of_Z 20.
Proof.
  split; [|split].
  - apply (page_size_capped (JS.Number_of_Z 5000)). reflexivity.
  - apply (page_size_capped (JS.Number_of_Z (-5))); reflexivity.
  - apply (page_size_capped S754_nan). reflexivity.
Defined.

(** ** The login form *)

Section LoginForm.

Variable toUpperCase : string -> string.

(** X18.  The login form and the login route check the same thing.  What
    the form submits (the employee id upper-cased) always passes the
    input checks of the route, so a submitted form is never answered
    with the 400 of malformed input; and, upper-casing the empty string
    giving the empty string, a form the page refuses to submit is one
    whose request the route would have refused as malformed. *)
Theorem form_and_route_agree (f : Client.FormData) :
  (forall req,
      Client.handleSubmit toUpperCase f = Some req ->
      well_formed req (Client.f_username f) (toUpperCase (Client.f_employeeId f))
        (Client.f_password f))
  /\ (toUpperCase EmptyString = EmptyString ->
      Client.handleSubmit toUpperCase f = None ->
      malformed (mkLoginRequest (Some (Client.f_username f))
                   (Some (toUpperCase (Client.f_employeeId f)))
                   (Some (Client.f_password f)))).
Proof.
  unfold Client.handleSubmit, Client.validate, Client.no_errors, Client.empty.
  cbn [snd Client.err_username Client.err_employeeId Client.err_password].
  destruct (Client.f_username f =? EmptyString) eqn:Eu0;
  destruct (Client.patterns_username (Client.f_username f)) eqn:Eu;
  destruct (Client.f_employeeId f =? EmptyString) eqn:Ei0;
  destruct (Client.patterns_employeeId (toUpperCase (Client.f_employeeId f))) eqn:Ei;
  destruct (Client.f_password f =? EmptyString) eqn:Ep0;
  cbn [orb negb];
  try (destruct (String.length (Client.f_password f) =? 0)%nat eqn:Ep1; cbn [orb negb]);
  (split; [intros req Hs; try discriminate | intros Hup Hs; try discriminate]).
  all: try (injection Hs as <-; split; [reflexivity|];
            split; [exact Eu|]; split; [exact Ei|];
            apply String.eqb_neq; exact Ep0).
  all: unfold malformed, fails;
       cbn [req_username req_employeeId req_password].
  all: try (left; exact Eu).
  all: try (right; left; exact Ei).
  all: try (apply String.eqb_eq in Ep0; right; right; right; rewrite Ep0; reflexivity).
  all: try (apply String.eqb_eq in Eu0; rewrite Eu0 in Eu; discriminate).
  all: try (apply String.eqb_eq in Ei0; rewrite Ei0, Hup in Ei; discriminate).
  all: try (apply String.eqb_neq in Ep0; apply Nat.eqb_eq in Ep1;
            destruct (Client.f_password f); [contradiction|discriminate]).
Qed.

Lemma sanitize_no_angle (v : string) : no_angle (Client.sanitize v).
Proof.
  unfold no_angle. induction v as [|c v IH]; cbn [Client.sanitize]; [contradiction|].
  destruct (Ascii.eqb c "<") eqn:E1; [exact IH|].
  destruct (Ascii.eqb c ">") eqn:E2; [exact IH|]. cbn [orb list_ascii_of_string].
  intros x [<-|Hin]; [|exact (IH x Hin)].
  split; intros ->; [rewrite Ascii.eqb_refl in E1|rewrite Ascii.eqb_refl in E2];
    discriminate.
Qed.

Lemma sanitize_clean (v : string) : no_angle v -> Client.sanitize v = v.
Proof.
  unfold no_angle. induction v as [|c v IH]; intros H; [reflexivity|].
  cbn [Client.sanitize].
  destruct (H c (or_introl eq_refl)) as [H1 H2].
  apply Ascii.eqb_neq in H1, H2. rewrite H1, H2. cbn [orb].
  rewrite IH; [reflexivity|]. intros x Hx. apply H. right. exact Hx.
Qed.

Lemma typed_keeps_clean (events : list (Client.Field * string)) (f : Client.FormData) :
  no_angle (Client.f_username f) /\ no_angle (Client.f_employeeId f)
  /\ no_angle (Client.f_password f) ->
  no_angle (Client.f_username (Client.typed events f))
  /\ no_angle (Client.f_employeeId (Client.typed events f))
  /\ no_angle (Client.f_password (Client.typed events f)).
Proof.
  revert f. induction events as [|[name v] events IH]; intros f Hf; [exact Hf|].
  cbn [Client.typed fold_left fst snd]. apply IH.
  destruct Hf as (H1 & H2 & H3).
  destruct name; cbn [Client.handleChange Client.f_username Client.f_employeeId
                        Client.f_password];
    (split; [|split]); (assumption || apply sanitize_no_angle).
Qed.

(** X19.  Nothing typed into the login form keeps a [<] or a [>].
    After any sequence of change events, starting from the empty form,
    no field of the form data holds one of the two characters, while
    text without them is stored exactly as typed; so the password of a
    request the form submits never contains [<] or [>]. *)
Theorem form_never_holds_angle_brackets (events : list (Client.Field * string)) :
  (no_angle (Client.f_username (Client.typed events Client.initial))
   /\ no_angle (Client.f_employeeId (Client.typed events Client.initial))
   /\ no_angle (Client.f_password (Client.typed events Client.initial)))
  /\ (forall v, no_angle v -> Client.sanitize v = v)
  /\ (forall req,
      Client.handleSubmit toUpperCase (Client.typed events Client.initial) = Some req ->
      exists pw, req_password req = Some pw /\ no_angle pw).
Proof.
  assert (Hclean : no_angle (Client.f_username (Client.typed events Client.initial))
                   /\ no_angle (Client.f_employeeId (Client.typed events Client.initial))
                   /\ no_angle (Client.f_password (Client.typed events Client.initial))).
  { apply typed_keeps_clean. split; [|split]; intros c []. }
  split; [exact Hclean|]. split; [exact sanitize_clean|].
  intros req Hs. unfold Client.handleSubmit in Hs.
  destruct (negb (snd (Client.validate toUpperCase
                         (Client.typed events Client.initial)))); [discriminate|].
  injection Hs as <-. eexists. split; [reflexivity|]. apply Hclean.
Qed.

End LoginForm.

Lemma form_and_route_agree_witness :
  well_formed
    (mkLoginRequest (Some "jsmith") (Some "EMP001") (Some "Demo123!@#"))
    "jsmith" "EMP001" "Demo123!@#".
Proof.
  apply (proj1 (form_and_route_agree (fun s => s)
                  (Client.mkFormData "jsmith" "EMP001" "Demo123!@#"))).
  reflexivity.
Defined.

Lemma form_never_holds_angle_brackets_witness :
  exists pw,
    req_password
      (mkLoginRequest (Some "jsmith") (Some "EMP001") (Some "Demo123!@#"))
    = Some pw
    /\ no_angle pw.
Proof.
  apply (proj2 (proj2 (form_never_holds_angle_brackets (fun s => s)
                         [(Client.username_field, "<jsmith>");
                          (Client.employeeId_field, "EMP001");
                          (Client.password_field, "Demo<123>!@#")]))).
  reflexivity.
Defined.

(** ** From approval to submission *)

Section ApproveThenSubmit.

Context {L : Libraries}.

Lemma replace_keeps_tx_ids (t' : Transaction) (docs : list Transaction) :
  map tx_id (replace_transaction t' docs) = map tx_id docs.
Proof.
  induction docs as [|d docs IH]; [reflexivity|].
  cbn [replace_transaction map]. fold (replace_transaction t' docs).
  rewrite IH. destruct (tx_id d =? tx_id t') eqn:E; [|reflexivity].
  apply String.eqb_eq in E. congruence.
Qed.

(** The run of an approval that is not refused, in full. *)
Lemma verify_approves_run (now : Date) (actor : Employee) (req : VerifyRequest)
    (w : World) (t : Transaction) :
  passes_validation req true ->
  lookup (params_id req) w = Some t ->
  status t = PENDING ->
  exceedsLimit true t actor = false ->
  exists ev,
    verifyTransaction now actor req w =
      (Sent (json 200 (VerifyBody "Transaction verified successfully"
                         (view (verified_by now t)))),
       add_audit ev
         (set_transactions
            (replace_transaction (verified_by now t) (transactions w)) w)).
Proof.
  intros (Hfmt & Hv & Hnotes) Hlook Hst Hex.
  unfold verifyTransaction. rewrite Hfmt, Hv. cbn [negb].
  rewrite (notes_accepted _ Hnotes).
  unfold bind at 1. unfold Transaction_findById.
  rewrite (cast_of_format _ Hfmt). unfold gets.
  unfold lookup in Hlook. rewrite Hlook, Hst, Hex.
  eexists. reflexivity.
Qed.

(** X20.  An approved transaction can be submitted.  Over a collection
    with unique ids, after an approval of a PENDING transaction that is
    answered 200, a batch made of that one id is answered 200 with count
    1 and the transaction is stored PROCESSING, with the [verifiedAt]
    the approval stamped. *)
Theorem approve_then_submit (now : Date) (actor submitter : Employee)
    (req : VerifyRequest) (w : World) (t : Transaction) :
  unique_ids w ->
  passes_validation req true ->
  lookup (params_id req) w = Some t ->
  status t = PENDING ->
  exceedsLimit true t actor = false ->
  exists v w1 s w2,
    verifyTransaction now actor req w =
      (Sent (json 200 (VerifyBody "Transaction verified successfully" v)), w1)
    /\ submitToSwift submitter (Some [params_id req]) w1 =
       (Sent (json 200 (SubmitBody s 1)), w2)
    /\ lookup (params_id req) w2 = Some (processing (verified_by now t)).
Proof.
  intros Hu Hreq Hlook Hst Hex.
  destruct (verify_approves_run now actor req w t Hreq Hlook Hst Hex) as (ev & Hrun).
  set (w1 := add_audit ev
               (set_transactions
                  (replace_transaction (verified_by now t) (transactions w)) w))
    in *.
  assert (Hu1 : unique_ids w1).
  { unfold unique_ids, w1. cbn [transactions add_audit set_transactions].
    rewrite replace_keeps_tx_ids. exact Hu. }
  assert (Hl1 : lookup (params_id req) w1 = Some (verified_by now t))
    by (apply (lookup_replace _ w t); [exact Hlook|reflexivity]).
  assert (Hb : batch [params_id req]).
  { split; [cbn; lia|]. constructor; [exact (proj1 Hreq)|constructor]. }
  assert (Hall : forall id, In id [params_id req] -> resolves w1 id = true).
  { intros id [<-|[]]. unfold resolves. rewrite Hl1. reflexivity. }
  assert (Hd : distinct [params_id req]).
  { unfold distinct. cbn [map]. constructor; [intros []|constructor]. }
  destruct (submit_all submitter [params_id req] w1 Hb
              (selected_all w1 [params_id req] Hu1 Hd Hall))
    as (w2 & Hsub & Htx & _).
  eexists; exists w1; eexists; exists w2.
  split; [exact Hrun|]. split; [exact Hsub|].
  unfold lookup. rewrite Htx.
  destruct (selected_of_resolved w1 [params_id req] (params_id req)
              (verified_by now t) (or_introl eq_refl) Hl1 eq_refl) as [Hsel Hid].
  rewrite <- Hid.
  apply (after_submission_member _ _ (verified_by now t) (verified_by now t)).
  - apply filter_unique_ids. exact Hu1.
  - exact Hsel.
  - rewrite Hid. exact Hl1.
Qed.

End ApproveThenSubmit.

Lemma approve_then_submit_witness :
  exists v w1 s w2,
    verifyTransaction (L := Reference.libraries) Sample.T0 Sample.jsmith
      (Sample.approve Sample.id4) Sample.ledger
    = (Sent (json 200 (VerifyBody "Transaction verified successfully" v)), w1)
    /\ submitToSwift (L := Reference.libraries) Sample.jsmith
         (Some [Sample.id4]) w1
       = (Sent (json 200 (SubmitBody s 1)), w2)
    /\ lookup Sample.id4 w2 =
       Some (processing
               (verified_by Sample.T0
                  (Sample.payment Sample.id4 (JS.Number_of_Z 300) PENDING))).
Proof.
  apply (approve_then_submit (L := Reference.libraries) Sample.T0 Sample.jsmith
           Sample.jsmith (Sample.approve Sample.id4) Sample.ledger
           (Sample.payment Sample.id4 (JS.Number_of_Z 300) PENDING)).
  - unfold unique_ids. simpl. repeat constructor; simpl; intuition discriminate.
  - split; [reflexivity|]. split; [reflexivity|]. left. reflexivity.
  - reflexivity.
  - reflexivity.
  - reflexivity.
Defined.

(* ================================================================= *)
(** ** The limit test on exact values *)

Section Values.

Local Close Scope string_scope.

(** What canonical form says of a mantissa and its exponent. *)
Lemma bounded_facts (m : positive) (e : Z) :
  bounded JS.prec JS.emax m e = true ->
  -1074 <= e <= 971 /\ Zpos m < 2 ^ 53 /\ (-1074 < e -> 2 ^ 52 <= Zpos m).
Proof.
  unfold bounded, canonical_mantissa, fexp, emin, JS.prec, JS.emax.
  intros H. apply andb_true_iff in H as [Hc He].
  apply Z.eqb_eq in Hc. apply Z.leb_le in He.
  pose proof (digits2_bounds m) as [Hlo Hhi].
  assert (Hd : Zpos (digits2_pos m) <= 53) by lia.
  split; [lia|]. split.
  - assert (2 ^ Zpos (digits2_pos m) <= 2 ^ 53) by (apply Z.pow_le_mono_r; lia).
    lia.
  - intros Hn. assert (Zpos (digits2_pos m) = 53) as Heq by lia.
    rewrite Heq in Hlo. exact Hlo.
Qed.

Lemma mag_lt (m1 m2 : positive) (e1 e2 : Z) :
  bounded JS.prec JS.emax m1 e1 = true ->
  bounded JS.prec JS.emax m2 e2 = true ->
  e1 < e2 ->
  Zpos m1 * 2 ^ (e1 + 1074) < Zpos m2 * 2 ^ (e2 + 1074).
Proof.
  intros H1 H2 He.
  destruct (bounded_facts _ _ H1) as (Hr1 & Hm1 & _).
  destruct (bounded_facts _ _ H2) as (Hr2 & _ & Hm2).
  specialize (Hm2 ltac:(lia)).
  replace (e2 + 1074) with ((e2 - e1 - 1) + 1 + (e1 + 1074)) by lia.
  rewrite (Z.pow_add_r 2 (e2 - e1 - 1 + 1) (e1 + 1074)) by lia.
  rewrite (Z.pow_add_r 2 (e2 - e1 - 1) 1) by lia.
  assert (0 < 2 ^ (e1 + 1074)) by (apply Z.pow_pos_nonneg; lia).
  assert (0 < 2 ^ (e2 - e1 - 1)) by (apply Z.pow_pos_nonneg; lia).
  change (2 ^ 53) with (2 * 2 ^ 52) in Hm1. change (2 ^ 1) with 2.
  set (A := 2 ^ (e1 + 1074)) in *. set (B := 2 ^ (e2 - e1 - 1)) in *.
  set (C := 2 ^ 52) in *.
  assert (Zpos m1 * A < 2 * C * A) by nia.
  assert (C * A <= Zpos m2 * A) by nia.
  assert (0 <= Zpos m2 * A * (B - 1)) by (apply Z.mul_nonneg_nonneg; nia).
  lia.
Qed.

Lemma mag_ltb (m1 m2 : positive) (e1 e2 : Z) :
  bounded JS.prec JS.emax m1 e1 = true ->
  bounded JS.prec JS.emax m2 e2 = true ->
  (Zpos m1 * 2 ^ (e1 + 1074) <? Zpos m2 * 2 ^ (e2 + 1074)) =
  match e1 ?= e2 with
  | Eq => match Pos.compare_cont Eq m1 m2 with Lt => true | _ => false end
  | Lt => true
  | Gt => false
  end.
Proof.
  intros H1 H2. destruct (e1 ?= e2) eqn:Hc.
  - apply Z.compare_eq in Hc. subst e2.
    destruct (bounded_facts _ _ H1) as (Hr1 & _).
    assert (0 < 2 ^ (e1 + 1074)) by (apply Z.pow_pos_nonneg; lia).
    change (Pos.compare_cont Eq m1 m2) with (Zpos m1 ?= Zpos m2).
    destruct (Zpos m1 ?= Zpos m2) eqn:E.
    + apply Z.compare_eq in E. rewrite E. apply Z.ltb_irrefl.
    + change (Zpos m1 < Zpos m2) in E. apply Z.ltb_lt. nia.
    + change (Zpos m1 > Zpos m2) in E. apply Z.ltb_ge. nia.
  - change (e1 < e2) in Hc. apply Z.ltb_lt. apply mag_lt; assumption.
  - change (e1 > e2) in Hc. apply Z.ltb_ge. apply Z.lt_le_incl.
    apply mag_lt; [assumption|assumption|lia].
Qed.

Lemma mag_pos (m : positive) (e : Z) :
  bounded JS.prec JS.emax m e = true -> 0 < Zpos m * 2 ^ (e + 1074).
Proof.
  intros H. destruct (bounded_facts _ _ H) as (Hr & _).
  assert (0 < 2 ^ (e + 1074)) by (apply Z.pow_pos_nonneg; lia). nia.
Qed.

(** The comparison of two finite Numbers is the comparison of their
    exact values. *)
Lemma gt_exact (x y : Number) :
  stored x = true -> stored y = true ->
  JS.gt x y = (units y <? units x).
Proof.
  intros Hx Hy. unfold JS.gt, SFltb, SFcompare.
  destruct y as [sy|sy| |sy my ey]; try discriminate;
    destruct x as [sx|sx| |sx mx ex]; try discriminate; cbn [stored] in Hx, Hy.
  - reflexivity.
  - pose proof (mag_pos _ _ Hx). destruct sx; cbn [units]; symmetry;
      [apply Z.ltb_ge|apply Z.ltb_lt]; lia.
  - pose proof (mag_pos _ _ Hy). destruct sy; cbn [units]; symmetry;
      [apply Z.ltb_lt|apply Z.ltb_ge]; lia.
  - pose proof (mag_pos _ _ Hx). pose proof (mag_pos _ _ Hy).
    pose proof (mag_ltb my mx ey ex Hy Hx) as Hlt.
    pose proof (mag_ltb mx my ex ey Hx Hy) as Hgt.
    destruct sy, sx; cbn [units].
    + change (Pos.compare_cont Eq mx my) with (mx ?= my)%positive in Hgt.
      change (Pos.compare_cont Eq my mx) with (my ?= mx)%positive.
      rewrite (Z.compare_antisym ey ex), (Pos.compare_antisym my mx) in Hgt.
      replace (- (Zpos my * 2 ^ (ey + 1074)) <? - (Zpos mx * 2 ^ (ex + 1074)))
        with (Zpos mx * 2 ^ (ex + 1074) <? Zpos my * 2 ^ (ey + 1074)).
      2:{ destruct (Zpos mx * 2 ^ (ex + 1074) <? Zpos my * 2 ^ (ey + 1074)) eqn:E;
          symmetry; [apply Z.ltb_lt in E; apply Z.ltb_lt|apply Z.ltb_ge in E; apply Z.ltb_ge]; lia. }
      rewrite Hgt.
      destruct (ey ?= ex), (my ?= mx)%positive; reflexivity.
    + symmetry. apply Z.ltb_lt. lia.
    + symmetry. apply Z.ltb_ge. lia.
    + rewrite Hlt.
      destruct (ey ?= ex), (Pos.compare_cont Eq my mx); reflexivity.
Qed.

Lemma exactly_nearest (x : Number) (n : Z) (d : positive) :
  exactly x n d -> nearest x n d.
Proof.
  intros [Hs He]. split; [exact Hs|]. intros y _. unfold off.
  rewrite He, Z.sub_diag. cbn [Z.abs]. apply Z.abs_nonneg.
Qed.

(** Rounding to the nearest Number keeps the order: of two decimals the
    smaller is never stored as the greater Number. *)
Lemma nearest_monotone (xa xl : Number) (na nl : Z) (da dl : positive) :
  nearest xa na da -> nearest xl nl dl ->
  na * Zpos dl < nl * Zpos da ->
  units xa <= units xl.
Proof.
  intros [Hsa Ha] [Hsl Hl] Hlt.
  specialize (Ha xl Hsl). specialize (Hl xa Hsa). unfold off in Ha, Hl.
  destruct (Z_le_gt_dec (units xa) (units xl)) as [Hle|Hgt]; [exact Hle|].
  exfalso.
  assert (HK : 0 < 2 ^ 1074) by (apply Z.pow_pos_nonneg; lia).
  set (K := 2 ^ 1074) in *. set (ua := units xa) in *. set (ul := units xl) in *.
  assert (Zpos da * ul < Zpos da * ua) by nia.
  assert (Zpos dl * ul < Zpos dl * ua) by nia.
  assert (H1 : Zpos da * ua + Zpos da * ul <= 2 * (na * K)) by lia.
  assert (H2 : 2 * (nl * K) <= Zpos dl * ua + Zpos dl * ul) by lia.
  assert (H3 : Zpos dl * (Zpos da * ua + Zpos da * ul) <= Zpos dl * (2 * (na * K)))
    by (apply Z.mul_le_mono_nonneg_l; lia).
  assert (H4 : Zpos da * (2 * (nl * K)) <= Zpos da * (Zpos dl * ua + Zpos dl * ul))
    by (apply Z.mul_le_mono_nonneg_l; lia).
  assert (H5 : (nl * Zpos da) * (2 * K) <= (na * Zpos dl) * (2 * K)) by nia.
  apply Z.mul_le_mono_pos_r in H5; lia.
Qed.

(** A mantissa below 2^53 with an exponent in the normal range is a
    Number: shifting the mantissa up to 53 bits gives its canonical
    form. *)
Lemma representable (p : positive) (k : Z) :
  Zpos p < 2 ^ 53 -> -1022 <= k <= 971 ->
  exists y, stored y = true /\ units y = Zpos p * 2 ^ (k + 1074).
Proof.
  intros Hp Hk. pose proof (digits2_bounds p) as [Hlo _].
  assert (Hd : Zpos (digits2_pos p) <= 53).
  { destruct (Z_le_gt_dec (Zpos (digits2_pos p)) 53) as [H|H]; [exact H|].
    exfalso.
    assert (2 ^ 53 <= 2 ^ (Zpos (digits2_pos p) - 1))
      by (apply Z.pow_le_mono_r; lia).
    lia. }
  destruct (53 - Zpos (digits2_pos p)) as [|s|s] eqn:Hs; [|  |lia].
  - exists (S754_finite false p k). split; [|reflexivity].
    cbn [stored]. unfold bounded, canonical_mantissa, fexp, emin, JS.prec, JS.emax.
    apply andb_true_iff. split; [apply Z.eqb_eq|apply Z.leb_le]; lia.
  - exists (S754_finite false (Pos.iter xO p s) (k - Zpos s)). split.
    + cbn [stored]. unfold bounded, canonical_mantissa. rewrite digits2_shift.
      unfold fexp, emin, JS.prec, JS.emax.
      apply andb_true_iff. split; [apply Z.eqb_eq|apply Z.leb_le]; lia.
    + cbn [units]. change (Pos.iter xO p s) with (shift_pos s p).
      rewrite shift_pos_correct, Z.pow_pos_fold.
      replace (k + 1074) with (Zpos s + (k - Zpos s + 1074)) by lia.
      rewrite (Z.pow_add_r 2 (Zpos s)) by lia. ring.
Qed.

(** Between a Number and the next one up or down there is no other: a
    finite Number other than [x] lies at least one unit in the last
    place of [x] away, when the mantissa of [x] is not a power of two. *)
Lemma spacing (m : positive) (e : Z) (y : Number) :
  bounded JS.prec JS.emax m e = true -> 2 ^ 52 < Zpos m ->
  stored y = true ->
  units y = Zpos m * 2 ^ (e + 1074)
  \/ Zpos m * 2 ^ (e + 1074) + 2 ^ (e + 1074) <= units y
  \/ units y <= Zpos m * 2 ^ (e + 1074) - 2 ^ (e + 1074).
Proof.
  intros Hx Hm Hy.
  destruct (bounded_facts _ _ Hx) as (Hr & Hhi & _).
  assert (HA : 0 < 2 ^ (e + 1074)) by (apply Z.pow_pos_nonneg; lia).
  destruct y as [sy|sy| |sy my ey]; try discriminate; cbn [stored] in Hy.
  - right; right. cbn [units]. nia.
  - pose proof (mag_pos _ _ Hy) as Hpos.
    destruct (bounded_facts _ _ Hy) as (Hry & Hyhi & Hylo).
    destruct sy; cbn [units]; [right; right; nia|].
    destruct (Z.compare_spec ey e) as [Heq|Hlt|Hgt].
    + subst ey. set (A := 2 ^ (e + 1074)) in *.
      destruct (Z.compare_spec (Zpos my) (Zpos m)) as [E|E|E].
      * left. rewrite E. reflexivity.
      * right; right. nia.
      * right; left. nia.
    + right; right.
      replace (e + 1074) with ((e - ey - 1) + 1 + (ey + 1074)) by lia.
      rewrite (Z.pow_add_r 2 (e - ey - 1 + 1) (ey + 1074)) by lia.
      rewrite (Z.pow_add_r 2 (e - ey - 1) 1) by lia.
      assert (0 < 2 ^ (ey + 1074)) by (apply Z.pow_pos_nonneg; lia).
      assert (0 < 2 ^ (e - ey - 1)) by (apply Z.pow_pos_nonneg; lia).
      change (2 ^ 53) with (2 * 2 ^ 52) in Hyhi. change (2 ^ 1) with 2.
      set (A := 2 ^ (ey + 1074)) in *. set (B := 2 ^ (e - ey - 1)) in *.
      set (C := 2 ^ 52) in *.
      assert (Zpos my * A <= 2 * C * A) by nia.
      assert (C * A <= (Zpos m - 1) * A) by nia.
      assert (0 <= (Zpos m - 1) * A * (B - 1)) by (apply Z.mul_nonneg_nonneg; nia).
      lia.
    + right; left. specialize (Hylo ltac:(lia)).
      replace (ey + 1074) with ((ey - e - 1) + 1 + (e + 1074)) by lia.
      rewrite (Z.pow_add_r 2 (ey - e - 1 + 1) (e + 1074)) by lia.
      rewrite (Z.pow_add_r 2 (ey - e - 1) 1) by lia.
      assert (0 < 2 ^ (ey - e - 1)) by (apply Z.pow_pos_nonneg; lia).
      change (2 ^ 53) with (2 * 2 ^ 52) in Hhi. change (2 ^ 1) with 2.
      set (A := 2 ^ (e + 1074)) in *. set (B := 2 ^ (ey - e - 1)) in *.
      set (C := 2 ^ 52) in *.
      assert ((Zpos m + 1) * A <= 2 * C * A) by nia.
      assert (C * A <= Zpos my * A) by nia.
      assert (0 <= Zpos my * A * (B - 1)) by (apply Z.mul_nonneg_nonneg; nia).
      lia.
Qed.

(** A Number within half a unit in the last place of a decimal is a
    nearest Number to it. *)
Lemma nearest_within_half_ulp (m : positive) (e : Z) (n : Z) (d : positive) :
  bounded JS.prec JS.emax m e = true -> 2 ^ 52 < Zpos m ->
  2 * off (S754_finite false m e) n d <= Zpos d * 2 ^ (e + 1074) ->
  nearest (S754_finite false m e) n d.
Proof.
  intros Hx Hm Hhalf. split; [exact Hx|]. intros y Hy.
  pose proof (spacing m e y Hx Hm Hy) as Hsp.
  unfold off in *. cbn [units] in *.
  set (u := Zpos m * 2 ^ (e + 1074)) in *. set (A := 2 ^ (e + 1074)) in *.
  set (c := n * 2 ^ 1074) in *. set (v := units y) in *.
  destruct Hsp as [E|[E|E]].
  - rewrite E. lia.
  - assert (Zpos d * u + Zpos d * A <= Zpos d * v) by nia. lia.
  - assert (Zpos d * v <= Zpos d * u - Zpos d * A) by nia. lia.
Qed.

(** Below 2^46 every multiple of 1/128 is a Number, so no Number is
    nearest to two different amounts in whole cents. *)
Lemma near_cents (x : Number) (c : Z) :
  nearest x c 100 -> 0 <= c < 100 * 2 ^ 46 ->
  off x c 100 <= 50 * 2 ^ 1067.
Proof.
  intros [Hs Hn] Hc.
  set (j := (128 * c + 50) / 100).
  assert (Hj : 100 * j <= 128 * c + 50 < 100 * j + 100).
  { pose proof (Z.div_mod (128 * c + 50) 100 ltac:(lia)) as Hdm.
    pose proof (Z.mod_pos_bound (128 * c + 50) 100 ltac:(lia)). fold j in Hdm. lia. }
  assert (Hj0 : 0 <= j < 2 ^ 53) by (change (2 ^ 53) with (128 * 2 ^ 46); lia).
  assert (Hy : exists y, stored y = true /\ units y = j * 2 ^ 1067).
  { destruct j as [|p|p]; [| |lia].
    - exists (S754_zero false). split; reflexivity.
    - destruct (representable p (-7) (proj2 Hj0) ltac:(lia)) as (y & Hys & Hyu).
      exists y. split; [exact Hys|exact Hyu]. }
  destruct Hy as (y & Hys & Hyu).
  specialize (Hn y Hys). unfold off in *. rewrite Hyu in Hn.
  change (2 ^ 1074) with (128 * 2 ^ 1067) in *.
  assert (HG : 0 < 2 ^ 1067) by (apply Z.pow_pos_nonneg; lia).
  set (G := 2 ^ 1067) in *.
  assert (Z.abs (100 * (j * G) - c * (128 * G)) <= 50 * G) by nia.
  lia.
Qed.

Lemma cents_apart (x : Number) (ca cl : Z) :
  nearest x ca 100 -> nearest x cl 100 ->
  0 <= ca < 100 * 2 ^ 46 -> 0 <= cl < 100 * 2 ^ 46 ->
  ca = cl.
Proof.
  intros Ha Hl Hca Hcl.
  pose proof (near_cents x ca Ha Hca) as H1.
  pose proof (near_cents x cl Hl Hcl) as H2.
  unfold off in *. change (2 ^ 1074) with (128 * 2 ^ 1067) in *.
  assert (HG : 0 < 2 ^ 1067) by (apply Z.pow_pos_nonneg; lia).
  set (G := 2 ^ 1067) in *. nia.
Qed.

(** A whole number from 0 to 2^53 - 1 is stored as itself. *)
Lemma Number_of_safe_integer (a : Z) :
  0 <= a < 2 ^ 53 -> exactly (JS.Number_of_Z a) a 1.
Proof.
  intros Ha. destruct a as [|p|p]; [| |lia].
  - split; reflexivity.
  - destruct (Number_of_pos p (proj2 Ha)) as (m & e & -> & He & He0 & Hm).
    pose proof (digits2_bounds p) as [Hlo Hhi].
    assert (Hd : 0 < Zpos (digits2_pos p)) by lia.
    assert (Hpow : 2 ^ (e + 1074) * 2 ^ (- e) = 2 ^ 1074).
    { rewrite <- Z.pow_add_r by lia. f_equal. lia. }
    assert (Hpe : 0 < 2 ^ (- e)) by (apply Z.pow_pos_nonneg; lia).
    split.
    + cbn [stored]. unfold bounded, canonical_mantissa.
      apply andb_true_iff. split; [apply Z.eqb_eq|apply Z.leb_le].
      * assert (Hdm : Zpos (digits2_pos m) = 53).
        { pose proof (digits2_bounds m) as [Hmlo Hmhi].
          rewrite Hm in Hmlo, Hmhi.
          assert (H1 : 2 ^ (Zpos (digits2_pos p) - 1) * 2 ^ (- e) = 2 ^ 52).
          { rewrite <- Z.pow_add_r by lia. f_equal. lia. }
          assert (H2 : 2 ^ Zpos (digits2_pos p) * 2 ^ (- e) = 2 ^ 53).
          { rewrite <- Z.pow_add_r by lia. f_equal. lia. }
          assert (H3 : 2 ^ 52 <= Zpos p * 2 ^ (- e) < 2 ^ 53) by nia.
          destruct (Z.lt_trichotomy (Zpos (digits2_pos m)) 53) as [C|[C|C]];
            [exfalso|exact C|exfalso].
          - assert (2 ^ Zpos (digits2_pos m) <= 2 ^ 52)
              by (apply Z.pow_le_mono_r; lia). lia.
          - assert (2 ^ 53 <= 2 ^ (Zpos (digits2_pos m) - 1))
              by (apply Z.pow_le_mono_r; lia). lia. }
        rewrite Hdm. unfold fexp, emin, JS.prec, JS.emax. lia.
      * unfold JS.prec, JS.emax. lia.
    + cbn [units]. rewrite Hm. rewrite <- Hpow. ring.
Qed.

(** C8, as the code has it.  The permission test compares two Numbers
    with [>], a binary64 comparison, for an EMPLOYEE and a finite amount
    and limit.
    - It is exact on the stored values: it fires exactly when the value
      of the stored amount exceeds that of the stored limit.
    - So for an amount and a limit that are exactly representable it
      decides as the decimals compare: it neither falsely permits nor
      falsely denies.
    - It never falsely denies: when amount and limit are each stored as a
      Number nearest to a decimal (equal decimals as the same Number) and
      the decimal amount is at most the decimal limit, it does not fire.
    - For an amount and a limit in whole cents, from 0 up to 2^46, each
      stored as a nearest Number, it decides as the cents compare. *)
Theorem limit_check_is_binary64 (t : Transaction) (actor : Employee) :
  role actor = EMPLOYEE ->
  stored (amount t) = true ->
  stored (verificationLimit actor) = true ->
  exceedsLimit true t actor
    = (units (verificationLimit actor) <? units (amount t))
  /\ (forall na da nl dl,
        exactly (amount t) na da ->
        exactly (verificationLimit actor) nl dl ->
        exceedsLimit true t actor = (nl * Zpos da <? na * Zpos dl))
  /\ (forall na da nl dl,
        nearest (amount t) na da ->
        nearest (verificationLimit actor) nl dl ->
        (na * Zpos dl = nl * Zpos da -> amount t = verificationLimit actor) ->
        na * Zpos dl <= nl * Zpos da ->
        exceedsLimit true t actor = false)
  /\ (forall ca cl,
        nearest (amount t) ca 100 ->
        nearest (verificationLimit actor) cl 100 ->
        (ca = cl -> amount t = verificationLimit actor) ->
        0 <= ca < 100 * 2 ^ 46 -> 0 <= cl < 100 * 2 ^ 46 ->
        exceedsLimit true t actor = (cl <? ca)).
Proof.
  intros Hrole Hsa Hsl.
  assert (Hrun : exceedsLimit true t actor
                 = (units (verificationLimit actor) <? units (amount t))).
  { unfold exceedsLimit. rewrite Hrole, (gt_exact _ _ Hsa Hsl).
    cbn. rewrite !andb_true_r. reflexivity. }
  assert (Hsame : amount t = verificationLimit actor ->
                  exceedsLimit true t actor = false).
  { intros E. rewrite Hrun, E. apply Z.ltb_irrefl. }
  assert (Hmono : forall na da nl dl,
            nearest (amount t) na da ->
            nearest (verificationLimit actor) nl dl ->
            na * Zpos dl < nl * Zpos da ->
            exceedsLimit true t actor = false).
  { intros na da nl dl Ha Hl Hlt. rewrite Hrun. apply Z.ltb_ge.
    apply (nearest_monotone _ _ na nl da dl); assumption. }
  split; [exact Hrun|]. split; [|split].
  - intros na da nl dl [_ Ha] [_ Hl]. rewrite Hrun.
    assert (HK : 0 < 2 ^ 1074) by (apply Z.pow_pos_nonneg; lia).
    set (K := 2 ^ 1074) in *.
    set (ua := units (amount t)) in *.
    set (ul := units (verificationLimit actor)) in *.
    assert (E1 : Zpos da * Zpos dl * ul = (nl * Zpos da) * K)
      by (rewrite <- Z.mul_assoc, Hl; ring).
    assert (E2 : Zpos da * Zpos dl * ua = (na * Zpos dl) * K)
      by (replace (Zpos da * Zpos dl * ua) with (Zpos dl * (Zpos da * ua)) by ring;
          rewrite Ha; ring).
    assert (Hd : 0 < Zpos da * Zpos dl) by lia.
    destruct (ul <? ua) eqn:E; symmetry.
    + apply Z.ltb_lt in E. apply Z.ltb_lt.
      apply (Z.mul_lt_mono_pos_l (Zpos da * Zpos dl)) in E; [|exact Hd].
      rewrite E1, E2 in E. apply Z.mul_lt_mono_pos_r in E; assumption.
    + apply Z.ltb_ge in E. apply Z.ltb_ge.
      apply (Z.mul_le_mono_pos_l _ _ (Zpos da * Zpos dl)) in E; [|exact Hd].
      rewrite E1, E2 in E. apply Z.mul_le_mono_pos_r in E; assumption.
  - intros na da nl dl Ha Hl Heq Hle.
    destruct (Z.eq_dec (na * Zpos dl) (nl * Zpos da)) as [E|E].
    + apply Hsame, Heq, E.
    + apply (Hmono na da nl dl Ha Hl). lia.
  - intros ca cl Ha Hl Heq Hca Hcl.
    destruct (Z.compare_spec ca cl) as [E|E|E].
    + rewrite (Hsame (Heq E)). symmetry. apply Z.ltb_ge. lia.
    + rewrite (Hmono ca 100%positive cl 100%positive Ha Hl ltac:(lia)).
      symmetry. apply Z.ltb_ge. lia.
    + rewrite Hrun.
      pose proof (nearest_monotone _ _ cl ca 100 100 Hl Ha ltac:(lia)) as Hle.
      destruct (Z.eq_dec (units (verificationLimit actor)) (units (amount t)))
        as [Eu|Eu].
      * exfalso.
        assert (Hl' : nearest (amount t) cl 100).
        { destruct Ha as [Hs Ha], Hl as [_ Hl]. split; [exact Hs|].
          intros y Hy. specialize (Hl y Hy). unfold off in *.
          rewrite <- Eu. exact Hl. }
        pose proof (cents_apart _ ca cl Ha Hl' Hca Hcl). lia.
      * transitivity true; [apply Z.ltb_lt; lia|symmetry; apply Z.ltb_lt; lia].
Qed.

End Values.

Lemma limit_check_witness :
  exceedsLimit true (Sample.payment Sample.id1 (Sample.cents 9999999) PENDING)
    Sample.jsmith = false
  /\ exceedsLimit true (Sample.payment Sample.id1 (Sample.cents 10000001) PENDING)
       Sample.jsmith = true.
Proof.
  assert (Hl : nearest (verificationLimit Sample.jsmith) 10000000 100).
  { apply exactly_nearest. split; vm_compute; reflexivity. }
  split.
  - refine (proj2 (proj2 (proj2
      (limit_check_is_binary64
         (Sample.payment Sample.id1 (Sample.cents 9999999) PENDING)
         Sample.jsmith eq_refl eq_refl eq_refl))) 9999999%Z 10000000%Z _ Hl _ _ _).
    + change (nearest (S754_finite false 6871946986405233 (-36)) 9999999 100).
      apply nearest_within_half_ulp; [reflexivity|reflexivity|].
      vm_compute. discriminate.
    + intros H. discriminate H.
    + lia.
    + lia.
  - refine (proj2 (proj2 (proj2
      (limit_check_is_binary64
         (Sample.payment Sample.id1 (Sample.cents 10000001) PENDING)
         Sample.jsmith eq_refl eq_refl eq_refl))) 10000001%Z 10000000%Z _ Hl _ _ _).
    + change (nearest (S754_finite false 6871948360794767 (-36)) 10000001 100).
      apply nearest_within_half_ulp; [reflexivity|reflexivity|].
      vm_compute. discriminate.
    + intros H. discriminate H.
    + lia.
    + lia.
Defined.

(* ================================================================= *)
(** ** The login route on JSON bodies *)

Section RawLogin.

Context {L : Libraries}.
Variable Number_toString : Number -> string.

Lemma findByCredentials_on_text (now : Date) (u i : string) (w : World) :
  findByCredentials_json Number_toString now (JString u) (JString i) w
  = findByCredentials now u i w.
Proof.
  unfold findByCredentials_json, findByCredentials, findOne_credentials.
  cbn [filter_texts cast_each castString]. unfold bind, gets.
  replace (find (fun d => one_of [u] (username d) && one_of [i] (employeeId d)
                          && Bool.eqb (isActive d) true) (employees w))
    with (find (fun d => (username d =? u) && (employeeId d =? i)
                         && Bool.eqb (isActive d) true) (employees w)).
  - reflexivity.
  - induction (employees w) as [|d ds IH]; [reflexivity|].
    cbn [find]. unfold one_of at 1 2. cbn [existsb]. rewrite !orb_false_r.
    rewrite IH. reflexivity.
Qed.

(** On a request whose properties are strings or absent, the route on
    JSON bodies is [login]. *)
Lemma login_route_on_text (env : Env) (clk : LoginClock) (req : LoginRequest)
    (w : World) :
  login_route Number_toString env clk (as_body req) w = login env clk req w.
Proof.
  destruct req as [u i pw].
  unfold login_route, login, as_body, refuses, test.
  cbn [raw_username raw_employeeId raw_password req_username req_employeeId
       req_password].
  destruct u as [u|]; cbn [as_value truthy_value JS.truthy JS.toString ToString];
    [|reflexivity].
  destruct (u =? EmptyString) eqn:Eu; cbn [negb orb]; [reflexivity|].
  unfold bind at 1 2. unfold ret at 1 2.
  destruct (patterns_username u); cbn [negb]; [|reflexivity].
  destruct i as [i|]; cbn [as_value truthy_value JS.truthy JS.toString ToString];
    [|reflexivity].
  destruct (i =? EmptyString) eqn:Ei; cbn [negb orb]; [reflexivity|].
  unfold bind at 1 2. unfold ret at 1 2.
  destruct (employeeId_pattern i); cbn [negb]; [|reflexivity].
  destruct pw as [pw|]; cbn [as_value truthy_value JS.truthy JS.toString typeof];
    [|reflexivity].
  destruct (pw =? EmptyString) eqn:Ep; cbn [negb orb]; [reflexivity|].
  replace ("string" =? "string") with true by reflexivity. cbn [negb].
  cbn [string_of audit_value].
  unfold tryCatch. unfold bind at 1 5.
  rewrite findByCredentials_on_text. reflexivity.
Qed.

Lemma refuses_failing (pattern : string -> bool) (v : JsValue) (w : World) :
  text_fails Number_toString pattern v ->
  refuses Number_toString pattern v w = (Next true, w).
Proof.
  unfold refuses, test. intros [H|(s & Hs & Hp)].
  - rewrite H. reflexivity.
  - destruct (truthy_value v); [|reflexivity]. cbn [negb].
    rewrite Hs. unfold bind, ret. rewrite Hp. reflexivity.
Qed.

Lemma refuses_passing (pattern : string -> bool) (v : JsValue) (w : World) :
  text_passes Number_toString pattern v ->
  refuses Number_toString pattern v w = (Next false, w).
Proof.
  unfold refuses, test. intros (H & s & Hs & Hp).
  rewrite H. cbn [negb]. rewrite Hs. unfold bind, ret. rewrite Hp. reflexivity.
Qed.

(** What the three guards of the route do refuse, on any JSON body: a
    falsy value, a value whose text fails the pattern, a password that
    is no string.  The answer is fixed by the request and the store is
    handed back as it was. *)
Lemma login_route_validation (env : Env) (clk : LoginClock) (body : RawLoginBody)
    (w : World) :
  (text_fails Number_toString patterns_username (raw_username body) ->
   login_route Number_toString env clk body w
   = (Sent (error 400 "Invalid username format"), w))
  /\ (text_passes Number_toString patterns_username (raw_username body) ->
      text_fails Number_toString employeeId_pattern (raw_employeeId body) ->
      login_route Number_toString env clk body w
      = (Sent (error 400 "Invalid employee ID format"), w))
  /\ (text_passes Number_toString patterns_username (raw_username body) ->
      text_passes Number_toString employeeId_pattern (raw_employeeId body) ->
      truthy_value (raw_password body) = false
      \/ typeof (raw_password body) <> "string" ->
      login_route Number_toString env clk body w
      = (Sent (error 400 "Password is required"), w)).
Proof.
  unfold login_route. split; [|split].
  - intros Hu. unfold bind at 1. rewrite (refuses_failing _ _ _ Hu). reflexivity.
  - intros Hu Hi. unfold bind at 1. rewrite (refuses_passing _ _ _ Hu).
    unfold bind at 1. rewrite (refuses_failing _ _ _ Hi). reflexivity.
  - intros Hu Hi Hp. unfold bind at 1. rewrite (refuses_passing _ _ _ Hu).
    unfold bind at 1. rewrite (refuses_passing _ _ _ Hi).
    destruct Hp as [Hp|Hp].
    + rewrite Hp. reflexivity.
    + destruct (raw_password body) as [| |b|n|s|items|fields]; try reflexivity.
      * destruct b; reflexivity.
      * destruct (truthy_value (JNumber n)); reflexivity.
      * exfalso. apply Hp. reflexivity.
Qed.

(** No object, [null] or [undefined] gets past a guard, so the query
    that follows is made with a string, a number, a boolean or an
    array. *)
Lemma guards_pass_no_object (v : JsValue) :
  text_passes Number_toString patterns_username v
  \/ text_passes Number_toString employeeId_pattern v ->
  match v with
  | JUndefined | JNull | JObject _ => False
  | _ => True
  end.
Proof.
  intros [(Ht & s & Hs & Hp)|(Ht & s & Hs & Hp)];
    destruct v as [| |b|n|t|items|fields]; try exact I; try discriminate Ht;
    cbn [ToString] in Hs; destruct (has_own "toString" fields);
    try discriminate Hs; injection Hs as <-; vm_compute in Hp; discriminate Hp.
Qed.

End RawLogin.

(** C9 fails on the code.  The username guard tests the text of the
    value and not its type, so the one-element array ['jsmith'] gets
    past it, and the route goes on to the store:
    - against a store that holds jsmith with three failed attempts the
      login is answered 200, the counter reset and [lastLoginAt] set;
    - against an empty store it is answered 401 and the event logged, so
      the answer depends on the store;
    - the password guard, next to it, does test the type: the same
      array as password is answered 400 whatever the store holds. *)
Theorem login_array_username_reaches_store (Number_toString : Number -> string) :
  (exists r w',
     login_route (L := Reference.libraries) Number_toString Sample.env
       (Sample.at_time Sample.T0) Sample.array_username
       (mkWorld [Sample.jsmith_with 3 None] [] [])
     = (Sent r, w')
     /\ code r = 200
     /\ map failedLoginAttempts (employees w') = [0]
     /\ map lastLoginAt (employees w') = [Some Sample.T0])
  /\ login_route (L := Reference.libraries) Number_toString Sample.env
       (Sample.at_time Sample.T0) Sample.array_username (mkWorld [] [] [])
     = (Sent (error 401 "Invalid credentials"),
        mkWorld [] []
          [AuthenticationEvent "EMPLOYEE_LOGIN_FAILED" false
             [("username", FJson (JArray [JString "jsmith"]));
              ("employeeId", FStr "EMP001");
              ("reason", FStr "Invalid credentials")]])
  /\ (forall w,
        login_route (L := Reference.libraries) Number_toString Sample.env
          (Sample.at_time Sample.T0) Sample.array_password w
        = (Sent (error 400 "Password is required"), w)).
Proof.
  split; [|split].
  - eexists. eexists. split; [vm_compute; reflexivity|].
    split; [reflexivity|]. split; reflexivity.
  - vm_compute. reflexivity.
  - intros w. reflexivity.
Qed.
